(** * OpenLRS receiver link engine (flight/PiOS/Common/pios_openlrs.c)

    A shallow embedding of the RFM22B OpenLRS driver of Tau Labs and the
    properties of its link engine: packet interval, PPM unpacking, carrier
    synthesis, bind reception, the scheduler iteration and the interrupt
    entry point.

    C integers are [Z] with the wrap-around of their width written out.
    The driver's device structure and its file-scope variables form the
    [world], together with the scripts of what the environment will answer
    (SPI input bytes, clock readings, interrupts during sleeps) and the
    trace of what the driver did to the outside (SPI transfers, sleeps,
    persistence calls).  Code runs in a small state-and-error monad: a
    computation ends [Done], is [Undefined] (the C code indexes outside an
    array) or is [Stalled] (the script of the run is exhausted, the driver
    is still running). *)

From Stdlib Require Import ZArith List Bool Lia.
From stdpp Require Import base list.
Import ListNotations.

#[local] Open Scope Z_scope.

(** ** Fixed-width integers *)

Definition u8 (x : Z) : Z := x mod 2 ^ 8.
Definition u16 (x : Z) : Z := x mod 2 ^ 16.
Definition u32 (x : Z) : Z := x mod 2 ^ 32.

(** [(int16_t) x] for [x] already reduced to 16 bits. *)
Definition i16 (x : Z) : Z :=
  let y := u16 x in if y <? 2 ^ 15 then y else y - 2 ^ 16.

(** [int] on the 32-bit target: the signed reading of a 32-bit pattern. *)
Definition i32 (x : Z) : Z :=
  let y := u32 x in if y <? 2 ^ 31 then y else y - 2 ^ 32.

(** ** Bind data

    [struct bind_data]; [hopchannel] is the array of [MAXHOPS] bytes. *)
Module BindData.
Record t : Type := mk {
  version : Z;
  serial_baudrate : Z;
  rf_frequency : Z;
  rf_magic : Z;
  rf_power : Z;
  rf_channel_spacing : Z;
  modem_params : Z;
  flags : Z;
  hopchannel : list Z
}.
End BindData.

Arguments u8 : simpl never.
Arguments u16 : simpl never.
Arguments u32 : simpl never.
Arguments i16 : simpl never.
Arguments i32 : simpl never.

(** ** Constants of the headers

    [pios_openlrs_priv.h] and [pios_rfm22b_regs.h] are not part of the
    sources at hand.  What the register map of the specification fixes is
    defined in [RFM22] below; every other macro is a field of [headers],
    over which the development is parametric. *)

Record headers : Type := {
  (* pios_openlrs_priv.h *)
  hdr_MAXHOPS : Z;
  hdr_BINDING_VERSION : Z;
  hdr_BINDING_FREQUENCY : Z;
  hdr_BINDING_POWER : Z;
  hdr_BIND_MAGIC : Z;
  hdr_TELEMETRY_MASK : Z;
  hdr_DIVERSITY_ENABLED : Z;
  hdr_TELEMETRY_PACKETSIZE : Z;
  hdr_OPENLRS_HOPCHANNEL_NUMELEM : Z;
  hdr_PIOS_OPENLRS_DEV_MAGIC : Z;
  hdr_GPIO0_TX_GPIO1_RX : Z;
  hdr_GPIO0_RX_GPIO1_TX : Z;
  (* the packed layout of struct bind_data: its size and the structure
     that a block of that many bytes is when read through the cast
     (uint8_t * ) &bind_data *)
  hdr_sizeof_bind_data : Z;
  hdr_bind_data_of_bytes : list Z -> BindData.t;
  (* build switches tested with #ifdef / #if defined *)
  hdr_LIMIT_RATE_TO_50HZ : bool;
  hdr_PIOS_WDG_RFM22B : bool;
  hdr_PIOS_LED_LINK : bool;
  hdr_PIOS_INCLUDE_OPENLRS_RCVR : bool;
  (* pios_rfm22b_regs.h, names the register map of the specification
     does not give a value *)
  hdr_RFM22_rx_fifo_control : Z;
  hdr_RFM22_opfc1_xton : Z;
  hdr_RFM22_opfc1_rxon : Z;
  hdr_RFM22_opfc1_txon : Z;
  hdr_RFM22_ie1_enpksent : Z;
  hdr_RFM22_ie1_enpkvalid : Z;
  hdr_RFM22_gpio0_config_txstate : Z;
  hdr_RFM22_gpio0_config_rxstate : Z;
  hdr_RFM22_gpio1_config_txstate : Z;
  hdr_RFM22_gpio1_config_rxstate : Z;
  hdr_RFM22_io_port_default : Z;
  hdr_RFM22_fbs_hbsel : Z
}.

Module RFM22.
(** Modelled from the spec: the register names of [pios_rfm22b_regs.h]
    (a header that is not among the sources), with the addresses of the
    register map in section 6.1 and the column heads of the modem table
    in section 6.3. *)
Definition interrupt_status1 : Z := 0x03.
Definition interrupt_status2 : Z := 0x04.
Definition interrupt_enable1 : Z := 0x05.
Definition interrupt_enable2 : Z := 0x06.
Definition op_and_func_ctrl1 : Z := 0x07.
Definition op_and_func_ctrl2 : Z := 0x08.
Definition xtal_osc_load_cap : Z := 0x09.
Definition cpu_output_clk : Z := 0x0A.
Definition gpio0_config : Z := 0x0B.
Definition gpio1_config : Z := 0x0C.
Definition gpio2_config : Z := 0x0D.
Definition io_port_config : Z := 0x0E.
Definition if_filter_bandwidth : Z := 0x1C.
Definition afc_loop_gearshift_override : Z := 0x1D.
Definition afc_timing_control : Z := 0x1E.
Definition clk_recovery_oversampling_ratio : Z := 0x20.
Definition clk_recovery_offset2 : Z := 0x21.
Definition clk_recovery_offset1 : Z := 0x22.
Definition clk_recovery_offset0 : Z := 0x23.
Definition clk_recovery_timing_loop_gain1 : Z := 0x24.
Definition clk_recovery_timing_loop_gain0 : Z := 0x25.
Definition afc_limiter : Z := 0x2A.
Definition data_access_control : Z := 0x30.
Definition header_control1 : Z := 0x32.
Definition header_control2 : Z := 0x33.
Definition preamble_length : Z := 0x34.
Definition preamble_detection_ctrl1 : Z := 0x35.
Definition sync_word3 : Z := 0x36.
Definition sync_word2 : Z := 0x37.
Definition sync_word1 : Z := 0x38.
Definition sync_word0 : Z := 0x39.
Definition transmit_header3 : Z := 0x3A.
Definition transmit_packet_length : Z := 0x3E.
Definition check_header3 : Z := 0x3F.
Definition header_enable3 : Z := 0x43.
Definition header_enable2 : Z := 0x44.
Definition header_enable1 : Z := 0x45.
Definition header_enable0 : Z := 0x46.
Definition tx_power : Z := 0x6D.
Definition tx_data_rate1 : Z := 0x6E.
Definition tx_data_rate0 : Z := 0x6F.
Definition modulation_mode_control1 : Z := 0x70.
Definition modulation_mode_control2 : Z := 0x71.
Definition frequency_deviation : Z := 0x72.
Definition frequency_offset1 : Z := 0x73.
Definition frequency_offset2 : Z := 0x74.
Definition frequency_band_select : Z := 0x75.
Definition nominal_carrier_frequency1 : Z := 0x76.
Definition nominal_carrier_frequency0 : Z := 0x77.
Definition frequency_hopping_channel_select : Z := 0x79.
Definition frequency_hopping_step_size : Z := 0x7A.
Definition fifo_access : Z := 0x7F.

(** Modelled from the spec: the layout of register 0x75, from golden
    scenario 6 (band [fb = 19] with the side-band bit reads [0x53]):
    [sbse] is bit 6 and [fb] the low five bits. *)
Definition fbs_sbse : Z := 0x40.
Definition fb_mask : Z := 0x1F.
End RFM22.

(** ** Data *)

(** [enum RF_MODE] of the device structure. *)
Inductive RF_MODE : Type :=
  Available | Transmit | Receive | Transmitted | Received.

Definition RF_MODE_eqb (a b : RF_MODE) : bool :=
  match a, b with
  | Available, Available | Transmit, Transmit | Receive, Receive
  | Transmitted, Transmitted | Received, Received => true
  | _, _ => false
  end.

(** [struct rfm22_modem_regs] and the table [modem_params]. *)
Record rfm22_modem_regs : Type := mk_regs {
  bps : Z;
  r_1c : Z; r_1d : Z; r_1e : Z; r_20 : Z; r_21 : Z; r_22 : Z; r_23 : Z;
  r_24 : Z; r_25 : Z; r_2a : Z; r_6e : Z; r_6f : Z; r_70 : Z; r_71 : Z;
  r_72 : Z
}.

Definition modem_params : list rfm22_modem_regs := [
  mk_regs 4800 0x1a 0x40 0x0a 0xa1 0x20 0x4e 0xa5 0x00 0x1b 0x1e 0x27 0x52 0x2c 0x23 0x30;
  mk_regs 9600 0x05 0x40 0x0a 0xa1 0x20 0x4e 0xa5 0x00 0x20 0x24 0x4e 0xa5 0x2c 0x23 0x30;
  mk_regs 19200 0x06 0x40 0x0a 0xd0 0x00 0x9d 0x49 0x00 0x7b 0x28 0x9d 0x49 0x2c 0x23 0x30;
  mk_regs 57600 0x05 0x40 0x0a 0x45 0x01 0xd7 0xdc 0x03 0xb8 0x1e 0x0e 0xbf 0x00 0x23 0x2e;
  mk_regs 125000 0x8a 0x40 0x0a 0x60 0x01 0x55 0x55 0x02 0xad 0x1e 0x20 0x00 0x00 0x23 0xc8
].

Definition pktsizes : list Z := [0; 7; 11; 12; 16; 17; 21; 0].

Definition OUT_FF : list Z := replicate 64 0xFF.

Definition bind_params : rfm22_modem_regs :=
  mk_regs 9600 0x05 0x40 0x0a 0xa1 0x20 0x4e 0xa5 0x00 0x20 0x24 0x4e 0xa5 0x2c 0x23 0x30.

(** ** The device, the file-scope variables and the environment *)

(** [struct pios_openlrs_dev], the fields the driver code touches.
    [gpio_direction] is [cfg.gpio_direction]; [rf_channel] is a byte, as
    [rfmSetChannel] takes it. *)
Record pios_openlrs_dev : Type := mk_dev {
  magic : Z;
  spi_id : Z;
  slave_num : Z;
  gpio_direction : Z;
  openlrs_rcvr_id : Z;
  ppm : list Z;
  link_acquired : bool;
  bind_data : BindData.t;
  rf_mode : RF_MODE;
  rf_channel : Z;
  it_status1 : Z;
  it_status2 : Z;
  rx_buf : list Z
}.

(** The variables at file scope. [g_openlrs_dev] tells whether the global
    handle points to the device ([false]: it is [NULL]). *)
Record statics : Type := mk_statics {
  tx_start : Z;
  hopcount : Z;
  lastPacketTimeUs : Z;
  numberOfLostPackets : Z;
  lastAFCCvalue : Z;
  linkQuality : Z;
  lastRSSITimeUs : Z;
  lastRSSIvalue : Z;
  RSSI_sum : Z;
  RSSI_count : Z;
  smoothRSSI : Z;
  willhop : bool;
  nextBeaconTimeMs : Z;
  linkLossTimeMs : Z;
  irqs : Z;
  g_openlrs_dev : bool
}.

(** What the outside will answer: the bytes the radio shifts out (one for
    each byte clocked in with a receive buffer), the successive readings of
    the microsecond and millisecond clocks, and for each sleep of the task
    whether the radio interrupts during it.  Past its end a script of
    bytes or of clock readings answers 0 (a run reads a finite part of
    them only); the interrupt script bounds the run: a sleep that finds it
    empty is [Stalled]. *)
Record environment : Type := mk_env {
  spi_in : list Z;
  us_clock : list Z;
  ms_clock : list Z;
  irq_script : list bool
}.

(** The calls the driver makes to its collaborators. *)
Inductive event : Type :=
| ClaimBus
| ReleaseBus
| PinSet (level : Z)
| WaituS (us : Z)
| TransferByte (b : Z)
| TransferBlock (send : list Z) (receive : bool)
| Sleep (ms : Z)
| WdgUpdate
| LedToggle
| RcvrUpdate (rcvr_id : Z) (channels : list Z)
| UavoSet (binding : BindData.t)
| UavoSave.

Record world : Type := mk_world {
  dev : pios_openlrs_dev;
  globals : statics;
  env : environment;
  trace : list event
}.

(** Field updates. *)
Definition with_dev (f : pios_openlrs_dev -> pios_openlrs_dev) (w : world) : world :=
  mk_world (f (dev w)) (globals w) (env w) (trace w).
Definition with_globals (f : statics -> statics) (w : world) : world :=
  mk_world (dev w) (f (globals w)) (env w) (trace w).
Definition with_env (f : environment -> environment) (w : world) : world :=
  mk_world (dev w) (globals w) (f (env w)) (trace w).
Definition with_trace (f : list event -> list event) (w : world) : world :=
  mk_world (dev w) (globals w) (env w) (f (trace w)).

Definition set_ppm (v : list Z) (d : pios_openlrs_dev) : pios_openlrs_dev :=
  mk_dev (magic d) (spi_id d) (slave_num d) (gpio_direction d) (openlrs_rcvr_id d)
    v (link_acquired d) (bind_data d) (rf_mode d) (rf_channel d)
    (it_status1 d) (it_status2 d) (rx_buf d).
Definition set_link_acquired (v : bool) (d : pios_openlrs_dev) : pios_openlrs_dev :=
  mk_dev (magic d) (spi_id d) (slave_num d) (gpio_direction d) (openlrs_rcvr_id d)
    (ppm d) v (bind_data d) (rf_mode d) (rf_channel d)
    (it_status1 d) (it_status2 d) (rx_buf d).
Definition set_bind_data (v : BindData.t) (d : pios_openlrs_dev) : pios_openlrs_dev :=
  mk_dev (magic d) (spi_id d) (slave_num d) (gpio_direction d) (openlrs_rcvr_id d)
    (ppm d) (link_acquired d) v (rf_mode d) (rf_channel d)
    (it_status1 d) (it_status2 d) (rx_buf d).
Definition set_rf_mode (v : RF_MODE) (d : pios_openlrs_dev) : pios_openlrs_dev :=
  mk_dev (magic d) (spi_id d) (slave_num d) (gpio_direction d) (openlrs_rcvr_id d)
    (ppm d) (link_acquired d) (bind_data d) v (rf_channel d)
    (it_status1 d) (it_status2 d) (rx_buf d).
Definition set_rf_channel (v : Z) (d : pios_openlrs_dev) : pios_openlrs_dev :=
  mk_dev (magic d) (spi_id d) (slave_num d) (gpio_direction d) (openlrs_rcvr_id d)
    (ppm d) (link_acquired d) (bind_data d) (rf_mode d) v
    (it_status1 d) (it_status2 d) (rx_buf d).
Definition set_it_status1 (v : Z) (d : pios_openlrs_dev) : pios_openlrs_dev :=
  mk_dev (magic d) (spi_id d) (slave_num d) (gpio_direction d) (openlrs_rcvr_id d)
    (ppm d) (link_acquired d) (bind_data d) (rf_mode d) (rf_channel d)
    v (it_status2 d) (rx_buf d).
Definition set_it_status2 (v : Z) (d : pios_openlrs_dev) : pios_openlrs_dev :=
  mk_dev (magic d) (spi_id d) (slave_num d) (gpio_direction d) (openlrs_rcvr_id d)
    (ppm d) (link_acquired d) (bind_data d) (rf_mode d) (rf_channel d)
    (it_status1 d) v (rx_buf d).
Definition set_rx_buf (v : list Z) (d : pios_openlrs_dev) : pios_openlrs_dev :=
  mk_dev (magic d) (spi_id d) (slave_num d) (gpio_direction d) (openlrs_rcvr_id d)
    (ppm d) (link_acquired d) (bind_data d) (rf_mode d) (rf_channel d)
    (it_status1 d) (it_status2 d) v.

Definition set_tx_start (v : Z) (g : statics) : statics :=
  mk_statics v (hopcount g) (lastPacketTimeUs g) (numberOfLostPackets g)
    (lastAFCCvalue g) (linkQuality g) (lastRSSITimeUs g) (lastRSSIvalue g)
    (RSSI_sum g) (RSSI_count g) (smoothRSSI g) (willhop g)
    (nextBeaconTimeMs g) (linkLossTimeMs g) (irqs g) (g_openlrs_dev g).
Definition set_hopcount (v : Z) (g : statics) : statics :=
  mk_statics (tx_start g) v (lastPacketTimeUs g) (numberOfLostPackets g)
    (lastAFCCvalue g) (linkQuality g) (lastRSSITimeUs g) (lastRSSIvalue g)
    (RSSI_sum g) (RSSI_count g) (smoothRSSI g) (willhop g)
    (nextBeaconTimeMs g) (linkLossTimeMs g) (irqs g) (g_openlrs_dev g).
Definition set_lastPacketTimeUs (v : Z) (g : statics) : statics :=
  mk_statics (tx_start g) (hopcount g) v (numberOfLostPackets g)
    (lastAFCCvalue g) (linkQuality g) (lastRSSITimeUs g) (lastRSSIvalue g)
    (RSSI_sum g) (RSSI_count g) (smoothRSSI g) (willhop g)
    (nextBeaconTimeMs g) (linkLossTimeMs g) (irqs g) (g_openlrs_dev g).
Definition set_numberOfLostPackets (v : Z) (g : statics) : statics :=
  mk_statics (tx_start g) (hopcount g) (lastPacketTimeUs g) v
    (lastAFCCvalue g) (linkQuality g) (lastRSSITimeUs g) (lastRSSIvalue g)
    (RSSI_sum g) (RSSI_count g) (smoothRSSI g) (willhop g)
    (nextBeaconTimeMs g) (linkLossTimeMs g) (irqs g) (g_openlrs_dev g).
Definition set_lastAFCCvalue (v : Z) (g : statics) : statics :=
  mk_statics (tx_start g) (hopcount g) (lastPacketTimeUs g) (numberOfLostPackets g)
    v (linkQuality g) (lastRSSITimeUs g) (lastRSSIvalue g)
    (RSSI_sum g) (RSSI_count g) (smoothRSSI g) (willhop g)
    (nextBeaconTimeMs g) (linkLossTimeMs g) (irqs g) (g_openlrs_dev g).
Definition set_linkQuality (v : Z) (g : statics) : statics :=
  mk_statics (tx_start g) (hopcount g) (lastPacketTimeUs g) (numberOfLostPackets g)
    (lastAFCCvalue g) v (lastRSSITimeUs g) (lastRSSIvalue g)
    (RSSI_sum g) (RSSI_count g) (smoothRSSI g) (willhop g)
    (nextBeaconTimeMs g) (linkLossTimeMs g) (irqs g) (g_openlrs_dev g).
Definition set_lastRSSITimeUs (v : Z) (g : statics) : statics :=
  mk_statics (tx_start g) (hopcount g) (lastPacketTimeUs g) (numberOfLostPackets g)
    (lastAFCCvalue g) (linkQuality g) v (lastRSSIvalue g)
    (RSSI_sum g) (RSSI_count g) (smoothRSSI g) (willhop g)
    (nextBeaconTimeMs g) (linkLossTimeMs g) (irqs g) (g_openlrs_dev g).
Definition set_lastRSSIvalue (v : Z) (g : statics) : statics :=
  mk_statics (tx_start g) (hopcount g) (lastPacketTimeUs g) (numberOfLostPackets g)
    (lastAFCCvalue g) (linkQuality g) (lastRSSITimeUs g) v
    (RSSI_sum g) (RSSI_count g) (smoothRSSI g) (willhop g)
    (nextBeaconTimeMs g) (linkLossTimeMs g) (irqs g) (g_openlrs_dev g).
Definition set_RSSI_sum (v : Z) (g : statics) : statics :=
  mk_statics (tx_start g) (hopcount g) (lastPacketTimeUs g) (numberOfLostPackets g)
    (lastAFCCvalue g) (linkQuality g) (lastRSSITimeUs g) (lastRSSIvalue g)
    v (RSSI_count g) (smoothRSSI g) (willhop g)
    (nextBeaconTimeMs g) (linkLossTimeMs g) (irqs g) (g_openlrs_dev g).
Definition set_RSSI_count (v : Z) (g : statics) : statics :=
  mk_statics (tx_start g) (hopcount g) (lastPacketTimeUs g) (numberOfLostPackets g)
    (lastAFCCvalue g) (linkQuality g) (lastRSSITimeUs g) (lastRSSIvalue g)
    (RSSI_sum g) v (smoothRSSI g) (willhop g)
    (nextBeaconTimeMs g) (linkLossTimeMs g) (irqs g) (g_openlrs_dev g).
Definition set_smoothRSSI (v : Z) (g : statics) : statics :=
  mk_statics (tx_start g) (hopcount g) (lastPacketTimeUs g) (numberOfLostPackets g)
    (lastAFCCvalue g) (linkQuality g) (lastRSSITimeUs g) (lastRSSIvalue g)
    (RSSI_sum g) (RSSI_count g) v (willhop g)
    (nextBeaconTimeMs g) (linkLossTimeMs g) (irqs g) (g_openlrs_dev g).
Definition set_willhop (v : bool) (g : statics) : statics :=
  mk_statics (tx_start g) (hopcount g) (lastPacketTimeUs g) (numberOfLostPackets g)
    (lastAFCCvalue g) (linkQuality g) (lastRSSITimeUs g) (lastRSSIvalue g)
    (RSSI_sum g) (RSSI_count g) (smoothRSSI g) v
    (nextBeaconTimeMs g) (linkLossTimeMs g) (irqs g) (g_openlrs_dev g).
Definition set_nextBeaconTimeMs (v : Z) (g : statics) : statics :=
  mk_statics (tx_start g) (hopcount g) (lastPacketTimeUs g) (numberOfLostPackets g)
    (lastAFCCvalue g) (linkQuality g) (lastRSSITimeUs g) (lastRSSIvalue g)
    (RSSI_sum g) (RSSI_count g) (smoothRSSI g) (willhop g)
    v (linkLossTimeMs g) (irqs g) (g_openlrs_dev g).
Definition set_linkLossTimeMs (v : Z) (g : statics) : statics :=
  mk_statics (tx_start g) (hopcount g) (lastPacketTimeUs g) (numberOfLostPackets g)
    (lastAFCCvalue g) (linkQuality g) (lastRSSITimeUs g) (lastRSSIvalue g)
    (RSSI_sum g) (RSSI_count g) (smoothRSSI g) (willhop g)
    (nextBeaconTimeMs g) v (irqs g) (g_openlrs_dev g).
Definition set_irqs (v : Z) (g : statics) : statics :=
  mk_statics (tx_start g) (hopcount g) (lastPacketTimeUs g) (numberOfLostPackets g)
    (lastAFCCvalue g) (linkQuality g) (lastRSSITimeUs g) (lastRSSIvalue g)
    (RSSI_sum g) (RSSI_count g) (smoothRSSI g) (willhop g)
    (nextBeaconTimeMs g) (linkLossTimeMs g) v (g_openlrs_dev g).

(** ** The monad of driver code *)

Inductive outcome (A : Type) : Type :=
| Done (a : A) (w : world)
| Undefined
| Stalled.
Arguments Done {A} a w.
Arguments Undefined {A}.
Arguments Stalled {A}.

Definition M (A : Type) : Type := world -> outcome A.

Definition ret {A : Type} (a : A) : M A := fun w => Done a w.

Definition bind {A B : Type} (m : M A) (k : A -> M B) : M B :=
  fun w =>
    match m w with
    | Done a w' => k a w'
    | Undefined => Undefined
    | Stalled => Stalled
    end.

Declare Scope drv_scope.
Delimit Scope drv_scope with drv.
Notation "x <- c1 ;; c2" := (bind c1 (fun x => c2))
  (at level 100, c1 at next level, c2 at level 200, right associativity) : drv_scope.
Notation "c1 ;; c2" := (bind c1 (fun _ => c2))
  (at level 100, c2 at level 200, right associativity) : drv_scope.
#[local] Open Scope drv_scope.

Definition gets {A : Type} (f : world -> A) : M A := fun w => Done (f w) w.
Definition modify (f : world -> world) : M unit := fun w => Done tt (f w).
Definition undefined {A : Type} : M A := fun _ => Undefined.
Definition stalled {A : Type} : M A := fun _ => Stalled.

(** An array access: no value means the index is out of bounds. *)
Definition lift {A : Type} (o : option A) : M A :=
  match o with
  | Some a => ret a
  | None => undefined
  end.

Definition when (b : bool) (m : M unit) : M unit := if b then m else ret tt.

Definition emit (e : event) : M unit :=
  modify (with_trace (fun t => t ++ [e])).

Definition set_dev (f : pios_openlrs_dev -> pios_openlrs_dev) : M unit :=
  modify (with_dev f).
Definition set_global (f : statics -> statics) : M unit :=
  modify (with_globals f).

(** The next byte from the radio. *)
Definition spi_byte : M Z :=
  fun w =>
    Done (hd 0 (spi_in (env w)))
      (with_env (fun e => mk_env (tl (spi_in e)) (us_clock e) (ms_clock e) (irq_script e)) w).

Fixpoint spi_bytes (n : nat) : M (list Z) :=
  match n with
  | O => ret []
  | S n' => b <- spi_byte;; bs <- spi_bytes n';; ret (b :: bs)
  end.

(** [micros ()] and [millis ()]: the next clock readings. *)
Definition micros : M Z :=
  fun w =>
    Done (hd 0 (us_clock (env w)))
      (with_env (fun e => mk_env (spi_in e) (tl (us_clock e)) (ms_clock e) (irq_script e)) w).

Definition millis : M Z :=
  fun w =>
    Done (hd 0 (ms_clock (env w)))
      (with_env (fun e => mk_env (spi_in e) (us_clock e) (tl (ms_clock e)) (irq_script e)) w).

(** Whether the radio interrupts during the sleep that starts now. *)
Definition next_irq : M bool :=
  fun w =>
    match irq_script (env w) with
    | [] => Stalled
    | b :: rest =>
        Done b (with_env (fun e => mk_env (spi_in e) (us_clock e) (ms_clock e) rest) w)
    end.

(** Loops.  [loop fuel s cond body] is [while (cond) body] with the local
    variables [s] of the loop; the body ends a turn with the new locals, or
    leaves the function with [return a].  In the driver every turn of a
    loop sleeps once, and so uses up one entry of the interrupt script:
    [while_ s cond body] gives the loop one turn more than there are
    entries. *)
Fixpoint loop {S A : Type} (fuel : nat) (s : S) (cond : S -> M bool)
    (body : S -> M (S + A)) : M (S + A) :=
  match fuel with
  | O => stalled
  | Datatypes.S fuel' =>
      c <- cond s;;
      if c then
        r <- body s;;
        match r with
        | inl s' => loop fuel' s' cond body
        | inr a => ret (inr a)
        end
      else ret (inl s)
  end.

Definition while_ {S A : Type} (s : S) (cond : S -> M bool)
    (body : S -> M (S + A)) : M (S + A) :=
  fun w => loop (Datatypes.S (length (irq_script (env w)))) s cond body w.

(** ** Data formatting utilities *)

Section Driver.

Variable hdr : headers.

#[local] Abbreviation MAXHOPS := (hdr_MAXHOPS hdr).
#[local] Abbreviation BINDING_VERSION := (hdr_BINDING_VERSION hdr).
#[local] Abbreviation BINDING_FREQUENCY := (hdr_BINDING_FREQUENCY hdr).
#[local] Abbreviation BINDING_POWER := (hdr_BINDING_POWER hdr).
#[local] Abbreviation BIND_MAGIC := (hdr_BIND_MAGIC hdr).
#[local] Abbreviation TELEMETRY_MASK := (hdr_TELEMETRY_MASK hdr).
#[local] Abbreviation DIVERSITY_ENABLED := (hdr_DIVERSITY_ENABLED hdr).
#[local] Abbreviation TELEMETRY_PACKETSIZE := (hdr_TELEMETRY_PACKETSIZE hdr).
#[local] Abbreviation LIMIT_RATE_TO_50HZ := (hdr_LIMIT_RATE_TO_50HZ hdr).

Definition getPacketSize (bd : BindData.t) : Z :=
  nth (Z.to_nat (Z.land (BindData.flags bd) 0x07)) pktsizes 0.

(** The macro of [getInterval]: [(uint32_t)(bytes + (div ? 20 : 15))
    * 8200000L / (uint32_t) bps], the product in 32 bits. *)
Definition BYTES_AT_BAUD_TO_USEC (bytes bps div : Z) : Z :=
  u32 (u32 (bytes + (if div =? 0 then 15 else 20)) * 8200000) / u32 bps.

(** Rounding and the optional floor at the end of [getInterval]. *)
Definition round_up_ms (ret : Z) : Z := u32 (u32 (ret + 999) / 1000 * 1000).

Definition limit_rate (ret : Z) : Z :=
  if LIMIT_RATE_TO_50HZ && (ret <? 20000) then 20000 else ret.

(** [getInterval]; [None] when [modem_params[bd->modem_params]] lies
    outside the table. *)
Definition getInterval (bd : BindData.t) : option Z :=
  match modem_params !! Z.to_nat (BindData.modem_params bd) with
  | None => None
  | Some r =>
      let div := Z.land (BindData.flags bd) DIVERSITY_ENABLED in
      let ret := u32 (BYTES_AT_BAUD_TO_USEC (getPacketSize bd) (bps r) div + 2000) in
      let ret :=
        if Z.land (BindData.flags bd) TELEMETRY_MASK =? 0 then ret
        else u32 (ret + u32 (BYTES_AT_BAUD_TO_USEC TELEMETRY_PACKETSIZE (bps r) div + 1000)) in
      Some (limit_rate (round_up_ms ret))
  end.

Arguments getInterval : simpl never.

(** Array cells: a read or a write outside the array has no value. *)
Definition store (a : list Z) (i : nat) (v : Z) : option (list Z) :=
  if (i <? length a)%nat then Some (<[i := v]> a) else None.

(** The body of the loop of [unpackChannels], with [PPM] advanced by [o]
    cells and [p] by [q] bytes. *)
Definition unpack_group (PPM : list Z) (o : nat) (p : list Z) (q : nat)
  : option (list Z) :=
  p0 ← p !! q; p1 ← p !! (q + 1)%nat; p2 ← p !! (q + 2)%nat;
  p3 ← p !! (q + 3)%nat; p4 ← p !! (q + 4)%nat;
  PPM ← store PPM o (i16 (Z.shiftl (Z.land (u16 p4) 0x03) 8 + p0));
  PPM ← store PPM (o + 1) (i16 (Z.shiftl (Z.land (u16 p4) 0x0c) 6 + p1));
  PPM ← store PPM (o + 2) (i16 (Z.shiftl (Z.land (u16 p4) 0x30) 4 + p2));
  store PPM (o + 3) (i16 (Z.shiftl (Z.land (u16 p4) 0xc0) 2 + p3)).

(** [n] turns of the loop: [p += 5; PPM += 4] after each. *)
Fixpoint unpack_loop (n : nat) (PPM : list Z) (o : nat) (p : list Z) (q : nat)
  : option (list Z * nat * nat) :=
  match n with
  | O => Some (PPM, o, q)
  | S n' =>
      PPM' ← unpack_group PPM o p q;
      unpack_loop n' PPM' (o + 4) p (q + 5)
  end.

(** The trailing byte: four channels of two bits each, the first channel
    in the two high bits. *)
Definition unpack_coarse (PPM : list Z) (o : nat) (p : list Z) (q : nat)
  : option (list Z) :=
  b ← p !! q;
  PPM ← store PPM o (i16 (Z.land (Z.shiftr (u16 b) 6) 3 * 333 + 12));
  PPM ← store PPM (o + 1) (i16 (Z.land (Z.shiftr (u16 b) 4) 3 * 333 + 12));
  PPM ← store PPM (o + 2) (i16 (Z.land (Z.shiftr (u16 b) 2) 3 * 333 + 12));
  store PPM (o + 3) (i16 (Z.land (Z.shiftr (u16 b) 0) 3 * 333 + 12)).

(** [unpackChannels (config, PPM, p)]: the loop runs for
    [i = 0 .. config / 2], then the trailing byte when [config] is odd.
    The result is the array [PPM] after the call. *)
Definition unpackChannels (config : Z) (PPM p : list Z) : option (list Z) :=
  '(PPM, o, q) ← unpack_loop (Z.to_nat (u8 config / 2 + 1)) PPM 0 p 0;
  if Z.land (u8 config) 1 =? 0 then Some PPM else unpack_coarse PPM o p q.



(** ** Interrupt entry point and sleeping *)

#[local] Abbreviation PIOS_OPENLRS_DEV_MAGIC := (hdr_PIOS_OPENLRS_DEV_MAGIC hdr).
#[local] Abbreviation PIOS_WDG_RFM22B := (hdr_PIOS_WDG_RFM22B hdr).
#[local] Abbreviation PIOS_LED_LINK := (hdr_PIOS_LED_LINK hdr).
#[local] Abbreviation PIOS_INCLUDE_OPENLRS_RCVR := (hdr_PIOS_INCLUDE_OPENLRS_RCVR hdr).
#[local] Abbreviation OPENLRS_HOPCHANNEL_NUMELEM := (hdr_OPENLRS_HOPCHANNEL_NUMELEM hdr).
#[local] Abbreviation GPIO0_TX_GPIO1_RX := (hdr_GPIO0_TX_GPIO1_RX hdr).
#[local] Abbreviation GPIO0_RX_GPIO1_TX := (hdr_GPIO0_RX_GPIO1_TX hdr).
#[local] Abbreviation sizeof_bind_data := (hdr_sizeof_bind_data hdr).
#[local] Abbreviation bind_data_of_bytes := (hdr_bind_data_of_bytes hdr).
#[local] Abbreviation RF22B_PWRSTATE_READY := (hdr_RFM22_opfc1_xton hdr).
#[local] Abbreviation RF22B_PWRSTATE_RX :=
  (Z.lor (hdr_RFM22_opfc1_rxon hdr) (hdr_RFM22_opfc1_xton hdr)).
#[local] Abbreviation RF22B_PWRSTATE_TX :=
  (Z.lor (hdr_RFM22_opfc1_txon hdr) (hdr_RFM22_opfc1_xton hdr)).
#[local] Abbreviation RF22B_PACKET_SENT_INTERRUPT := (hdr_RFM22_ie1_enpksent hdr).
#[local] Abbreviation RF22B_RX_PACKET_RECEIVED_IRQ := (hdr_RFM22_ie1_enpkvalid hdr).

(** [pios_openlrs_validate]: the pointer is not [NULL] and the structure
    carries the magic number. *)
Definition pios_openlrs_validate (not_null : bool) : M bool :=
  m <- gets (fun w => magic (dev w));;
  ret (not_null && (m =? PIOS_OPENLRS_DEV_MAGIC)).

Definition PIOS_OpenLRS_EXT_Int : M bool :=
  set_global (fun g => set_irqs (u32 (irqs g + 1)) g);;
  p <- gets (fun w => g_openlrs_dev (globals w));;
  ok <- pios_openlrs_validate p;;
  if negb ok then ret false
  else
    mode <- gets (fun w => rf_mode (dev w));;
    (if RF_MODE_eqb mode Transmit then set_dev (set_rf_mode Transmitted)
     else if RF_MODE_eqb mode Receive then set_dev (set_rf_mode Received)
     else ret tt);;
    ret false.

(** [PIOS_Thread_Sleep]: the task is suspended; the interrupt handler runs
    if the radio raises its line meanwhile. *)
Definition PIOS_Thread_Sleep (ms : Z) : M unit :=
  emit (Sleep ms);;
  irq <- next_irq;;
  when irq (_ <- PIOS_OpenLRS_EXT_Int;; ret tt).

Definition delay (time : Z) : M unit := PIOS_Thread_Sleep time.

Definition PIOS_WDG_UpdateFlag : M unit := when PIOS_WDG_RFM22B (emit WdgUpdate).
Definition PIOS_LED_Toggle : M unit := when PIOS_LED_LINK (emit LedToggle).

(** ** SPI read and write functions *)

Definition rfm22_assertCs : M unit :=
  emit (WaituS 1);;
  id <- gets (fun w => spi_id (dev w));;
  when (negb (id =? 0)) (emit (PinSet 0)).

Definition rfm22_deassertCs : M unit :=
  id <- gets (fun w => spi_id (dev w));;
  when (negb (id =? 0)) (emit (PinSet 1)).

Definition rfm22_claimBus : M unit :=
  id <- gets (fun w => spi_id (dev w));;
  when (negb (id =? 0)) (emit ClaimBus).

Definition rfm22_releaseBus : M unit :=
  id <- gets (fun w => spi_id (dev w));;
  when (negb (id =? 0)) (emit ReleaseBus).

(** [PIOS_SPI_TransferBlock] without and with a receive buffer, and
    [PIOS_SPI_TransferByte]. *)
Definition PIOS_SPI_TransferBlock_tx (send : list Z) : M unit :=
  emit (TransferBlock send false).

Definition PIOS_SPI_TransferBlock_rx (send : list Z) : M (list Z) :=
  emit (TransferBlock send true);;
  spi_bytes (length send).

Definition PIOS_SPI_TransferByte (b : Z) : M Z :=
  emit (TransferByte b);;
  spi_byte.

(** A block transfer that sends the first [n] bytes of [OUT_FF]. *)
Definition transfer_OUT_FF (n : Z) : M (list Z) :=
  if (0 <=? n) && (n <=? Z.of_nat (length OUT_FF))
  then PIOS_SPI_TransferBlock_rx (take (Z.to_nat n) OUT_FF)
  else undefined.

Definition rfm22_write (addr data : Z) : M unit :=
  rfm22_assertCs;;
  PIOS_SPI_TransferBlock_tx [u8 (Z.lor (u8 addr) 0x80); u8 data];;
  rfm22_deassertCs.

Definition rfm22_write_claim (addr data : Z) : M unit :=
  rfm22_claimBus;;
  rfm22_assertCs;;
  PIOS_SPI_TransferBlock_tx [u8 (Z.lor (u8 addr) 0x80); u8 data];;
  rfm22_deassertCs;;
  rfm22_releaseBus.

Definition rfm22_read (addr : Z) : M Z :=
  rfm22_assertCs;;
  inb <- PIOS_SPI_TransferBlock_rx [Z.land (u8 addr) 0x7F; 0xFF];;
  rfm22_deassertCs;;
  ret (nth 1 inb 0).

Definition rfm22_read_claim (addr : Z) : M Z :=
  rfm22_claimBus;;
  rfm22_assertCs;;
  inb <- PIOS_SPI_TransferBlock_rx [Z.land (u8 addr) 0x7F; 0xFF];;
  rfm22_deassertCs;;
  rfm22_releaseBus;;
  ret (nth 1 inb 0).

(** ** Hardware access *)

Definition rfmSetChannel (ch : Z) : M unit :=
  bd <- gets (fun w => bind_data (dev w));;
  let magicLSB := u8 (Z.lxor (Z.land (BindData.rf_magic bd) 0xff) (u8 ch)) in
  rfm22_claimBus;;
  hop <- lift (BindData.hopchannel bd !! Z.to_nat (u8 ch));;
  rfm22_write RFM22.frequency_hopping_channel_select hop;;
  rfm22_write (RFM22.transmit_header3 + 3) magicLSB;;
  rfm22_write (RFM22.check_header3 + 3) magicLSB;;
  rfm22_releaseBus.

Definition rfmGetRSSI : M Z := rfm22_read_claim 0x26.

Definition rfmGetAFCC : M Z :=
  hi <- rfm22_read_claim 0x2B;;
  lo <- rfm22_read_claim 0x2C;;
  ret (u16 (Z.lor (Z.shiftl (u16 hi) 2) (Z.shiftr (u16 lo) 6))).

Definition setModemRegs (r : rfm22_modem_regs) : M unit :=
  rfm22_claimBus;;
  rfm22_write RFM22.if_filter_bandwidth (r_1c r);;
  rfm22_write RFM22.afc_loop_gearshift_override (r_1d r);;
  rfm22_write RFM22.afc_timing_control (r_1e r);;
  rfm22_write RFM22.clk_recovery_oversampling_ratio (r_20 r);;
  rfm22_write RFM22.clk_recovery_offset2 (r_21 r);;
  rfm22_write RFM22.clk_recovery_offset1 (r_22 r);;
  rfm22_write RFM22.clk_recovery_offset0 (r_23 r);;
  rfm22_write RFM22.clk_recovery_timing_loop_gain1 (r_24 r);;
  rfm22_write RFM22.clk_recovery_timing_loop_gain0 (r_25 r);;
  rfm22_write RFM22.afc_limiter (r_2a r);;
  rfm22_write RFM22.tx_data_rate1 (r_6e r);;
  rfm22_write RFM22.tx_data_rate0 (r_6f r);;
  rfm22_write RFM22.modulation_mode_control1 (r_70 r);;
  rfm22_write RFM22.modulation_mode_control2 (r_71 r);;
  rfm22_write RFM22.frequency_deviation (r_72 r);;
  rfm22_releaseBus.

(** The three local variables [hbsel], [fb], [fc] of
    [rfmSetCarrierFrequency], all [uint16_t]; [f] is [uint32_t].  The
    product [(fb + 24) * 10000000] is an [int]. *)
Definition carrier_hbsel (f : Z) : Z := if f <? 480000000 then 0 else 1.

Definition carrier_fb (f : Z) : Z :=
  if f <? 480000000 then u16 (u32 (f / 10000000 - 24))
  else u16 (u32 (f / 20000000 - 24)).

Definition carrier_fc (f : Z) : Z :=
  let fb := carrier_fb f in
  if f <? 480000000
  then u16 (u32 (u32 (f - i32 ((fb + 24) * 10000000)) * 4) / 625)
  else u16 (u32 (u32 (f - i32 ((fb + 24) * 20000000)) * 2) / 625).

Definition rfmSetCarrierFrequency (f : Z) : M unit :=
  let hbsel := carrier_hbsel f in
  let fb := carrier_fb f in
  let fc := carrier_fc f in
  rfm22_claimBus;;
  rfm22_write RFM22.frequency_band_select
    (RFM22.fbs_sbse + (if hbsel =? 0 then 0 else hdr_RFM22_fbs_hbsel hdr)
     + Z.land fb RFM22.fb_mask);;
  rfm22_write RFM22.nominal_carrier_frequency1 (Z.shiftr fc 8);;
  rfm22_write RFM22.nominal_carrier_frequency0 (Z.land fc 0xff);;
  rfm22_releaseBus.

(** The gpio routing of [init_rfm]: a [switch] with two cases and no
    default. *)
Definition init_rfm_gpio : M unit :=
  dir <- gets (fun w => gpio_direction (dev w));;
  if dir =? GPIO0_TX_GPIO1_RX then
    rfm22_write RFM22.gpio0_config (hdr_RFM22_gpio0_config_txstate hdr);;
    rfm22_write RFM22.gpio1_config (hdr_RFM22_gpio1_config_rxstate hdr)
  else if dir =? GPIO0_RX_GPIO1_TX then
    rfm22_write RFM22.gpio0_config (hdr_RFM22_gpio0_config_rxstate hdr);;
    rfm22_write RFM22.gpio1_config (hdr_RFM22_gpio1_config_txstate hdr)
  else ret tt.

(** The loop of [init_rfm] that writes the four header bytes, most
    significant first. *)
Fixpoint init_rfm_header (n : nat) (i : Z) (magic : Z) : M unit :=
  match n with
  | O => ret tt
  | S n' =>
      rfm22_write (RFM22.transmit_header3 + i) (Z.land (Z.shiftr magic 24) 0xff);;
      rfm22_write (RFM22.check_header3 + i) (Z.land (Z.shiftr magic 24) 0xff);;
      init_rfm_header n' (i + 1) (u32 (Z.shiftl magic 8))
  end.

(** [n] times [PIOS_Thread_Sleep (ms)], as between the debug prints. *)
Fixpoint sleeps (n : nat) (ms : Z) : M unit :=
  match n with
  | O => ret tt
  | S n' => PIOS_Thread_Sleep ms;; sleeps n' ms
  end.

(** The first bus transaction of [init_rfm]: interrupt status, power
    state, crystal, clock output and gpio routing. *)
Definition init_rfm_ready : M unit :=
  rfm22_claimBus;;
  s1 <- rfm22_read RFM22.interrupt_status1;;
  set_dev (set_it_status1 s1);;
  s2 <- rfm22_read RFM22.interrupt_status2;;
  set_dev (set_it_status2 s2);;
  rfm22_write RFM22.interrupt_enable2 0x00;;
  rfm22_write RFM22.op_and_func_ctrl1 RF22B_PWRSTATE_READY;;
  rfm22_write RFM22.xtal_osc_load_cap 0x7f;;
  rfm22_write RFM22.cpu_output_clk 0x05;;
  init_rfm_gpio;;
  rfm22_write RFM22.gpio2_config 0xfd;;
  rfm22_write RFM22.io_port_config (hdr_RFM22_io_port_default hdr);;
  rfm22_releaseBus.

(** The second bus transaction of [init_rfm], headed "Packet settings". *)
Definition init_rfm_packet (isbind : bool) (bd : BindData.t) : M unit :=
  rfm22_claimBus;;
  rfm22_write RFM22.data_access_control 0x8c;;
  rfm22_write RFM22.header_control1 0x0f;;
  rfm22_write RFM22.header_control2 0x42;;
  rfm22_write RFM22.preamble_length
    (if Z.land (BindData.flags bd) DIVERSITY_ENABLED =? 0 then 0x0a else 0x14);;
  rfm22_write RFM22.preamble_detection_ctrl1 0x2a;;
  rfm22_write RFM22.sync_word3 0x2d;;
  rfm22_write RFM22.sync_word2 0xd4;;
  rfm22_write RFM22.sync_word1 0x00;;
  rfm22_write RFM22.sync_word0 0x00;;
  init_rfm_header 4 0 (u32 (if isbind then BIND_MAGIC else BindData.rf_magic bd));;
  rfm22_write RFM22.header_enable3 0xff;;
  rfm22_write RFM22.header_enable2 0xff;;
  rfm22_write RFM22.header_enable1 0xff;;
  rfm22_write RFM22.header_enable0 0xff;;
  rfm22_write RFM22.tx_power
    (if isbind then BINDING_POWER else BindData.rf_power bd);;
  rfm22_write RFM22.frequency_hopping_channel_select 0;;
  rfm22_write RFM22.frequency_hopping_step_size (BindData.rf_channel_spacing bd);;
  rfm22_write RFM22.frequency_offset1 0x00;;
  rfm22_write RFM22.frequency_offset2 0x00;;
  rfm22_releaseBus.

(** [init_rfm]: the sleeps between the debug prints, the two bus
    transactions with the modem registers in between, and the carrier. *)
Definition init_rfm (isbind : bool) : M unit :=
  when (negb isbind) (sleeps 8 10);;
  init_rfm_ready;;
  bd <- gets (fun w => bind_data (dev w));;
  (if isbind then setModemRegs bind_params
   else
     r <- lift (modem_params !! Z.to_nat (BindData.modem_params bd));;
     setModemRegs r);;
  init_rfm_packet isbind bd;;
  rfmSetCarrierFrequency
    (u32 (if isbind then BINDING_FREQUENCY else BindData.rf_frequency bd)).

Definition clearFIFO : M unit :=
  rfm22_claimBus;;
  rfm22_write RFM22.op_and_func_ctrl2 0x03;;
  rfm22_write RFM22.op_and_func_ctrl2 0x00;;
  rfm22_releaseBus.

Definition rx_reset : M unit :=
  rfm22_write_claim RFM22.op_and_func_ctrl1 RF22B_PWRSTATE_READY;;
  rfm22_write_claim (hdr_RFM22_rx_fifo_control hdr) 36;;
  clearFIFO;;
  rfm22_claimBus;;
  rfm22_write RFM22.op_and_func_ctrl1 RF22B_PWRSTATE_RX;;
  rfm22_write RFM22.interrupt_enable1 RF22B_RX_PACKET_RECEIVED_IRQ;;
  s1 <- rfm22_read RFM22.interrupt_status1;;
  set_dev (set_it_status1 s1);;
  s2 <- rfm22_read RFM22.interrupt_status2;;
  set_dev (set_it_status2 s2);;
  rfm22_releaseBus.

Definition to_rx_mode : M unit :=
  rfm22_claimBus;;
  s1 <- rfm22_read RFM22.interrupt_status1;;
  set_dev (set_it_status1 s1);;
  s2 <- rfm22_read RFM22.interrupt_status2;;
  set_dev (set_it_status2 s2);;
  rfm22_write RFM22.op_and_func_ctrl1 RF22B_PWRSTATE_READY;;
  rfm22_releaseBus;;
  delay 10;;
  rx_reset.

(** The loop of [tx_packet_async] that fills the FIFO from [pkt]. *)
Fixpoint tx_fifo (n : nat) (i : nat) (pkt : list Z) : M unit :=
  match n with
  | O => ret tt
  | S n' =>
      b <- lift (pkt !! i);;
      rfm22_write RFM22.fifo_access b;;
      tx_fifo n' (Datatypes.S i) pkt
  end.

Definition tx_packet_async (pkt : list Z) (size : Z) : M unit :=
  rfm22_claimBus;;
  rfm22_write RFM22.transmit_packet_length size;;
  tx_fifo (Z.to_nat (u8 size)) 0 pkt;;
  rfm22_write RFM22.interrupt_enable1 RF22B_PACKET_SENT_INTERRUPT;;
  s1 <- rfm22_read RFM22.interrupt_status1;;
  set_dev (set_it_status1 s1);;
  s2 <- rfm22_read RFM22.interrupt_status2;;
  set_dev (set_it_status2 s2);;
  t <- micros;;
  set_global (set_tx_start t);;
  rfm22_write RFM22.op_and_func_ctrl1 RF22B_PWRSTATE_TX;;
  rfm22_releaseBus;;
  set_dev (set_rf_mode Transmit).

(** The condition of the waiting loop of [tx_packet]; the clock is read
    only while the mode is still [Transmit]. *)
Definition tx_pending : M bool :=
  mode <- gets (fun w => rf_mode (dev w));;
  if RF_MODE_eqb mode Transmit then
    t <- micros;;
    t0 <- gets (fun w => tx_start (globals w));;
    ret (u32 (t - t0) <? 100000)
  else ret false.

Definition tx_packet (pkt : list Z) (size : Z) : M unit :=
  tx_packet_async pkt size;;
  _ <- while_ (A := unit) tt (fun _ => tx_pending)
         (fun _ => PIOS_Thread_Sleep 1;; PIOS_WDG_UpdateFlag;; ret (inl tt));;
  ret tt.

(** ** High level functions *)

(** The [OpenLRSData] object filled from [bind_data]: the scalar fields
    and the first [OPENLRS_HOPCHANNEL_NUMELEM] hop channels. *)
Definition binding_of (bd : BindData.t) : option BindData.t :=
  let n := Z.to_nat OPENLRS_HOPCHANNEL_NUMELEM in
  if (n <=? length (BindData.hopchannel bd))%nat then
    Some (BindData.mk (BindData.version bd) (BindData.serial_baudrate bd)
            (BindData.rf_frequency bd) (BindData.rf_magic bd)
            (BindData.rf_power bd) (BindData.rf_channel_spacing bd)
            (BindData.modem_params bd) (BindData.flags bd)
            (take n (BindData.hopchannel bd)))
  else None.

(** What [pios_openlrs_bind_receive] does with a packet, once it has seen
    [rf_mode == Received]: the block of the [if] in its loop.  The value is
    [Some 1] when the function returns from inside, [None] when the loop
    goes on. *)
Definition bind_receive_packet : M (option Z) :=
  rfm22_claimBus;;
  rfm22_assertCs;;
  _ <- PIOS_SPI_TransferByte 0x7f;;
  rxb <- PIOS_SPI_TransferByte 0x00;;
  accepted <-
    (if u8 rxb =? 98 (* 'b' *) then
       blk <- transfer_OUT_FF sizeof_bind_data;;
       set_dev (set_bind_data (bind_data_of_bytes blk));;
       rfm22_deassertCs;;
       rfm22_releaseBus;;
       sleeps 8 10;;
       sleeps (Z.to_nat MAXHOPS) 10;;
       bd <- gets (fun w => bind_data (dev w));;
       if BindData.version bd =? BINDING_VERSION then
         tx_packet [66 (* 'B' *)] 1;;
         binding <- lift (binding_of bd);;
         emit (UavoSet binding);;
         emit UavoSave;;
         PIOS_LED_Toggle;;
         ret true
       else ret false
     else
       rfm22_deassertCs;;
       rfm22_releaseBus;;
       ret false);;
  if accepted : bool then ret (Some 1)
  else
    set_dev (set_rf_mode Receive);;
    rx_reset;;
    ret None.

(** One turn of the loop of [pios_openlrs_bind_receive]; [i] is the local
    counter. *)
Definition bind_receive_turn (i : Z) : M (Z + Z) :=
  PIOS_Thread_Sleep 1;;
  PIOS_WDG_UpdateFlag;;
  when (i mod 100 =? 0) PIOS_LED_Toggle;;
  mode <- gets (fun w => rf_mode (dev w));;
  if RF_MODE_eqb mode Received then
    r <- bind_receive_packet;;
    match r with
    | Some v => ret (inr v)
    | None => ret (inl (u32 (i + 1)))
    end
  else ret (inl (u32 (i + 1))).

Definition pios_openlrs_bind_receive (timeout : Z) : M Z :=
  start <- millis;;
  init_rfm true;;
  set_dev (set_rf_mode Receive);;
  to_rx_mode;;
  r <- while_ 0
         (fun _ =>
            if timeout =? 0 then ret true
            else now <- millis;; ret (u32 (now - start) <? timeout))
         bind_receive_turn;;
  match r with
  | inr v => ret v
  | inl _ => ret 0
  end.

(** The counting loop of [pios_openlrs_setup]; [hopcount] is a byte.  It
    ends within 256 turns or never. *)
Fixpoint count_hops (fuel : nat) (hc : Z) : M Z :=
  match fuel with
  | O => stalled
  | S fuel' =>
      if hc <? MAXHOPS then
        bd <- gets (fun w => bind_data (dev w));;
        c <- lift (BindData.hopchannel bd !! Z.to_nat hc);;
        if c =? 0 then ret hc else count_hops fuel' (u8 (hc + 1))
      else ret hc
  end.

Definition pios_openlrs_setup (bind : bool) : M unit :=
  PIOS_Thread_Sleep 5;;
  when bind (_ <- pios_openlrs_bind_receive 0;; ret tt);;
  init_rfm false;;
  set_dev (set_rf_channel 0);;
  ch <- gets (fun w => rf_channel (dev w));;
  rfmSetChannel ch;;
  hc <- count_hops 257 0;;
  set_global (set_hopcount hc);;
  set_dev (set_rf_mode Receive);;
  to_rx_mode;;
  set_dev (set_link_acquired false);;
  t <- micros;;
  set_global (set_lastPacketTimeUs t).

(** ** The scheduler iteration [pios_openlrs_rx_loop]

    The function is cut into its consecutive blocks. *)

(** Detection of a locked-up module. *)
Definition rx_loop_lockup : M unit :=
  r <- rfm22_read 0x0C;;
  when (r =? 0) (init_rfm false;; to_rx_mode).

(** The block [if (openlrs_dev->rf_mode == Received)]. *)
Definition rx_loop_received : M unit :=
  timeTemp <- micros;;
  rfm22_claimBus;;
  rfm22_assertCs;;
  _ <- PIOS_SPI_TransferByte 0x7F;;
  bd <- gets (fun w => bind_data (dev w));;
  let packet_size := getPacketSize bd in
  blk <- transfer_OUT_FF packet_size;;
  buf <- gets (fun w => rx_buf (dev w));;
  (if (length blk <=? length buf)%nat
   then set_dev (set_rx_buf (blk ++ drop (length blk) buf))
   else undefined);;
  rfm22_deassertCs;;
  rfm22_releaseBus;;
  afcc <- rfmGetAFCC;;
  set_global (set_lastAFCCvalue afcc);;
  PIOS_LED_Toggle;;
  set_global (set_lastPacketTimeUs timeTemp);;
  set_global (set_numberOfLostPackets 0);;
  set_global (fun g => set_linkQuality (u16 (Z.shiftl (linkQuality g) 1)) g);;
  set_global (fun g => set_linkQuality (Z.lor (linkQuality g) 1) g);;
  buf <- gets (fun w => rx_buf (dev w));;
  b0 <- lift (buf !! 0%nat);;
  when (Z.land b0 0x3e =? 0)
    (chans <- gets (fun w => ppm (dev w));;
     chans' <- lift (unpackChannels (Z.land (BindData.flags bd) 7) chans (drop 1 buf));;
     set_dev (set_ppm chans');;
     id <- gets (fun w => openlrs_rcvr_id (dev w));;
     when (negb (id =? 0) && PIOS_INCLUDE_OPENLRS_RCVR) (emit (RcvrUpdate id chans')));;
  set_dev (fun d => set_link_acquired (link_acquired d || true) d);;
  set_dev (set_rf_mode Receive);;
  rx_reset;;
  set_global (set_willhop true).

(** The block that samples the RSSI. *)
Definition rx_loop_rssi (timeUs : Z) : M unit :=
  g <- gets globals;;
  if (numberOfLostPackets g <? 2) && negb (lastRSSITimeUs g =? lastPacketTimeUs g) then
    bd <- gets (fun w => bind_data (dev w));;
    interval <- lift (getInterval bd);;
    when (u32 (interval - 1500) <? u32 (timeUs - lastPacketTimeUs g))
      (set_global (set_lastRSSITimeUs (lastPacketTimeUs g));;
       rssi <- rfmGetRSSI;;
       set_global (set_lastRSSIvalue (u8 rssi));;
       set_global (fun g => set_RSSI_sum (u16 (RSSI_sum g + lastRSSIvalue g)) g);;
       set_global (fun g => set_RSSI_count (u8 (RSSI_count g + 1)) g);;
       count <- gets (fun w => RSSI_count (globals w));;
       when (8 <? count)
         (set_global (fun g => set_RSSI_sum (u16 (RSSI_sum g / RSSI_count g)) g);;
          set_global (fun g =>
            set_smoothRSSI (u8 ((u16 (smoothRSSI g) * 3 + u16 (RSSI_sum g) * 1) / 4)) g);;
          set_global (set_RSSI_sum 0);;
          set_global (set_RSSI_count 0)))
  else ret tt.

(** The block [if (openlrs_dev->link_acquired) ... else ...]: a missed
    packet, the slow hop after [hopcount] misses, and the slow hop before
    the first packet. *)
Definition rx_loop_link (timeUs timeMs : Z) : M unit :=
  acquired <- gets (fun w => link_acquired (dev w));;
  g <- gets globals;;
  bd <- gets (fun w => bind_data (dev w));;
  let elapsed := u32 (timeUs - lastPacketTimeUs g) in
  if acquired : bool then
    missed <-
      (if numberOfLostPackets g <? hopcount g then
         interval <- lift (getInterval bd);;
         ret (u32 (interval + 1000) <? elapsed)
       else ret false);;
    if missed : bool then
      set_global (fun g => set_linkQuality (u16 (Z.shiftl (linkQuality g) 1)) g);;
      set_global (set_willhop true);;
      when (numberOfLostPackets g =? 0)
        (set_global (set_linkLossTimeMs timeMs);;
         set_global (set_nextBeaconTimeMs 0));;
      set_global (fun g => set_numberOfLostPackets (u32 (numberOfLostPackets g + 1)) g);;
      interval <- lift (getInterval bd);;
      set_global (fun g => set_lastPacketTimeUs (u32 (lastPacketTimeUs g + interval)) g);;
      set_global (set_willhop true)
    else
      search <-
        (if numberOfLostPackets g =? hopcount g then
           interval <- lift (getInterval bd);;
           ret (u32 (interval * hopcount g) <? elapsed)
         else ret false);;
      when search
        (set_global (set_linkQuality 0);;
         set_global (set_willhop true);;
         set_global (set_smoothRSSI 0);;
         set_global (set_lastPacketTimeUs timeUs))
  else
    interval <- lift (getInterval bd);;
    when (u32 (interval * hopcount g) <? elapsed)
      (set_global (set_lastPacketTimeUs timeUs);;
       set_global (set_willhop true)).

(** The block [if (willhop == 1)]. *)
Definition rx_loop_hop : M unit :=
  hop <- gets (fun w => willhop (globals w));;
  when hop
    (set_dev (fun d => set_rf_channel (u8 (rf_channel d + 1)) d);;
     ch <- gets (fun w => rf_channel (dev w));;
     bd <- gets (fun w => bind_data (dev w));;
     wrap <-
       (if ch =? MAXHOPS then ret true
        else c <- lift (BindData.hopchannel bd !! Z.to_nat ch);; ret (c =? 0));;
     when wrap (set_dev (set_rf_channel 0));;
     ch <- gets (fun w => rf_channel (dev w));;
     rfmSetChannel ch;;
     set_global (set_willhop false)).

Definition pios_openlrs_rx_loop : M unit :=
  PIOS_WDG_UpdateFlag;;
  rx_loop_lockup;;
  _ <- micros;;
  mode <- gets (fun w => rf_mode (dev w));;
  when (RF_MODE_eqb mode Received) rx_loop_received;;
  timeUs <- micros;;
  timeMs <- millis;;
  rx_loop_rssi timeUs;;
  rx_loop_link timeUs timeMs;;
  rx_loop_hop.

(** ** Task *)

Definition PIOS_OpenLRS_RegisterRcvr (not_null : bool) (rcvr_id : Z) : M unit :=
  ok <- pios_openlrs_validate not_null;;
  when ok
    (set_dev (fun d =>
       mk_dev (magic d) (spi_id d) (slave_num d) (gpio_direction d) rcvr_id
         (ppm d) (link_acquired d) (bind_data d) (rf_mode d) (rf_channel d)
         (it_status1 d) (it_status2 d) (rx_buf d))).

(** One turn of the endless loop of [pios_openlrs_task]. *)
Definition task_turn : M unit :=
  PIOS_WDG_UpdateFlag;;
  pios_openlrs_rx_loop;;
  PIOS_Thread_Sleep 1.

Fixpoint task_turns (n : nat) : M unit :=
  match n with
  | O => ret tt
  | S n' => task_turn;; task_turns n'
  end.

(** The task up to and including [pios_openlrs_setup]. *)
Definition task_start (not_null : bool) : M bool :=
  ok <- pios_openlrs_validate not_null;;
  if negb ok then ret false
  else
    v <- gets (fun w => BindData.version (bind_data (dev w)));;
    pios_openlrs_setup (negb (v =? BINDING_VERSION));;
    ret true.

Definition pios_openlrs_task (not_null : bool) : M unit :=
  ok <- task_start not_null;;
  when ok
    (_ <- while_ (A := unit) tt (fun _ => ret true)
            (fun _ => task_turn;; ret (inl tt));;
     ret tt).

End Driver.

(** ** A sample configuration

    One set of values for the header constants, on which the model can be
    run: 24 hop channels, the telemetry and diversity bits of the OpenLRSng
    flags byte, and [struct bind_data] packed in declaration order with
    little-endian words. *)

Definition le32 (b : list Z) : Z :=
  nth 0 b 0 + 2 ^ 8 * nth 1 b 0 + 2 ^ 16 * nth 2 b 0 + 2 ^ 24 * nth 3 b 0.

Definition sample_bind_data_of_bytes (b : list Z) : BindData.t :=
  BindData.mk (nth 0 b 0) (le32 (drop 1 b)) (le32 (drop 5 b)) (le32 (drop 9 b))
    (nth 13 b 0) (nth 14 b 0) (nth 39 b 0) (nth 40 b 0) (take 24 (drop 15 b)).

Definition sample_headers : headers := {|
  hdr_MAXHOPS := 24;
  hdr_BINDING_VERSION := 9;
  hdr_BINDING_FREQUENCY := 435000000;
  hdr_BINDING_POWER := 0x06;
  hdr_BIND_MAGIC := 0xDEC1BE15 + 0x0390;
  hdr_TELEMETRY_MASK := 0x18;
  hdr_DIVERSITY_ENABLED := 0x80;
  hdr_TELEMETRY_PACKETSIZE := 9;
  hdr_OPENLRS_HOPCHANNEL_NUMELEM := 24;
  hdr_PIOS_OPENLRS_DEV_MAGIC := 0x18c97ab6;
  hdr_GPIO0_TX_GPIO1_RX := 0;
  hdr_GPIO0_RX_GPIO1_TX := 1;
  hdr_sizeof_bind_data := 41;
  hdr_bind_data_of_bytes := sample_bind_data_of_bytes;
  hdr_LIMIT_RATE_TO_50HZ := false;
  hdr_PIOS_WDG_RFM22B := true;
  hdr_PIOS_LED_LINK := true;
  hdr_PIOS_INCLUDE_OPENLRS_RCVR := true;
  hdr_RFM22_rx_fifo_control := 0x7E;
  hdr_RFM22_opfc1_xton := 0x01;
  hdr_RFM22_opfc1_rxon := 0x04;
  hdr_RFM22_opfc1_txon := 0x08;
  hdr_RFM22_ie1_enpksent := 0x04;
  hdr_RFM22_ie1_enpkvalid := 0x02;
  hdr_RFM22_gpio0_config_txstate := 0x12;
  hdr_RFM22_gpio0_config_rxstate := 0x15;
  hdr_RFM22_gpio1_config_txstate := 0x12;
  hdr_RFM22_gpio1_config_rxstate := 0x15;
  hdr_RFM22_io_port_default := 0x00;
  hdr_RFM22_fbs_hbsel := 0x20
|}.

(** Bind data of the sample: 19200 bps, packet group 2, three hop
    channels. *)
Definition sample_hops : list Z := [5; 9; 13] ++ replicate 21 0.

Definition sample_bind_data : BindData.t :=
  BindData.mk 9 115200 433920000 0xA1B2C3D4 7 5 2 2 sample_hops.

Definition sample_dev : pios_openlrs_dev :=
  mk_dev 0x18c97ab6 1 0 0 7 (replicate 16 0) false sample_bind_data Available 0
    0 0 (replicate 64 0).

Definition sample_statics : statics :=
  mk_statics 0 0 0 0 0 0 0 0 0 0 0 false 0 0 0 true.

(** An environment whose scripts are constant: the radio answers [b] to
    every byte, the clocks read [us] and [ms], and no interrupt comes. *)
Definition quiet_env (n : nat) (b us ms : Z) : environment :=
  mk_env (replicate n b) (replicate n us) (replicate n ms) (replicate n false).

Definition sample_world : world :=
  mk_world sample_dev sample_statics (quiet_env 200 0x15 1000 1) [].

(** The 41 bytes of a bind block that carries the sample bind data with
    the given version and index of modem parameters. *)
Definition sample_block (version mp : Z) : list Z :=
  [version; 0; 194; 1; 0; 0; 24; 221; 25; 212; 195; 178; 161; 7; 5] ++ sample_hops ++ [mp; 2].

(** A receiver in bind mode whose FIFO holds ['b'] and such a block; the
    packet-sent interrupt comes at the 33rd sleep. *)
Definition bind_world (version mp : Z) : world :=
  mk_world sample_dev sample_statics
    (mk_env (0 :: 98 :: sample_block version mp ++ replicate 100 0x15)
       (replicate 10 1000) (replicate 10 1)
       (replicate 32 false ++ [true] ++ replicate 20 false))
    [].

(** A receiver with the link acquired on the three hop channels, the last
    packet at time 0. *)
Definition linked_world : world :=
  mk_world (set_link_acquired true sample_dev) (set_hopcount 3 sample_statics)
    (quiet_env 200 0x15 1000 1) [].

(** A receiver whose last packet came at 1000 us, with [count] RSSI samples
    of sum [sum] and a smoothed RSSI of 40. *)
Definition rssi_world (count sum : Z) : world :=
  mk_world sample_dev
    (set_lastPacketTimeUs 1000
       (set_RSSI_count count (set_RSSI_sum sum (set_smoothRSSI 40 sample_statics))))
    (quiet_env 200 0x15 1000 1) [].

(** A receiver bound with an empty hop list. *)
Definition hopless_world : world :=
  mk_world
    (set_bind_data (BindData.mk 9 115200 433920000 0xA1B2C3D4 7 5 2 2 (replicate 24 0))
       sample_dev)
    sample_statics (quiet_env 200 0x15 1000 1) [].

(** * Vocabulary of the properties *)

(** ** Reading the trace *)

(** The register writes among the SPI transfers: a two-byte block without
    receive buffer whose first byte has the write bit; the pair is the
    register address and the value. *)
Definition reg_write_of (e : event) : option (Z * Z) :=
  match e with
  | TransferBlock [a; d] false => if 0x80 <=? a then Some (a - 0x80, d) else None
  | _ => None
  end.

Definition reg_writes (evs : list event) : list (Z * Z) := omap reg_write_of evs.

(** ** Channels of a payload, in the words of the specification *)

Definition is_byte (b : Z) : Prop := 0 <= b < 2 ^ 8.

(** Channel [k] of a five-byte group with fifth byte [b4] and [k]-th byte
    [bk]: [((b4 >> 2k) & 3) << 8 | bk]. *)
Definition fine_channel (b4 bk : Z) (k : nat) : Z :=
  Z.lor (Z.shiftl (Z.land (Z.shiftr b4 (2 * Z.of_nat k)) 3) 8) bk.

(** The coarse channel read from bits [2k+1 .. 2k] of the trailing byte:
    [((b >> 2k) & 3) * 333 + 12]. *)
Definition coarse_channel (b : Z) (k : nat) : Z :=
  Z.land (Z.shiftr b (2 * Z.of_nat k)) 3 * 333 + 12.

(** The channels of a payload as the specification words them:
    [config / 2] groups of four channels and, when [config] is odd, four
    coarse channels from the next byte, channel [k] from the bits
    [2k+1 .. 2k]. *)
Definition spec_channels (config : Z) (p : list Z) : list Z :=
  let n := Z.to_nat (config / 2) in
  flat_map
    (fun g => map (fun k => fine_channel (nth (5 * g + 4) p 0) (nth (5 * g + k) p 0) k)
                (seq 0 4))
    (seq 0 n)
  ++ (if Z.odd config then map (coarse_channel (nth (5 * n) p 0)) (seq 0 4) else []).

(** ** The interrupt *)

(** What the interrupt does to the mode. *)
Definition irq_mode (m : RF_MODE) : RF_MODE :=
  match m with
  | Transmit => Transmitted
  | Receive => Received
  | other => other
  end.

(** ** Frames *)

(** The part of the state that neither the SPI plumbing nor the interrupt
    handler touches: everything but [it_status1], [it_status2], [rf_mode],
    [tx_start], [irqs], the environment and the trace. *)
Definition core (w : world) : pios_openlrs_dev * statics :=
  (set_it_status1 0 (set_it_status2 0 (set_rf_mode Available (dev w))),
   set_tx_start 0 (set_irqs 0 (globals w))).

Definition same_core (w w' : world) : Prop := core w' = core w.

(** [post R m]: every completed run of [m] relates the worlds before and
    after by [R]. *)
Definition post {A : Type} (R : world -> world -> Prop) (m : M A) : Prop :=
  forall w a w', m w = Done a w' -> R w w'.

(** ** The session and its invariants *)

(** After setup the driver runs scheduler iterations, and the radio
    interrupts at any time: during the sleep of an iteration (the script
    of the environment) or between two iterations. *)
Inductive activity : Type := Iteration | Interrupt.

Definition perform (hdr : headers) (a : activity) : M unit :=
  match a with
  | Iteration => task_turn hdr
  | Interrupt => _ <- PIOS_OpenLRS_EXT_Int hdr;; ret tt
  end.

Fixpoint session (hdr : headers) (acts : list activity) : M unit :=
  match acts with
  | [] => ret tt
  | a :: rest => perform hdr a;; session hdr rest
  end.

(** [link_acquired], once set, stays set. *)
Definition keeps_link (w w' : world) : Prop :=
  link_acquired (dev w) = true -> link_acquired (dev w') = true.

(** The number of entries of the hop list before the zero terminator,
    among the first [maxhops]. *)
Fixpoint leading_nonzero (l : list Z) : nat :=
  match l with
  | [] => O
  | c :: l' => if c =? 0 then O else S (leading_nonzero l')
  end.

Definition hop_count (maxhops : Z) (hops : list Z) : Z :=
  Z.of_nat (leading_nonzero (take (Z.to_nat maxhops) hops)).

(** The current channel lies among the [hc] leading entries of the hop
    list, which are not zero and end at [maxhops] or at a zero. *)
Definition hop_inv (maxhops ch hc : Z) (hops : list Z) : Prop :=
  0 <= ch < hc /\ hc <= maxhops /\
  (forall i, 0 <= i < hc -> exists c, hops !! Z.to_nat i = Some c /\ c <> 0) /\
  (hc = maxhops \/ hops !! Z.to_nat hc = Some 0).

Definition hop_ok (hdr : headers) (w : world) : Prop :=
  hop_inv (hdr_MAXHOPS hdr) (rf_channel (dev w)) (hopcount (globals w))
    (BindData.hopchannel (bind_data (dev w))).

Definition keeps_hop (hdr : headers) (w w' : world) : Prop :=
  hop_ok hdr w -> hop_ok hdr w'.

Definition same_bind_data (w w' : world) : Prop :=
  bind_data (dev w') = bind_data (dev w).

(** ** Acknowledgement and persistence in the trace *)

(** The events by which a bind is acknowledged and stored: the write of
    the packet length 1 to register 0x3E, the write of ['B'] to the FIFO
    register 0x7F, and the two calls to the object store. *)
Definition notable (e : event) : bool :=
  match e with
  | TransferBlock [a; d] false => (a =? 0xBE) && (d =? 1) || (a =? 0xFF) && (d =? 66)
  | UavoSet _ | UavoSave => true
  | _ => false
  end.

Definition record (t : list event) : list event := filter (fun e => notable e = true) t.

(** The handle and the magic number are in order, so that the interrupt
    handler acts. *)
Definition valid (hdr : headers) (w : world) : bool :=
  g_openlrs_dev (globals w) && (magic (dev w) =? hdr_PIOS_OPENLRS_DEV_MAGIC hdr).

(** A step that leaves alone the core, the mode, the interrupt script and
    the record of the trace. *)
Definition quiet (w w' : world) : Prop :=
  same_core w w' /\
  rf_mode (dev w') = rf_mode (dev w) /\
  irq_script (env w') = irq_script (env w) /\
  record (trace w') = record (trace w).

(** [plumb m]: [m] always completes, with a quiet step. *)
Definition plumb {A : Type} (m : M A) : Prop :=
  forall w, exists a w', m w = Done a w' /\ quiet w w'.

(** A register write is quiet unless it is one of the two writes of the
    acknowledgement. *)
Definition quiet_write (a d : Z) : Prop :=
  notable (TransferBlock [u8 (Z.lor (u8 a) 0x80); u8 d] false) = false.

(** ** The bind packet handler after the block is read *)

(** What is left of [bind_receive_packet] once the block has been read
    into [bind_data] and the debug prints have slept: the test of the
    version with the acknowledgement and the store, then the return or the
    re-arming of the receiver. *)
Definition bind_receive_verdict (hdr : headers) (bd : BindData.t) : M (option Z) :=
  accepted <-
    (if BindData.version bd =? hdr_BINDING_VERSION hdr then
       tx_packet hdr [66] 1;;
       binding <- lift (binding_of hdr bd);;
       emit (UavoSet binding);;
       emit UavoSave;;
       PIOS_LED_Toggle hdr;;
       ret true
     else ret false);;
  if accepted : bool then ret (Some 1)
  else
    set_dev (set_rf_mode Receive);;
    rx_reset hdr;;
    ret None.

(** * Further vocabulary *)

(** ** The RSSI accumulator *)

(** At most eight samples are pending, each a byte, and the smoothed value
    is a byte. *)
Definition rssi_inv (g : statics) : Prop :=
  0 <= RSSI_count g <= 8 /\
  0 <= RSSI_sum g <= 255 * RSSI_count g /\
  0 <= smoothRSSI g < 2 ^ 8.

(** ** The counter of lost packets *)

(** The counter of lost packets stays within the hop count, which stays
    within [MAXHOPS]. *)
Definition lost_ok (hdr : headers) (w : world) : Prop :=
  0 <= numberOfLostPackets (globals w) <= hopcount (globals w) /\
  hopcount (globals w) <= hdr_MAXHOPS hdr.

Definition keeps_lost (hdr : headers) (w w' : world) : Prop :=
  lost_ok hdr w -> lost_ok hdr w'.

Definition same_lost (w w' : world) : Prop :=
  numberOfLostPackets (globals w') = numberOfLostPackets (globals w).

(** What the link block of an iteration makes of the file-scope variables
    [g], at the times [timeUs] and [timeMs], for the packet interval
    [interval]. *)
Definition link_missed (timeMs interval : Z) (g : statics) : statics :=
  let g1 := set_willhop true (set_linkQuality (u16 (Z.shiftl (linkQuality g) 1)) g) in
  let g2 :=
    if numberOfLostPackets g =? 0
    then set_nextBeaconTimeMs 0 (set_linkLossTimeMs timeMs g1) else g1 in
  set_lastPacketTimeUs (u32 (lastPacketTimeUs g + interval))
    (set_numberOfLostPackets (u32 (numberOfLostPackets g + 1)) g2).

Definition link_search (timeUs : Z) (g : statics) : statics :=
  set_lastPacketTimeUs timeUs (set_smoothRSSI 0 (set_willhop true (set_linkQuality 0 g))).

Definition link_slow_hop (timeUs : Z) (g : statics) : statics :=
  set_willhop true (set_lastPacketTimeUs timeUs g).

Definition link_block (acquired : bool) (timeUs timeMs interval : Z) (g : statics) : statics :=
  let elapsed := u32 (timeUs - lastPacketTimeUs g) in
  if acquired then
    if (numberOfLostPackets g <? hopcount g) && (u32 (interval + 1000) <? elapsed)
    then link_missed timeMs interval g
    else if (numberOfLostPackets g =? hopcount g) && (u32 (interval * hopcount g) <? elapsed)
    then link_search timeUs g
    else g
  else if u32 (interval * hopcount g) <? elapsed then link_slow_hop timeUs g else g.

(** ** The discipline of the SPI bus *)

(** The bus as the driver's calls leave it: claimed or not, chip select
    asserted or not. *)
Record bus : Type := mk_bus { claimed : bool; selected : bool }.

Definition idle : bus := mk_bus false false.

(** One call seen from the bus.  The bus is claimed only when free and
    released only when claimed with the chip deselected; the chip is
    selected and deselected in turn; bytes are transferred only to the
    selected chip; the task does not sleep while it holds the bus or the
    chip.  With [strict] the chip is selected only on a claimed bus. *)
Definition bus_step (strict : bool) (s : bus) (e : event) : option bus :=
  match e with
  | ClaimBus => if claimed s || selected s then None else Some (mk_bus true false)
  | ReleaseBus => if claimed s && negb (selected s) then Some idle else None
  | PinSet level =>
      if level =? 0 then
        if selected s || (negb (claimed s) && strict) then None
        else Some (mk_bus (claimed s) true)
      else if level =? 1 then
        if selected s then Some (mk_bus (claimed s) false) else None
      else None
  | TransferByte _ | TransferBlock _ _ => if selected s then Some s else None
  | Sleep _ => if claimed s || selected s then None else Some s
  | _ => Some s
  end.

Fixpoint bus_run (strict : bool) (s : bus) (evs : list event) : option bus :=
  match evs with
  | [] => Some s
  | e :: evs' =>
      match bus_step strict s e with
      | Some s' => bus_run strict s' evs'
      | None => None
      end
  end.

(** A run that takes the bus from [s] to [s'] within the discipline, on
    the device it started with. *)
Definition bus_rel (strict : bool) (s s' : bus) (w w' : world) : Prop :=
  spi_id (dev w') = spi_id (dev w) /\
  exists evs, trace w' = trace w ++ evs /\ bus_run strict s evs = Some s'.

(** [m], run on a device whose SPI bus is configured, takes the bus from
    [s] to [s']. *)
Definition bus_post {A : Type} (strict : bool) (s s' : bus) (m : M A) : Prop :=
  forall w a w', spi_id (dev w) <> 0 -> m w = Done a w' -> bus_rel strict s s' w w'.

Create HintDb bus discriminated.

(** ** Bytes of a word *)

(** Byte [i] of [m], byte 0 the least significant. *)
Definition byte_of (m i : Z) : Z := (m / 2 ^ (8 * i)) mod 2 ^ 8.

(** ** Notifications of the receiver *)

(** The calls of [PIOS_OpenLRS_Rcvr_UpdateChannels] in a trace. *)
Definition update_of (e : event) : option (Z * list Z) :=
  match e with
  | RcvrUpdate id channels => Some (id, channels)
  | _ => None
  end.

Definition updates (t : list event) : list (Z * list Z) := omap update_of t.

(** The two halves of [core]. *)
Definition core_dev (d : pios_openlrs_dev) : pios_openlrs_dev :=
  set_it_status1 0 (set_it_status2 0 (set_rf_mode Available d)).

Definition core_statics (g : statics) : statics := set_tx_start 0 (set_irqs 0 g).

(** A step that leaves the core alone and does not notify the receiver. *)
Definition calm (w w' : world) : Prop :=
  same_core w w' /\ updates (trace w') = updates (trace w).

(** [w'] is the world [W] up to what the plumbing writes: the same core,
    the same notifications. *)
Definition tracks (W w' : world) : Prop :=
  core w' = core W /\ updates (trace w') = updates (trace W).

(** ** Waiting for the end of a transmission *)

(** A step that reads no clock, does not sleep, and leaves [tx_start] and
    the mode alone. *)
Definition keeps_time (w w' : world) : Prop :=
  us_clock (env w') = us_clock (env w) /\
  irq_script (env w') = irq_script (env w) /\
  tx_start (globals w') = tx_start (globals w) /\
  rf_mode (dev w') = rf_mode (dev w).

(** ** The version string

    [printVersion (v)], for the [uint16_t] [v]: the characters that the
    function stores into [ver] before the terminating NUL; the array is
    the format that it passes to [DEBUG_PRINTF]. *)
Definition printVersion (v : Z) : list Z :=
  let v := u16 v in
  let ver0 := 48 + Z.land (Z.shiftr v 8) 0x0f in
  let ver2 := 48 + Z.land (Z.shiftr v 4) 0x0f in
  if Z.land v 0x0f =? 0 then [ver0; 46; ver2; 13; 10]
  else [ver0; 46; ver2; 46; 48 + Z.land v 0x0f; 13; 10].

(** ** Register writes of a run *)

(** A run whose register writes are [l], in this order. *)
Definition writes_rel (l : list (Z * Z)) (w w' : world) : Prop :=
  exists evs, trace w' = trace w ++ evs /\ reg_writes evs = l.

Definition writes_post {A : Type} (l : list (Z * Z)) (m : M A) : Prop :=
  forall w a w', m w = Done a w' -> writes_rel l w w'.

(** The same for a run that starts in a world with the core of [w0], and
    ends in one. *)
Definition writes_from {A : Type} (w0 : world) (l : list (Z * Z)) (m : M A) : Prop :=
  forall w a w', same_core w0 w -> m w = Done a w' ->
    same_core w0 w' /\ writes_rel l w w'.

Create HintDb regs discriminated.

(** The registers that [setModemRegs] programs from a row of modem
    parameters. *)
Definition modem_image (r : rfm22_modem_regs) : list (Z * Z) :=
  [(0x1C, u8 (r_1c r)); (0x1D, u8 (r_1d r)); (0x1E, u8 (r_1e r)); (0x20, u8 (r_20 r));
   (0x21, u8 (r_21 r)); (0x22, u8 (r_22 r)); (0x23, u8 (r_23 r)); (0x24, u8 (r_24 r));
   (0x25, u8 (r_25 r)); (0x2A, u8 (r_2a r)); (0x6E, u8 (r_6e r)); (0x6F, u8 (r_6f r));
   (0x70, u8 (r_70 r)); (0x71, u8 (r_71 r)); (0x72, u8 (r_72 r))].

(** The routing of the two antenna-switch pins. *)
Definition gpio_image (hdr : headers) (dir : Z) : list (Z * Z) :=
  if dir =? hdr_GPIO0_TX_GPIO1_RX hdr then
    [(0x0B, u8 (hdr_RFM22_gpio0_config_txstate hdr));
     (0x0C, u8 (hdr_RFM22_gpio1_config_rxstate hdr))]
  else if dir =? hdr_GPIO0_RX_GPIO1_TX hdr then
    [(0x0B, u8 (hdr_RFM22_gpio0_config_rxstate hdr));
     (0x0C, u8 (hdr_RFM22_gpio1_config_txstate hdr))]
  else [].

(** The header registers for the 32-bit word [magic]. *)
Definition header_image (magic : Z) : list (Z * Z) :=
  [(0x3A, byte_of magic 3); (0x3F, byte_of magic 3);
   (0x3B, byte_of magic 2); (0x40, byte_of magic 2);
   (0x3C, byte_of magic 1); (0x41, byte_of magic 1);
   (0x3D, byte_of magic 0); (0x42, byte_of magic 0)].

(** The band and the carrier registers for the frequency [f]. *)
Definition carrier_image (hdr : headers) (f : Z) : list (Z * Z) :=
  [(0x75, u8 (RFM22.fbs_sbse
              + (if carrier_hbsel f =? 0 then 0 else hdr_RFM22_fbs_hbsel hdr)
              + Z.land (carrier_fb f) RFM22.fb_mask));
   (0x76, u8 (Z.shiftr (carrier_fc f) 8));
   (0x77, u8 (Z.land (carrier_fc f) 0xff))].

(** All the registers that [init_rfm] programs, in the order of the
    writes: for the pin routing [dir], the bind data [bd] and the row [row]
    of modem parameters. *)
Definition init_image (hdr : headers) (isbind : bool) (dir : Z) (bd : BindData.t)
    (row : rfm22_modem_regs) : list (Z * Z) :=
  [(0x06, 0x00); (0x07, u8 (hdr_RFM22_opfc1_xton hdr)); (0x09, 0x7f); (0x0A, 0x05)]
  ++ gpio_image hdr dir
  ++ [(0x0D, 0xfd); (0x0E, u8 (hdr_RFM22_io_port_default hdr))]
  ++ modem_image row
  ++ [(0x30, 0x8c); (0x32, 0x0f); (0x33, 0x42);
      (0x34, if Z.land (BindData.flags bd) (hdr_DIVERSITY_ENABLED hdr) =? 0
             then 0x0a else 0x14);
      (0x35, 0x2a); (0x36, 0x2d); (0x37, 0xd4); (0x38, 0x00); (0x39, 0x00)]
  ++ header_image (u32 (if isbind then hdr_BIND_MAGIC hdr else BindData.rf_magic bd))
  ++ [(0x43, 0xff); (0x44, 0xff); (0x45, 0xff); (0x46, 0xff);
      (0x6D, u8 (if isbind then hdr_BINDING_POWER hdr else BindData.rf_power bd));
      (0x79, 0x00); (0x7A, u8 (BindData.rf_channel_spacing bd));
      (0x73, 0x00); (0x74, 0x00)]
  ++ carrier_image hdr
       (u32 (if isbind then hdr_BINDING_FREQUENCY hdr else BindData.rf_frequency bd)).

(** ** More sample worlds *)

(** A linked receiver that has lost as many packets as it has hop
    channels. *)
Definition searching_world : world :=
  mk_world (set_link_acquired true sample_dev)
    (set_numberOfLostPackets 3 (set_hopcount 3 sample_statics))
    (quiet_env 200 0x15 1000 1) [].

(** A linked receiver on the first of its three hop channels that is
    about to hop. *)
Definition hopping_world : world :=
  mk_world (set_link_acquired true sample_dev)
    (set_willhop true (set_hopcount 3 sample_statics))
    (quiet_env 200 0x15 1000 1) [].

(** A servo packet of the sample format, eleven bytes, and a receiver whose
    FIFO holds it; the clock reads 25000 us. *)
Definition sample_packet : list Z := [0; 10; 20; 30; 40; 228; 50; 60; 70; 80; 27].

Definition packet_world : world :=
  mk_world sample_dev (set_hopcount 3 sample_statics)
    (mk_env (0x15 :: sample_packet ++ replicate 100 0x15)
       (replicate 10 25000) (replicate 10 25) (replicate 10 false))
    [].

(** A receiver that starts unbound: the radio answers the twelve status
    reads up to receive mode, then the FIFO holds ['b'] and the bind block;
    the packet interrupt comes at the first sleep of the bind loop and the
    packet-sent interrupt at the 33rd sleep after it. *)
Definition binding_world : world :=
  mk_world (set_bind_data (BindData.mk 0 0 0 0 0 0 0 0 (replicate 24 0)) sample_dev)
    sample_statics
    (mk_env (replicate 12 0x15 ++ 0 :: 98 :: sample_block 9 2 ++ replicate 100 0x15)
       (replicate 10 1000) (replicate 10 1)
       ([false; true] ++ replicate 32 false ++ [true] ++ replicate 20 false))
    [].

(** A receiver whose acknowledgement is never reported as sent: the clock
    reads 1000 us at the start, then 2000, 3000 and 200000 us, and no
    interrupt comes during the two sleeps. *)
Definition waiting_world : world :=
  mk_world sample_dev sample_statics
    (mk_env (replicate 100 0x15) [1000; 2000; 3000; 200000; 5] (replicate 10 1)
       [false; false; true])
    [].

(** ** What the radio and the object store are told *)

(** The effects of a run that the radio or the object store keep: a
    register write, [OpenLRSSet] and [UAVObjSave]. *)
Inductive effect : Type :=
| Write (addr value : Z)
| Store (binding : BindData.t)
| Save.

Definition effect_of (e : event) : option effect :=
  match e with
  | TransferBlock [a; d] false => if 0x80 <=? a then Some (Write (a - 0x80) d) else None
  | UavoSet binding => Some (Store binding)
  | UavoSave => Some Save
  | _ => None
  end.

Definition effects (t : list event) : list effect := omap effect_of t.

(** A run that adds events [evs] with [omap f evs = l] to the trace. *)
Definition observed {X : Type} (f : event -> option X) (l : list X) (w w' : world) : Prop :=
  exists evs, trace w' = trace w ++ evs /\ omap f evs = l.

Definition observes {X A : Type} (f : event -> option X) (l : list X) (m : M A) : Prop :=
  forall w a w', m w = Done a w' -> observed f l w w'.

Create HintDb fx discriminated.

(** The transmission of the one-byte acknowledgement ['B']: the packet
    length, the byte in the FIFO, the packet-sent interrupt, and the
    transmitter switched on. *)
Definition ack_image (hdr : headers) : list effect :=
  [Write 0x3E 1; Write 0x7F 66;
   Write 0x05 (u8 (hdr_RFM22_ie1_enpksent hdr));
   Write 0x07 (u8 (Z.lor (hdr_RFM22_opfc1_txon hdr) (hdr_RFM22_opfc1_xton hdr)))].

(** The writes of [rx_reset], which re-arm the receiver: ready state, FIFO
    threshold, FIFO cleared, receiver switched on, packet-received
    interrupt. *)
Definition rearm_image (hdr : headers) : list effect :=
  [Write 0x07 (u8 (hdr_RFM22_opfc1_xton hdr));
   Write (hdr_RFM22_rx_fifo_control hdr) 36;
   Write 0x08 0x03; Write 0x08 0x00;
   Write 0x07 (u8 (Z.lor (hdr_RFM22_opfc1_rxon hdr) (hdr_RFM22_opfc1_xton hdr)));
   Write 0x05 (u8 (hdr_RFM22_ie1_enpkvalid hdr))].

(** A step that reads no microsecond clock. *)
Definition same_clock (w w' : world) : Prop := us_clock (env w') = us_clock (env w).

(** ** Sample worlds for the missed packet and the acknowledgement *)



(** * Properties *)

(** ** Arithmetic of the fixed widths *)

Lemma u8_small x : 0 <= x < 2 ^ 8 -> u8 x = x.
Proof. apply Z.mod_small. Qed.

Lemma u16_small x : 0 <= x < 2 ^ 16 -> u16 x = x.
Proof. apply Z.mod_small. Qed.

Lemma u32_small x : 0 <= x < 2 ^ 32 -> u32 x = x.
Proof. apply Z.mod_small. Qed.

Lemma u32_range x : 0 <= u32 x < 2 ^ 32.
Proof. apply Z.mod_pos_bound. lia. Qed.

Lemma i16_small x : 0 <= x < 2 ^ 15 -> i16 x = x.
Proof.
  intros H. unfold i16. rewrite u16_small by lia.
  destruct (Z.ltb_spec x (2 ^ 15)); lia.
Qed.

Lemma i32_small x : 0 <= x < 2 ^ 31 -> i32 x = x.
Proof.
  intros H. unfold i32. rewrite u32_small by lia.
  destruct (Z.ltb_spec x (2 ^ 31)); lia.
Qed.

(** ** Tactics *)

(** The monad's own operations, unfolded so that [cbn] can run the
    code. *)
Ltac unfold_monad :=
  unfold bind, ret, gets, modify, set_dev, set_global, emit, when, lift,
    undefined, stalled, spi_byte, micros, millis in *.

Ltac unfold_spi :=
  unfold rfm22_read_claim, rfm22_read, rfm22_write_claim, rfm22_write,
    rfm22_claimBus, rfm22_releaseBus, rfm22_assertCs, rfm22_deassertCs,
    PIOS_SPI_TransferBlock_tx, PIOS_SPI_TransferBlock_rx, PIOS_SPI_TransferByte
    in *.

(** ** Rules for [post] *)

Lemma bind_Done {A B : Type} (m : M A) (k : A -> M B) w b w'' :
  bind m k w = Done b w'' ->
  exists a w', m w = Done a w' /\ k a w' = Done b w''.
Proof.
  unfold bind. destruct (m w) as [a w' | |]; [eauto | discriminate | discriminate].
Qed.

Section Post.
Context {R : world -> world -> Prop} `{!PreOrder R}.

Lemma post_ret {A} (a : A) : post R (ret a).
Proof. intros w x w' H. inversion H; subst. reflexivity. Qed.

Lemma post_gets {A} (f : world -> A) : post R (gets f).
Proof. intros w x w' H. inversion H; subst. reflexivity. Qed.

Lemma post_undefined {A} : post R (@undefined A).
Proof. intros w x w' H. discriminate. Qed.

Lemma post_stalled {A} : post R (@stalled A).
Proof. intros w x w' H. discriminate. Qed.

Lemma post_lift {A} (o : option A) : post R (lift o).
Proof. destruct o; [apply post_ret | apply post_undefined]. Qed.

Lemma post_modify (f : world -> world) : (forall w, R w (f w)) -> post R (modify f).
Proof. intros Hf w x w' H. inversion H; subst. apply Hf. Qed.

Lemma post_bind {A B} (m : M A) (k : A -> M B) :
  post R m -> (forall a, post R (k a)) -> post R (bind m k).
Proof.
  intros Hm Hk w b w'' H.
  destruct (bind_Done _ _ _ _ _ H) as (a & w' & H1 & H2).
  transitivity w'; [exact (Hm _ _ _ H1) | exact (Hk _ _ _ _ H2)].
Qed.

Lemma post_when (b : bool) (m : M unit) : post R m -> post R (when b m).
Proof. intros Hm. destruct b; [exact Hm | apply post_ret]. Qed.

Lemma post_loop {S A} (cond : S -> M bool) (body : S -> M (S + A)) :
  (forall s, post R (cond s)) -> (forall s, post R (body s)) ->
  forall fuel s, post R (loop fuel s cond body).
Proof.
  intros Hc Hb. induction fuel as [| fuel IH]; intros s; cbn [loop].
  - apply post_stalled.
  - apply post_bind; [apply Hc |]. intros [|]; [| apply post_ret].
    apply post_bind; [apply Hb |]. intros [s' | a]; [apply IH | apply post_ret].
Qed.

Lemma post_while {S A} (s : S) (cond : S -> M bool) (body : S -> M (S + A)) :
  (forall s, post R (cond s)) -> (forall s, post R (body s)) ->
  post R (while_ s cond body).
Proof.
  intros Hc Hb w r w' H. unfold while_ in H.
  exact (post_loop cond body Hc Hb _ _ _ _ _ H).
Qed.
End Post.

Lemma post_weaken {A} (R R' : world -> world -> Prop) (m : M A) :
  (forall w w', R w w' -> R' w w') -> post R m -> post R' m.
Proof. intros HR Hm w a w' H. apply HR. exact (Hm _ _ _ H). Qed.

Instance same_core_preorder : PreOrder same_core.
Proof.
  split; [intros w; reflexivity | intros a b c H1 H2; unfold same_core in *; congruence].
Qed.

Create HintDb drv discriminated.

(** One step of the syntax-directed proof of [post R m]. *)
Ltac post_step :=
  lazymatch goal with
  | |- post _ (bind _ _) => apply post_bind; [| intros ?]
  | |- post _ (ret _) => apply post_ret
  | |- post _ (gets _) => apply post_gets
  | |- post _ (lift _) => apply post_lift
  | |- post _ undefined => apply post_undefined
  | |- post _ stalled => apply post_stalled
  | |- post _ (when _ _) => apply post_when
  | |- post _ (while_ _ _ _) => apply post_while; intros ?
  | |- post _ (if ?b then _ else _) => destruct b
  | |- post _ (match ?x with _ => _ end) => destruct x
  | |- post _ (modify _) => apply post_modify; intros [? ? ? ?]
  | |- post _ (set_dev _) => apply post_modify; intros [? ? ? ?]
  | |- post _ (set_global _) => apply post_modify; intros [? ? ? ?]
  | |- post _ (emit _) => apply post_modify; intros [? ? ? ?]
  | |- post _ _ => solve [eauto with drv]
  end.

Ltac post_core := repeat post_step; try reflexivity.

Section Properties.

Variable hdr : headers.

(** ** The plumbing leaves the core alone *)

Lemma core_spi_byte : post same_core spi_byte.
Proof. intros [d g e t] a w' H. inversion H; subst. reflexivity. Qed.
Lemma core_micros : post same_core micros.
Proof. intros [d g e t] a w' H. inversion H; subst. reflexivity. Qed.
Lemma core_millis : post same_core millis.
Proof. intros [d g e t] a w' H. inversion H; subst. reflexivity. Qed.
Lemma core_next_irq : post same_core next_irq.
Proof.
  intros [d g e t] a w' H. unfold next_irq in H. cbn in H.
  destruct (irq_script e); [discriminate |]. inversion H; subst. reflexivity.
Qed.
Hint Resolve core_spi_byte core_micros core_millis core_next_irq : drv.

Lemma core_spi_bytes n : post same_core (spi_bytes n).
Proof. induction n; cbn [spi_bytes]; post_core. Qed.
Hint Resolve core_spi_bytes : drv.

Lemma core_validate b : post same_core (pios_openlrs_validate hdr b).
Proof. unfold pios_openlrs_validate. post_core. Qed.
Hint Resolve core_validate : drv.

Lemma core_EXT_Int : post same_core (PIOS_OpenLRS_EXT_Int hdr).
Proof. unfold PIOS_OpenLRS_EXT_Int. post_core. Qed.
Hint Resolve core_EXT_Int : drv.

Lemma core_Sleep ms : post same_core (PIOS_Thread_Sleep hdr ms).
Proof. unfold PIOS_Thread_Sleep. post_core. Qed.
Hint Resolve core_Sleep : drv.
Lemma core_delay ms : post same_core (delay hdr ms).
Proof. unfold delay. post_core. Qed.
Lemma core_WDG : post same_core (PIOS_WDG_UpdateFlag hdr).
Proof. unfold PIOS_WDG_UpdateFlag. post_core. Qed.
Lemma core_LED : post same_core (PIOS_LED_Toggle hdr).
Proof. unfold PIOS_LED_Toggle. post_core. Qed.
Hint Resolve core_delay core_WDG core_LED : drv.

Lemma core_assertCs : post same_core rfm22_assertCs.
Proof. unfold rfm22_assertCs. post_core. Qed.
Lemma core_deassertCs : post same_core rfm22_deassertCs.
Proof. unfold rfm22_deassertCs. post_core. Qed.
Lemma core_claimBus : post same_core rfm22_claimBus.
Proof. unfold rfm22_claimBus. post_core. Qed.
Lemma core_releaseBus : post same_core rfm22_releaseBus.
Proof. unfold rfm22_releaseBus. post_core. Qed.
Hint Resolve core_assertCs core_deassertCs core_claimBus core_releaseBus : drv.

Lemma core_TransferBlock_tx l : post same_core (PIOS_SPI_TransferBlock_tx l).
Proof. unfold PIOS_SPI_TransferBlock_tx. post_core. Qed.
Lemma core_TransferBlock_rx l : post same_core (PIOS_SPI_TransferBlock_rx l).
Proof. unfold PIOS_SPI_TransferBlock_rx. post_core. Qed.
Lemma core_TransferByte b : post same_core (PIOS_SPI_TransferByte b).
Proof. unfold PIOS_SPI_TransferByte. post_core. Qed.
Hint Resolve core_TransferBlock_tx core_TransferBlock_rx core_TransferByte : drv.
Lemma core_transfer_OUT_FF n : post same_core (transfer_OUT_FF n).
Proof. unfold transfer_OUT_FF. post_core. Qed.
Hint Resolve core_transfer_OUT_FF : drv.

Lemma core_write a d : post same_core (rfm22_write a d).
Proof. unfold rfm22_write. post_core. Qed.
Lemma core_write_claim a d : post same_core (rfm22_write_claim a d).
Proof. unfold rfm22_write_claim. post_core. Qed.
Lemma core_read a : post same_core (rfm22_read a).
Proof. unfold rfm22_read. post_core. Qed.
Lemma core_read_claim a : post same_core (rfm22_read_claim a).
Proof. unfold rfm22_read_claim. post_core. Qed.
Hint Resolve core_write core_write_claim core_read core_read_claim : drv.

Lemma core_rfmSetChannel ch : post same_core (rfmSetChannel ch).
Proof. unfold rfmSetChannel. post_core. Qed.
Lemma core_rfmGetRSSI : post same_core rfmGetRSSI.
Proof. unfold rfmGetRSSI. post_core. Qed.
Lemma core_rfmGetAFCC : post same_core rfmGetAFCC.
Proof. unfold rfmGetAFCC. post_core. Qed.
Lemma core_setModemRegs r : post same_core (setModemRegs r).
Proof. unfold setModemRegs. post_core. Qed.
Lemma core_rfmSetCarrierFrequency f : post same_core (rfmSetCarrierFrequency hdr f).
Proof. unfold rfmSetCarrierFrequency. post_core. Qed.
Hint Resolve core_rfmSetChannel core_rfmGetRSSI core_rfmGetAFCC core_setModemRegs
  core_rfmSetCarrierFrequency : drv.

Lemma core_init_rfm_gpio : post same_core (init_rfm_gpio hdr).
Proof. unfold init_rfm_gpio. post_core. Qed.
Lemma core_init_rfm_header n : forall i m, post same_core (init_rfm_header n i m).
Proof. induction n; intros; cbn [init_rfm_header]; post_core. Qed.
Lemma core_sleeps n ms : post same_core (sleeps hdr n ms).
Proof. induction n; cbn [sleeps]; post_core. Qed.
Hint Resolve core_init_rfm_gpio core_init_rfm_header core_sleeps : drv.

Lemma core_init_rfm b : post same_core (init_rfm hdr b).
Proof. unfold init_rfm, init_rfm_ready, init_rfm_packet. post_core. Qed.
Lemma core_clearFIFO : post same_core clearFIFO.
Proof. unfold clearFIFO. post_core. Qed.
Hint Resolve core_init_rfm core_clearFIFO : drv.
Lemma core_rx_reset : post same_core (rx_reset hdr).
Proof. unfold rx_reset. post_core. Qed.
Hint Resolve core_rx_reset : drv.
Lemma core_to_rx_mode : post same_core (to_rx_mode hdr).
Proof. unfold to_rx_mode. post_core. Qed.
Hint Resolve core_to_rx_mode : drv.
Lemma core_tx_fifo n : forall i pkt, post same_core (tx_fifo n i pkt).
Proof. induction n; intros; cbn [tx_fifo]; post_core. Qed.
Hint Resolve core_tx_fifo : drv.
Lemma core_tx_packet_async pkt size : post same_core (tx_packet_async hdr pkt size).
Proof. unfold tx_packet_async. post_core. Qed.
Lemma core_tx_pending : post same_core tx_pending.
Proof. unfold tx_pending. post_core. Qed.
Hint Resolve core_tx_packet_async core_tx_pending : drv.
Lemma core_tx_packet pkt size : post same_core (tx_packet hdr pkt size).
Proof. unfold tx_packet. post_core. Qed.
Hint Resolve core_tx_packet : drv.
Lemma core_rx_loop_lockup : post same_core (rx_loop_lockup hdr).
Proof. unfold rx_loop_lockup. post_core. Qed.
Hint Resolve core_rx_loop_lockup : drv.

(** ** The packet interval *)

Lemma modem_params_valid (i : Z) :
  0 <= i < 5 ->
  exists r, modem_params !! Z.to_nat i = Some r /\ 4800 <= bps r <= 125000.
Proof.
  intros Hi.
  assert (i = 0 \/ i = 1 \/ i = 2 \/ i = 3 \/ i = 4) as [-> | [-> | [-> | [-> | ->]]]] by lia;
    (eexists; split; [reflexivity | cbn; lia]).
Qed.

Lemma getPacketSize_range bd : 0 <= getPacketSize bd <= 21.
Proof.
  unfold getPacketSize.
  assert (0 <= Z.land (BindData.flags bd) 7 < 8) as H.
  { change 7 with (Z.ones 3). rewrite Z.land_ones by lia. pose proof (Z.mod_pos_bound (BindData.flags bd) (2 ^ 3) eq_refl). lia. }
  revert H. generalize (Z.land (BindData.flags bd) 7). intros k H.
  assert (k = 0 \/ k = 1 \/ k = 2 \/ k = 3 \/ k = 4 \/ k = 5 \/ k = 6 \/ k = 7)
    as [-> | [-> | [-> | [-> | [-> | [-> | [-> | ->]]]]]]] by lia;
    split; apply Z.leb_le; reflexivity.
Qed.

Lemma BYTES_AT_BAUD_TO_USEC_bound bytes b div :
  4800 <= b <= 125000 -> 0 <= BYTES_AT_BAUD_TO_USEC bytes b div < 894785.
Proof.
  intros Hb. unfold BYTES_AT_BAUD_TO_USEC.
  rewrite (u32_small b) by lia.
  pose proof (u32_range (u32 (bytes + (if div =? 0 then 15 else 20)) * 8200000)) as H.
  split.
  - apply Z.div_pos; lia.
  - apply Z.div_lt_upper_bound; lia.
Qed.

Lemma BYTES_AT_BAUD_TO_USEC_exact bytes b div :
  0 <= bytes <= 255 -> 4800 <= b <= 125000 ->
  BYTES_AT_BAUD_TO_USEC bytes b div
  = (bytes + (if div =? 0 then 15 else 20)) * 8200000 / b.
Proof.
  intros Hx Hb. unfold BYTES_AT_BAUD_TO_USEC.
  rewrite (u32_small b) by lia.
  rewrite (u32_small (bytes + _)) by (destruct (div =? 0); lia).
  rewrite u32_small; [reflexivity | destruct (div =? 0); lia].
Qed.

Lemma round_up_ms_spec x :
  0 <= x < 2 ^ 31 ->
  round_up_ms x = (x + 999) / 1000 * 1000 /\
  (1000 | round_up_ms x) /\ x <= round_up_ms x < x + 1000.
Proof.
  intros Hx. unfold round_up_ms.
  rewrite (u32_small (x + 999)) by lia.
  pose proof (Z.div_mod (x + 999) 1000 ltac:(lia)) as Hd.
  pose proof (Z.mod_pos_bound (x + 999) 1000 ltac:(lia)) as Hm.
  rewrite u32_small by lia.
  split; [reflexivity | split; [apply Z.divide_factor_r | lia]].
Qed.

Lemma limit_rate_spec v :
  (1000 | v) -> (1000 | limit_rate hdr v) /\ v <= limit_rate hdr v.
Proof.
  intros Hv. unfold limit_rate.
  destruct (hdr_LIMIT_RATE_TO_50HZ hdr); cbn; [| split; [assumption | lia]].
  destruct (Z.ltb_spec v 20000); split; try assumption; try lia.
  exists 20. reflexivity.
Qed.

(** C2.  For an index inside [modem_params], [getInterval] returns the
    air time of the packet, [(size + (diversity ? 20 : 15)) * 8200000 / bps],
    plus 2000, plus the air time of a telemetry packet and 1000 when a
    telemetry bit of the flags is set, rounded up to the next multiple of
    1000; no [uint32_t] operation wraps.  A build with [LIMIT_RATE_TO_50HZ]
    raises a smaller result to 20000.  In every build the result is a
    multiple of 1000 and at least the air time of the packet plus 2000. *)
Theorem getInterval_rounds_up (bd : BindData.t) :
  0 <= BindData.modem_params bd < 5 ->
  exists r v,
    modem_params !! Z.to_nat (BindData.modem_params bd) = Some r /\
    getInterval hdr bd = Some v /\
    let div := Z.land (BindData.flags bd) (hdr_DIVERSITY_ENABLED hdr) in
    let packet := BYTES_AT_BAUD_TO_USEC (getPacketSize bd) (bps r) div in
    let nominal :=
      packet + 2000 +
      (if Z.land (BindData.flags bd) (hdr_TELEMETRY_MASK hdr) =? 0 then 0
       else BYTES_AT_BAUD_TO_USEC (hdr_TELEMETRY_PACKETSIZE hdr) (bps r) div + 1000) in
    packet = (getPacketSize bd + (if div =? 0 then 15 else 20)) * 8200000 / bps r /\
    (hdr_LIMIT_RATE_TO_50HZ hdr = false ->
       v = (nominal + 999) / 1000 * 1000 /\ nominal <= v < nominal + 1000) /\
    (1000 | v) /\ packet + 2000 <= v.
Proof.
  intros Hmp.
  destruct (modem_params_valid _ Hmp) as (r & Hr & Hb).
  exists r. unfold getInterval. rewrite Hr.
  eexists; split; [reflexivity | split; [reflexivity |]].
  cbv zeta.
  set (div := Z.land (BindData.flags bd) (hdr_DIVERSITY_ENABLED hdr)).
  pose proof (getPacketSize_range bd) as Hp.
  pose proof (BYTES_AT_BAUD_TO_USEC_bound (getPacketSize bd) (bps r) div Hb) as Hpk.
  pose proof (BYTES_AT_BAUD_TO_USEC_bound (hdr_TELEMETRY_PACKETSIZE hdr) (bps r) div Hb) as Htl.
  set (packet := BYTES_AT_BAUD_TO_USEC (getPacketSize bd) (bps r) div) in *.
  set (tele := BYTES_AT_BAUD_TO_USEC (hdr_TELEMETRY_PACKETSIZE hdr) (bps r) div) in *.
  rewrite (u32_small (packet + 2000)) by lia.
  rewrite (u32_small (tele + 1000)) by lia.
  rewrite (u32_small (packet + 2000 + (tele + 1000))) by lia.
  set (nominal := packet + 2000 +
         (if Z.land (BindData.flags bd) (hdr_TELEMETRY_MASK hdr) =? 0 then 0 else tele + 1000)).
  assert ((if Z.land (BindData.flags bd) (hdr_TELEMETRY_MASK hdr) =? 0
           then packet + 2000 else packet + 2000 + (tele + 1000)) = nominal) as ->.
  { unfold nominal. destruct (_ =? 0); lia. }
  assert (packet + 2000 <= nominal < 2 ^ 31) as Hn.
  { unfold nominal. destruct (_ =? 0); lia. }
  destruct (round_up_ms_spec nominal ltac:(lia)) as (Hr1 & Hr2 & Hr3).
  destruct (limit_rate_spec (round_up_ms nominal) Hr2) as (Hl1 & Hl2).
  split; [| split; [| split]].
  - apply BYTES_AT_BAUD_TO_USEC_exact; [lia | assumption].
  - intros Hlim. unfold limit_rate. rewrite Hlim. cbn. rewrite <- Hr1. split; [reflexivity | lia].
  - assumption.
  - lia.
Qed.

(** ** Carrier frequency *)

Lemma rfmSetCarrierFrequency_writes (f : Z) (w : world) :
  exists w' evs,
    rfmSetCarrierFrequency hdr f w = Done tt w' /\
    dev w' = dev w /\ globals w' = globals w /\ env w' = env w /\
    trace w' = trace w ++ evs /\
    reg_writes evs =
      [(0x75, u8 (RFM22.fbs_sbse
                  + (if carrier_hbsel f =? 0 then 0 else hdr_RFM22_fbs_hbsel hdr)
                  + Z.land (carrier_fb f) RFM22.fb_mask));
       (0x76, u8 (Z.shiftr (carrier_fc f) 8));
       (0x77, u8 (Z.land (carrier_fc f) 0xff))].
Proof.
  destruct w as [d g e t].
  unfold rfmSetCarrierFrequency, rfm22_claimBus, rfm22_releaseBus, rfm22_write,
    rfm22_assertCs, rfm22_deassertCs, PIOS_SPI_TransferBlock_tx, emit, when,
    bind, gets, modify, ret, with_trace; cbn.
  destruct (spi_id d =? 0) eqn:E; repeat (progress (cbn; rewrite ?E));
    do 2 eexists;
    (split; [reflexivity | repeat split; cbn;
      [rewrite <- ?app_assoc; reflexivity | reflexivity]]).
Qed.

Lemma carrier_low (f : Z) :
  240000000 <= f < 480000000 ->
  carrier_hbsel f = 0 /\
  carrier_fb f = f / 10000000 - 24 /\
  carrier_fc f = (f - (carrier_fb f + 24) * 10000000) * 4 / 625.
Proof.
  intros Hf. unfold carrier_hbsel, carrier_fc, carrier_fb.
  destruct (Z.ltb_spec f 480000000); [| lia].
  pose proof (Z.div_mod f 10000000 ltac:(lia)) as Hd.
  pose proof (Z.mod_pos_bound f 10000000 ltac:(lia)) as Hm.
  assert (24 <= f / 10000000 < 48) as Hq.
  { split; [apply Z.div_le_lower_bound | apply Z.div_lt_upper_bound]; lia. }
  rewrite (u32_small (f / 10000000 - 24)) by lia.
  rewrite (u16_small (f / 10000000 - 24)) by lia.
  rewrite i32_small by lia.
  rewrite (u32_small (f - _)) by lia.
  rewrite (u32_small (_ * 4)) by lia.
  split; [reflexivity | split; [reflexivity |]].
  apply u16_small. split.
  - apply Z.div_pos; lia.
  - apply Z.div_lt_upper_bound; lia.
Qed.

Lemma carrier_high (f : Z) :
  480000000 <= f < 2 ^ 31 ->
  carrier_hbsel f = 1 /\
  carrier_fb f = f / 20000000 - 24 /\
  carrier_fc f = (f - (carrier_fb f + 24) * 20000000) * 2 / 625.
Proof.
  intros Hf. unfold carrier_hbsel, carrier_fc, carrier_fb.
  destruct (Z.ltb_spec f 480000000); [lia |].
  pose proof (Z.div_mod f 20000000 ltac:(lia)) as Hd.
  pose proof (Z.mod_pos_bound f 20000000 ltac:(lia)) as Hm.
  assert (24 <= f / 20000000 < 108) as Hq.
  { split; [apply Z.div_le_lower_bound | apply Z.div_lt_upper_bound]; lia. }
  rewrite (u32_small (f / 20000000 - 24)) by lia.
  rewrite (u16_small (f / 20000000 - 24)) by lia.
  rewrite i32_small by lia.
  rewrite (u32_small (f - _)) by lia.
  rewrite (u32_small (_ * 2)) by lia.
  split; [reflexivity | split; [reflexivity |]].
  apply u16_small. split.
  - apply Z.div_pos; lia.
  - apply Z.div_lt_upper_bound; lia.
Qed.

(** C9, amended.  For 433 920 000 Hz the carrier computation selects
    [hbsel = 0], [fb = 19] and [fc = 25088], and [rfmSetCarrierFrequency]
    writes 0x75 = 0x53, 0x76 = 0x62 and 0x77 = 0x00, in this order and
    nothing else.  For every frequency from 240 MHz up to [2 ^ 31] Hz,
    [hbsel] is 0 below 480 MHz and 1 otherwise,
    [fb = f / (10^7 * (1 + hbsel)) - 24] and
    [fc = (f - (fb + 24) * 10^7 * (1 + hbsel)) * (4 / (1 + hbsel)) / 625],
    without wrap-around.  The range is needed: [fb] is a [uint16_t], and
    below 240 MHz the difference wraps. *)
Theorem carrier_433_92 :
  carrier_hbsel 433920000 = 0 /\
  carrier_fb 433920000 = 19 /\
  carrier_fc 433920000 = 25088 /\
  (forall w : world,
     exists w' evs,
       rfmSetCarrierFrequency hdr 433920000 w = Done tt w' /\
       trace w' = trace w ++ evs /\
       reg_writes evs = [(0x75, 0x53); (0x76, 0x62); (0x77, 0x00)]) /\
  (forall f : Z,
     240000000 <= f < 2 ^ 31 ->
     let hbsel := if f <? 480000000 then 0 else 1 in
     let step := 10000000 * (1 + hbsel) in
     carrier_hbsel f = hbsel /\
     carrier_fb f = f / step - 24 /\
     carrier_fc f = (f - (carrier_fb f + 24) * step) * (4 / (1 + hbsel)) / 625).
Proof.
  split; [reflexivity | split; [reflexivity | split; [reflexivity | split]]].
  - intros w.
    destruct (rfmSetCarrierFrequency_writes 433920000 w) as (w' & evs & E & _ & _ & _ & Ht & Hw).
    exists w', evs. split; [assumption | split; [assumption |]].
    rewrite Hw. reflexivity.
  - intros f Hf. cbv zeta.
    destruct (Z.ltb_spec f 480000000) as [Hlt | Hge].
    + destruct (carrier_low f ltac:(lia)) as (H1 & H2 & H3).
      change (10000000 * (1 + 0)) with 10000000. change (4 / (1 + 0)) with 4.
      repeat split; assumption.
    + destruct (carrier_high f ltac:(lia)) as (H1 & H2 & H3).
      change (10000000 * (1 + 1)) with 20000000. change (4 / (1 + 1)) with 2.
      repeat split; assumption.
Qed.

(** ** The interrupt entry point *)

(** C7, amended.  The interrupt entry point makes no SPI transfer and
    returns [false].  It always increments the counter [irqs]; when the
    device handle is valid it also moves [rf_mode] from [Transmit] to
    [Transmitted] or from [Receive] to [Received], and leaves any other mode
    as it is.  Every other field, the environment and the trace are
    unchanged. *)
Theorem EXT_Int_effect (w : world) :
  let valid := g_openlrs_dev (globals w) && (magic (dev w) =? hdr_PIOS_OPENLRS_DEV_MAGIC hdr) in
  PIOS_OpenLRS_EXT_Int hdr w =
  Done false
    (mk_world
       (if valid then set_rf_mode (irq_mode (rf_mode (dev w))) (dev w) else dev w)
       (set_irqs (u32 (irqs (globals w) + 1)) (globals w))
       (env w) (trace w)).
Proof.
  destruct w as [d g e t]. cbn.
  unfold PIOS_OpenLRS_EXT_Int, bind, set_global, modify, gets, pios_openlrs_validate, ret; cbn.
  destruct (g_openlrs_dev g && (magic d =? hdr_PIOS_OPENLRS_DEV_MAGIC hdr)); cbn; [| reflexivity].
  destruct d as [? ? ? ? ? ? ? ? m ? ? ? ?]. destruct m; reflexivity.
Qed.

(** ** A missed packet *)



(** ** RSSI sampling *)

Lemma rfm22_read_claim_run (addr : Z) (w : world) :
  exists w' evs,
    rfm22_read_claim addr w = Done (hd 0 (tl (spi_in (env w)))) w' /\
    dev w' = dev w /\ globals w' = globals w /\
    env w' = mk_env (tl (tl (spi_in (env w)))) (us_clock (env w)) (ms_clock (env w))
               (irq_script (env w)) /\
    trace w' = trace w ++ evs /\
    In (TransferBlock [Z.land (u8 addr) 0x7F; 0xFF] true) evs.
Proof.
  destruct w as [d g e t]. unfold_spi. unfold_monad. cbn.
  destruct (spi_id d =? 0) eqn:E; repeat (progress (cbn; rewrite ?E));
    do 2 eexists; (split; [reflexivity |]); cbn;
    (split; [reflexivity |]); (split; [reflexivity |]); (split; [reflexivity |]);
    rewrite <- ?app_assoc; (split; [reflexivity | cbn; tauto]).
Qed.

(** C8, amended.  RSSI is sampled exactly when fewer than two packets are
    lost, no sample was taken yet for the last packet, and more than
    [interval - 1500] us have elapsed since the last packet.  A sample reads
    register 0x26, adds the value to [RSSI_sum] and increments [RSSI_count];
    once the count exceeds 8, that is with the ninth sample, [smoothRSSI]
    becomes [(3 * smoothRSSI + average) / 4] and sum and count are reset to
    zero.  After a sample no further one is taken until [lastPacketTimeUs]
    changes. *)
Theorem rssi_sampling (timeUs interval : Z) (w : world) :
  getInterval hdr (bind_data (dev w)) = Some interval ->
  let g := globals w in
  let due :=
    (numberOfLostPackets g <? 2)
    && negb (lastRSSITimeUs g =? lastPacketTimeUs g)
    && (u32 (interval - 1500) <? u32 (timeUs - lastPacketTimeUs g)) in
  let rssi := u8 (hd 0 (tl (spi_in (env w)))) in
  let sum := u16 (RSSI_sum g + rssi) in
  let count := u8 (RSSI_count g + 1) in
  let full := 8 <? count in
  exists w',
    rx_loop_rssi hdr timeUs w = Done tt w' /\
    (due = false -> w' = w) /\
    (due = true ->
       dev w' = dev w /\
       (exists evs, trace w' = trace w ++ evs /\
                    In (TransferBlock [0x26; 0xFF] true) evs) /\
       globals w' =
         mk_statics (tx_start g) (hopcount g) (lastPacketTimeUs g)
           (numberOfLostPackets g) (lastAFCCvalue g) (linkQuality g)
           (lastPacketTimeUs g)
           rssi
           (if full then 0 else sum)
           (if full then 0 else count)
           (if full
            then u8 ((u16 (smoothRSSI g) * 3 + u16 (u16 (sum / count)) * 1) / 4)
            else smoothRSSI g)
           (willhop g) (nextBeaconTimeMs g) (linkLossTimeMs g) (irqs g)
           (g_openlrs_dev g) /\
       forall t2, rx_loop_rssi hdr t2 w' = Done tt w').
Proof.
  intros Hiv. cbv zeta.
  unfold rx_loop_rssi at 1. unfold rfmGetRSSI.
  unfold bind at 1, gets at 1.
  destruct ((numberOfLostPackets (globals w) <? 2)
            && negb (lastRSSITimeUs (globals w) =? lastPacketTimeUs (globals w))) eqn:E1.
  2: { exists w. cbn. split; [reflexivity | split; [reflexivity | discriminate]]. }
  cbn [andb]. unfold bind at 1, gets at 1. rewrite Hiv. unfold bind at 1, lift, ret.
  destruct (u32 (interval - 1500) <? u32 (timeUs - lastPacketTimeUs (globals w))) eqn:E2.
  2: { exists w. cbn. split; [reflexivity | split; [reflexivity | discriminate]]. }
  unfold when. unfold bind at 1, set_global at 1, modify at 1.
  unfold bind at 1.
  destruct (rfm22_read_claim_run 0x26
              (with_globals (set_lastRSSITimeUs (lastPacketTimeUs (globals w))) w))
    as (w1 & evs & -> & Hd & Hg & He & Ht & Hin).
  cbn in Hd, Hg, He, Ht.
  unfold_monad. cbn. rewrite Hg. cbn.
  destruct (8 <? u8 (RSSI_count (globals w) + 1)) eqn:E3; cbn;
    (eexists; split; [reflexivity |]; split; [discriminate |]; intros _; cbn;
     split; [exact Hd |]; split; [exists evs; split; [exact Ht | exact Hin] |];
     rewrite ?Hg; split; [reflexivity |];
     intros t2; unfold rx_loop_rssi; unfold_monad; cbn; rewrite ?Hg; cbn;
     rewrite Z.eqb_refl, andb_false_r; reflexivity).
Qed.

(** ** Unpacking the channels *)

Lemma land_shifted (x k : Z) :
  0 <= k -> Z.land x (Z.shiftl 3 k) = Z.shiftl (Z.land (Z.shiftr x k) 3) k.
Proof.
  intros Hk. apply Z.bits_inj'. intros n Hn.
  rewrite Z.land_spec.
  destruct (Z.lt_ge_cases n k).
  - rewrite !Z.shiftl_spec_low by lia. apply andb_false_r.
  - rewrite !Z.shiftl_spec_high by lia.
    rewrite Z.land_spec, Z.shiftr_spec by lia.
    f_equal. f_equal. lia.
Qed.

Lemma land_3_range (x : Z) : 0 <= Z.land x 3 < 4.
Proof.
  change 3 with (Z.ones 2). rewrite Z.land_ones by lia.
  apply Z.mod_pos_bound. reflexivity.
Qed.

Lemma shifted_add_lor (y b : Z) :
  0 <= b < 2 ^ 8 -> Z.shiftl y 8 + b = Z.lor (Z.shiftl y 8) b.
Proof.
  intros Hb. apply Z.add_nocarry_lor.
  apply Z.bits_inj'. intros n Hn.
  rewrite Z.land_spec, Z.bits_0.
  destruct (Z.lt_ge_cases n 8).
  - rewrite Z.shiftl_spec_low by lia. reflexivity.
  - rewrite <- (Z.mod_small b (2 ^ 8)) by lia.
    rewrite Z.mod_pow2_bits_high by lia. apply andb_false_r.
Qed.

Lemma fine_channel_range (b4 bk : Z) (k : nat) :
  is_byte bk -> 0 <= fine_channel b4 bk k < 1024.
Proof.
  intros Hb. unfold fine_channel. rewrite <- shifted_add_lor by exact Hb.
  pose proof (land_3_range (Z.shiftr b4 (2 * Z.of_nat k))) as H.
  rewrite Z.shiftl_mul_pow2 by lia. unfold is_byte in Hb. lia.
Qed.

Lemma unpack_expr (b4 bk mask shift : Z) (k : nat) :
  mask = Z.shiftl 3 (2 * Z.of_nat k) -> shift = 8 - 2 * Z.of_nat k ->
  is_byte b4 -> is_byte bk -> (k < 4)%nat ->
  i16 (Z.shiftl (Z.land (u16 b4) mask) shift + bk) = fine_channel b4 bk k.
Proof.
  intros -> -> H4 Hb Hk. unfold is_byte in *.
  rewrite u16_small by lia.
  rewrite land_shifted by lia.
  rewrite Z.shiftl_shiftl by lia.
  replace (2 * Z.of_nat k + (8 - 2 * Z.of_nat k)) with 8 by lia.
  rewrite shifted_add_lor by exact Hb.
  apply i16_small.
  pose proof (fine_channel_range b4 bk k Hb). unfold fine_channel in *. lia.
Qed.

Lemma coarse_channel_range (b : Z) (k : nat) : 12 <= coarse_channel b k <= 1011.
Proof.
  unfold coarse_channel.
  pose proof (land_3_range (Z.shiftr b (2 * Z.of_nat k))). lia.
Qed.

Lemma coarse_expr (b shift : Z) (k : nat) :
  shift = 2 * Z.of_nat k -> is_byte b ->
  i16 (Z.land (Z.shiftr (u16 b) shift) 3 * 333 + 12) = coarse_channel b k.
Proof.
  intros -> Hb. unfold is_byte in *. rewrite u16_small by lia.
  apply i16_small. pose proof (coarse_channel_range b k). unfold coarse_channel in *. lia.
Qed.

Lemma store_Some (a : list Z) (i : nat) (v : Z) :
  (i < length a)%nat -> store a i v = Some (<[i := v]> a).
Proof.
  intros H. unfold store. destruct (Nat.ltb_spec i (length a)); [reflexivity | lia].
Qed.

Lemma nth_is_byte (p : list Z) (i : nat) :
  Forall is_byte p -> (i < length p)%nat -> is_byte (nth i p 0).
Proof.
  intros Hp Hi. destruct (lookup_lt_is_Some_2 p i Hi) as [b Hb].
  rewrite (nth_lookup_Some _ _ 0 _ Hb).
  rewrite Forall_lookup in Hp. exact (Hp _ _ Hb).
Qed.

Lemma unpack_group_spec (PPM p : list Z) (o q : nat) :
  Forall is_byte p -> (q + 5 <= length p)%nat -> (o + 4 <= length PPM)%nat ->
  exists r,
    unpack_group PPM o p q = Some r /\
    length r = length PPM /\
    (forall k, (k < 4)%nat ->
       r !! (o + k)%nat = Some (fine_channel (nth (q + 4) p 0) (nth (q + k) p 0) k)) /\
    (forall i, (i < o \/ o + 4 <= i)%nat -> r !! i = PPM !! i).
Proof.
  intros Hp Hq Ho. unfold unpack_group.
  assert (forall j, (j < 5)%nat ->
            p !! (q + j)%nat = Some (nth (q + j) p 0) /\ is_byte (nth (q + j) p 0)) as Hget.
  { intros j Hj.
    destruct (lookup_lt_is_Some_2 p (q + j)%nat ltac:(lia)) as [b Hb].
    rewrite (nth_lookup_Some _ _ 0 _ Hb). split; [exact Hb |].
    rewrite Forall_lookup in Hp. exact (Hp _ _ Hb). }
  destruct (Hget 0%nat ltac:(lia)) as [E0 B0]. rewrite Nat.add_0_r in E0, B0.
  destruct (Hget 1%nat ltac:(lia)) as [E1 B1].
  destruct (Hget 2%nat ltac:(lia)) as [E2 B2].
  destruct (Hget 3%nat ltac:(lia)) as [E3 B3].
  destruct (Hget 4%nat ltac:(lia)) as [E4 B4].
  rewrite E0, E1, E2, E3, E4. cbn [mbind option_bind].
  rewrite (unpack_expr _ _ 0x03 8 0 eq_refl eq_refl B4 B0) by lia.
  rewrite (unpack_expr _ _ 0x0c 6 1 eq_refl eq_refl B4 B1) by lia.
  rewrite (unpack_expr _ _ 0x30 4 2 eq_refl eq_refl B4 B2) by lia.
  rewrite (unpack_expr _ _ 0xc0 2 3 eq_refl eq_refl B4 B3) by lia.
  rewrite store_Some by lia. cbn [mbind option_bind].
  rewrite store_Some by (rewrite length_insert; lia). cbn [mbind option_bind].
  rewrite store_Some by (rewrite !length_insert; lia). cbn [mbind option_bind].
  rewrite store_Some by (rewrite !length_insert; lia).
  eexists. split; [reflexivity |]. split; [rewrite !length_insert; reflexivity |]. split.
  - intros k Hk.
    assert (k = 0 \/ k = 1 \/ k = 2 \/ k = 3)%nat as [-> | [-> | [-> | ->]]] by lia.
    + rewrite !Nat.add_0_r.
      rewrite !list_lookup_insert_ne by lia.
      apply list_lookup_insert_eq. lia.
    + rewrite !list_lookup_insert_ne by lia.
      apply list_lookup_insert_eq. rewrite !length_insert. lia.
    + rewrite !list_lookup_insert_ne by lia.
      apply list_lookup_insert_eq. rewrite !length_insert. lia.
    + apply list_lookup_insert_eq. rewrite !length_insert. lia.
  - intros i Hi. rewrite !list_lookup_insert_ne by lia. reflexivity.
Qed.

Lemma unpack_loop_spec (p : list Z) (n : nat) :
  Forall is_byte p ->
  forall (PPM : list Z) (o q : nat),
    (q + 5 * n <= length p)%nat -> (o + 4 * n <= length PPM)%nat ->
    exists r,
      unpack_loop n PPM o p q = Some (r, (o + 4 * n)%nat, (q + 5 * n)%nat) /\
      length r = length PPM /\
      (forall g k, (g < n)%nat -> (k < 4)%nat ->
         r !! (o + 4 * g + k)%nat
         = Some (fine_channel (nth (q + 5 * g + 4) p 0) (nth (q + 5 * g + k) p 0) k)) /\
      (forall i, (i < o \/ o + 4 * n <= i)%nat -> r !! i = PPM !! i).
Proof.
  intros Hp. induction n as [| n IH]; intros PPM o q Hq Ho.
  - exists PPM. cbn [unpack_loop]. rewrite !Nat.mul_0_r, !Nat.add_0_r.
    split; [reflexivity |]. split; [reflexivity |]. split; [intros; lia | reflexivity].
  - cbn [unpack_loop].
    destruct (unpack_group_spec PPM p o q Hp ltac:(lia) ltac:(lia)) as (r1 & E1 & L1 & G1 & F1).
    rewrite E1. cbn [mbind option_bind].
    destruct (IH r1 (o + 4)%nat (q + 5)%nat ltac:(lia) ltac:(lia)) as (r & E & L & G & F).
    exists r. split.
    { rewrite E.
      replace (o + 4 + 4 * n)%nat with (o + 4 * S n)%nat by lia.
      replace (q + 5 + 5 * n)%nat with (q + 5 * S n)%nat by lia.
      reflexivity. }
    split; [congruence |]. split.
    + intros g k Hg Hk. destruct g as [| g].
      * rewrite F by lia.
        replace (o + 4 * 0 + k)%nat with (o + k)%nat by lia.
        replace (q + 5 * 0 + 4)%nat with (q + 4)%nat by lia.
        replace (q + 5 * 0 + k)%nat with (q + k)%nat by lia.
        apply G1. exact Hk.
      * replace (o + 4 * S g + k)%nat with (o + 4 + 4 * g + k)%nat by lia.
        replace (q + 5 * S g + 4)%nat with (q + 5 + 5 * g + 4)%nat by lia.
        replace (q + 5 * S g + k)%nat with (q + 5 + 5 * g + k)%nat by lia.
        apply G; lia.
    + intros i Hi. rewrite F by lia. apply F1. lia.
Qed.

Lemma unpack_coarse_spec (PPM p : list Z) (o q : nat) :
  Forall is_byte p -> (q < length p)%nat -> (o + 4 <= length PPM)%nat ->
  exists r,
    unpack_coarse PPM o p q = Some r /\
    length r = length PPM /\
    (forall k, (k < 4)%nat ->
       r !! (o + k)%nat = Some (coarse_channel (nth q p 0) (3 - k))) /\
    (forall i, (i < o \/ o + 4 <= i)%nat -> r !! i = PPM !! i).
Proof.
  intros Hp Hq Ho. unfold unpack_coarse.
  destruct (lookup_lt_is_Some_2 p q Hq) as [b Hb].
  rewrite (nth_lookup_Some _ _ 0 _ Hb). rewrite Hb. cbn [mbind option_bind].
  assert (is_byte b) as Bb by (rewrite Forall_lookup in Hp; exact (Hp _ _ Hb)).
  rewrite (coarse_expr b 6 3 eq_refl Bb), (coarse_expr b 4 2 eq_refl Bb),
    (coarse_expr b 2 1 eq_refl Bb), (coarse_expr b 0 0 eq_refl Bb).
  rewrite store_Some by lia. cbn [mbind option_bind].
  rewrite store_Some by (rewrite length_insert; lia). cbn [mbind option_bind].
  rewrite store_Some by (rewrite !length_insert; lia). cbn [mbind option_bind].
  rewrite store_Some by (rewrite !length_insert; lia).
  eexists. split; [reflexivity |]. split; [rewrite !length_insert; reflexivity |]. split.
  - intros k Hk.
    assert (k = 0 \/ k = 1 \/ k = 2 \/ k = 3)%nat as [-> | [-> | [-> | ->]]] by lia.
    + rewrite !Nat.add_0_r.
      rewrite !list_lookup_insert_ne by lia.
      apply list_lookup_insert_eq. lia.
    + rewrite !list_lookup_insert_ne by lia.
      apply list_lookup_insert_eq. rewrite !length_insert. lia.
    + rewrite !list_lookup_insert_ne by lia.
      apply list_lookup_insert_eq. rewrite !length_insert. lia.
    + apply list_lookup_insert_eq. rewrite !length_insert. lia.
  - intros i Hi. rewrite !list_lookup_insert_ne by lia. reflexivity.
Qed.

(** C3, amended.  For [config] in 1..6, [unpackChannels] decodes
    [config / 2 + 1] groups of four channels (the loop runs while
    [i <= config / 2]); channel [k] of a five-byte group is
    [((byte4 >> 2k) & 3) << 8 | byte_k], below 1024.  When [config] is odd,
    the byte after the groups gives four coarse channels, channel [k] from
    the bits [7 - 2k .. 6 - 2k]: [((byte >> (6 - 2k)) & 3) * 333 + 12].  The
    other entries of [PPM] are left as they were. *)
Theorem unpackChannels_decodes (config : Z) (PPM p : list Z) :
  1 <= config <= 6 ->
  Forall is_byte p ->
  let n := Z.to_nat (config / 2 + 1) in
  let odd := Z.to_nat (config mod 2) in
  (5 * n + odd <= length p)%nat ->
  (4 * n + 4 * odd <= length PPM)%nat ->
  exists r,
    unpackChannels config PPM p = Some r /\
    length r = length PPM /\
    (forall g k, (g < n)%nat -> (k < 4)%nat ->
       r !! (4 * g + k)%nat
       = Some (fine_channel (nth (5 * g + 4) p 0) (nth (5 * g + k) p 0) k)) /\
    (forall k, odd = 1%nat -> (k < 4)%nat ->
       r !! (4 * n + k)%nat = Some (coarse_channel (nth (5 * n) p 0) (3 - k))) /\
    (forall i, (4 * n + 4 * odd <= i)%nat -> r !! i = PPM !! i) /\
    (forall i v, (i < 4 * n + 4 * odd)%nat -> r !! i = Some v -> 0 <= v < 1024).
Proof.
  intros Hc Hp n odd Hlp Hlq.
  unfold unpackChannels.
  unfold u8. rewrite (Z.mod_small config (2 ^ 8)) by lia. fold n.
  destruct (unpack_loop_spec p n Hp PPM 0%nat 0%nat ltac:(lia) ltac:(lia))
    as (r1 & E1 & L1 & G1 & F1).
  rewrite E1. cbn [mbind option_bind Nat.add].
  assert (Z.land config 1 = config mod 2) as Hland.
  { change 1 with (Z.ones 1). rewrite Z.land_ones by lia. reflexivity. }
  rewrite Hland.
  assert (config mod 2 = 0 \/ config mod 2 = 1) as [H0 | H1].
  { pose proof (Z.mod_pos_bound config 2 ltac:(lia)). lia. }
  - rewrite H0. cbn [Z.eqb].
    assert (odd = 0%nat) as Hodd by (unfold odd; rewrite H0; reflexivity).
    exists r1. split; [reflexivity |]. split; [exact L1 |]. split; [| split; [| split]].
    + intros g k Hg Hk. exact (G1 g k Hg Hk).
    + intros k Ho. lia.
    + intros i Hi. apply F1. lia.
    + intros i v Hi Hv. rewrite Hodd in Hi.
      assert (exists g k, (g < n)%nat /\ (k < 4)%nat /\ i = (4 * g + k)%nat) as (g & k & Hg & Hk & ->).
      { exists (i / 4)%nat, (i mod 4)%nat.
        pose proof (Nat.div_mod_eq i 4). pose proof (Nat.mod_upper_bound i 4 ltac:(lia)).
        repeat split; lia. }
      rewrite (G1 g k Hg Hk : r1 !! (4 * g + k)%nat = _) in Hv. injection Hv as <-.
      apply fine_channel_range.
      apply nth_is_byte; [exact Hp | lia].
  - rewrite H1. cbn [Z.eqb].
    assert (odd = 1%nat) as Hodd by (unfold odd; rewrite H1; reflexivity).
    destruct (unpack_coarse_spec r1 p (4 * n) (5 * n) Hp ltac:(lia) ltac:(lia))
      as (r & E & L & G & F).
    exists r. split; [exact E |]. split; [congruence |]. split; [| split; [| split]].
    + intros g k Hg Hk. rewrite F by lia. exact (G1 g k Hg Hk).
    + intros k _ Hk. apply G. exact Hk.
    + intros i Hi. rewrite F by lia. apply F1. lia.
    + intros i v Hi Hv. rewrite Hodd in Hi.
      destruct (Nat.lt_ge_cases i (4 * n)) as [Hlo | Hhi].
      * rewrite F in Hv by lia.
        assert (exists g k, (g < n)%nat /\ (k < 4)%nat /\ i = (4 * g + k)%nat) as (g & k & Hg & Hk & ->).
        { exists (i / 4)%nat, (i mod 4)%nat.
          pose proof (Nat.div_mod_eq i 4). pose proof (Nat.mod_upper_bound i 4 ltac:(lia)).
          repeat split; lia. }
        rewrite (G1 g k Hg Hk : r1 !! (4 * g + k)%nat = _) in Hv. injection Hv as <-.
        apply fine_channel_range.
        apply nth_is_byte; [exact Hp | lia].
      * replace i with (4 * n + (i - 4 * n))%nat in Hv by lia.
        rewrite G in Hv by lia. injection Hv as <-.
        match goal with
        | |- 0 <= coarse_channel ?b ?k < _ => pose proof (coarse_channel_range b k)
        end.
        lia.
Qed.

(** ** [link_acquired] is sticky *)

Instance keeps_link_preorder : PreOrder keeps_link.
Proof. split; [intros w H; exact H | intros a b c H1 H2 H; exact (H2 (H1 H))]. Qed.

Lemma same_core_keeps_link (w w' : world) : same_core w w' -> keeps_link w w'.
Proof.
  intros H Hl. unfold same_core, core in H.
  apply (f_equal (fun c => link_acquired (fst c))) in H. cbn in H. congruence.
Qed.

Lemma core_link {A} (m : M A) : post same_core m -> post keeps_link m.
Proof. apply post_weaken. exact same_core_keeps_link. Qed.

Ltac post_link :=
  repeat first
    [ apply core_link; solve [eauto with drv]
    | post_step ];
  try (unfold keeps_link; cbn; intros; rewrite ?orb_true_r; auto).

Lemma link_rx_loop_received : post keeps_link (rx_loop_received hdr).
Proof. unfold rx_loop_received. post_link. Qed.

Lemma link_rx_loop_rssi t : post keeps_link (rx_loop_rssi hdr t).
Proof. unfold rx_loop_rssi. post_link. Qed.

Lemma link_rx_loop_link t ms : post keeps_link (rx_loop_link hdr t ms).
Proof. unfold rx_loop_link. post_link. Qed.

Lemma link_rx_loop_hop : post keeps_link (rx_loop_hop hdr).
Proof. unfold rx_loop_hop. post_link. Qed.

Lemma link_rx_loop : post keeps_link (pios_openlrs_rx_loop hdr).
Proof.
  unfold pios_openlrs_rx_loop.
  pose proof link_rx_loop_received. pose proof link_rx_loop_rssi.
  pose proof link_rx_loop_link. pose proof link_rx_loop_hop.
  post_link.
Qed.

Lemma link_task_turn : post keeps_link (task_turn hdr).
Proof. unfold task_turn. pose proof link_rx_loop. post_link. Qed.

Lemma link_session acts : post keeps_link (session hdr acts).
Proof.
  induction acts as [| a acts IH]; cbn [session]; [apply post_ret |].
  apply post_bind; [| intros; exact IH].
  destruct a; cbn [perform]; [apply link_task_turn | post_link].
Qed.

(** C5.  Once [link_acquired] is set, no scheduler iteration clears it,
    nor the interrupt handler, nor the recovery of a locked-up radio, nor
    the loss and search logic, nor any sequence of iterations and
    interrupts of a session. *)
Theorem link_acquired_sticky (w w' : world) (H : link_acquired (dev w) = true) :
  (pios_openlrs_rx_loop hdr w = Done tt w' -> link_acquired (dev w') = true) /\
  (forall b, PIOS_OpenLRS_EXT_Int hdr w = Done b w' -> link_acquired (dev w') = true) /\
  (rx_loop_lockup hdr w = Done tt w' -> link_acquired (dev w') = true) /\
  (forall t ms, rx_loop_link hdr t ms w = Done tt w' -> link_acquired (dev w') = true) /\
  (forall acts, session hdr acts w = Done tt w' -> link_acquired (dev w') = true).
Proof.
  split; [| split; [| split; [| split]]].
  - intros E. exact (link_rx_loop _ _ _ E H).
  - intros b E. exact (core_link _ core_EXT_Int _ _ _ E H).
  - intros E. exact (core_link _ core_rx_loop_lockup _ _ _ E H).
  - intros t ms E. exact (link_rx_loop_link t ms _ _ _ E H).
  - intros acts E. exact (link_session acts _ _ _ E H).
Qed.


(** ** The hop channel stays inside the hop list *)

#[local] Abbreviation MAXHOPS := (hdr_MAXHOPS hdr).

Instance keeps_hop_preorder : PreOrder (keeps_hop hdr).
Proof. split; [intros w H; exact H | intros a b c H1 H2 H; exact (H2 (H1 H))]. Qed.

Lemma same_core_hop_state (w w' : world) :
  same_core w w' ->
  rf_channel (dev w') = rf_channel (dev w) /\
  hopcount (globals w') = hopcount (globals w) /\
  bind_data (dev w') = bind_data (dev w).
Proof.
  intros H. unfold same_core, core in H.
  pose proof (f_equal (fun c => rf_channel (fst c)) H) as H1.
  pose proof (f_equal (fun c => hopcount (snd c)) H) as H2.
  pose proof (f_equal (fun c => bind_data (fst c)) H) as H3.
  cbn in H1, H2, H3. auto.
Qed.

Lemma same_core_keeps_hop (w w' : world) : same_core w w' -> keeps_hop hdr w w'.
Proof.
  intros H Hi. destruct (same_core_hop_state _ _ H) as (H1 & H2 & H3).
  unfold hop_ok in *. rewrite H1, H2, H3. exact Hi.
Qed.

Lemma core_hop {A} (m : M A) : post same_core m -> post (keeps_hop hdr) m.
Proof. apply post_weaken. exact same_core_keeps_hop. Qed.

Ltac post_hop :=
  repeat first
    [ apply core_hop; solve [eauto with drv]
    | post_step ];
  try (unfold keeps_hop, hop_ok; cbn; intros; auto).

Lemma hop_rx_loop_received : post (keeps_hop hdr) (rx_loop_received hdr).
Proof. unfold rx_loop_received. post_hop. Qed.

Lemma hop_rx_loop_rssi t : post (keeps_hop hdr) (rx_loop_rssi hdr t).
Proof. unfold rx_loop_rssi. post_hop. Qed.

Lemma hop_rx_loop_link t ms : post (keeps_hop hdr) (rx_loop_link hdr t ms).
Proof. unfold rx_loop_link. post_hop. Qed.

(** The hop step: increment, and back to 0 at [MAXHOPS] or at a zero
    entry. *)
Lemma hop_rx_loop_hop : MAXHOPS <= 255 -> post (keeps_hop hdr) (rx_loop_hop hdr).
Proof.
  intros Hmax w a w' E Hi. unfold rx_loop_hop in E.
  apply bind_Done in E as (hop & w0 & E0 & E). inversion E0; subst; clear E0.
  destruct (willhop (globals w0)); cbn [when] in E; [| inversion E; subst; exact Hi].
  apply bind_Done in E as (? & w1 & E1 & E). inversion E1; subst; clear E1.
  apply bind_Done in E as (ch & w2 & E2 & E). inversion E2; subst; clear E2.
  apply bind_Done in E as (bd & w3 & E3 & E). inversion E3; subst; clear E3.
  apply bind_Done in E as (wrap & w4 & E4 & E).
  apply bind_Done in E as (? & w5 & E5 & E).
  apply bind_Done in E as (ch' & w6 & E6 & E). inversion E6; subst; clear E6.
  apply bind_Done in E as (? & w7 & E7 & E).
  inversion E; subst; clear E.
  apply core_rfmSetChannel in E7. apply same_core_hop_state in E7 as (C1 & C2 & C3).
  unfold hop_ok in *. cbn. rewrite C1, C2, C3. clear C1 C2 C3 w7.
  destruct Hi as (Hch & Hhc & Hnz & Hend).
  set (ch := rf_channel (dev w0)) in *. set (hc := hopcount (globals w0)) in *.
  set (hops := BindData.hopchannel (bind_data (dev w0))) in *.
  assert (u8 (ch + 1) = ch + 1) as Hch1 by (apply u8_small; lia).
  rewrite !Hch1 in E4.
  assert (bind_data (dev w6) = bind_data (dev w0) /\ hopcount (globals w6) = hc /\
          (rf_channel (dev w6) = 0 \/ rf_channel (dev w6) = ch + 1 /\ ch + 1 < hc))
    as (Hbd & Hhc6 & Hch6).
  { destruct (Z.eqb_spec (ch + 1) MAXHOPS) as [Heq | Hne].
    - inversion E4; subst; clear E4. cbn [when] in E5. inversion E5; subst.
      cbn. auto.
    - apply bind_Done in E4 as (c & w8 & E8 & E4). inversion E4; subst; clear E4.
      cbn in E8. fold hops in E8.
      destruct (hops !! Z.to_nat (ch + 1)) as [c' |] eqn:Hc; [| discriminate].
      inversion E8; subst; clear E8.
      destruct (Z.eqb_spec c 0) as [Hz | Hnz0]; cbn [when] in E5; inversion E5; subst; cbn.
      + auto.
      + split; [reflexivity |]. split; [reflexivity |]. right.
        fold ch. split; [exact Hch1 |].
        destruct (Z.eq_dec (ch + 1) hc) as [Heq | Hneq]; [| lia].
        exfalso. destruct Hend as [Hm | Hz]; [lia |].
        rewrite <- Heq in Hz. congruence. }
  rewrite Hbd, Hhc6. fold hops.
  split; [| split; [exact Hhc | split; [exact Hnz | exact Hend]]].
  destruct Hch6 as [-> | [-> ?]]; lia.
Qed.

Lemma hop_rx_loop : MAXHOPS <= 255 -> post (keeps_hop hdr) (pios_openlrs_rx_loop hdr).
Proof.
  intros Hmax. unfold pios_openlrs_rx_loop.
  pose proof hop_rx_loop_received. pose proof hop_rx_loop_rssi.
  pose proof hop_rx_loop_link. pose proof (hop_rx_loop_hop Hmax).
  post_hop.
Qed.

Lemma hop_task_turn : MAXHOPS <= 255 -> post (keeps_hop hdr) (task_turn hdr).
Proof. intros Hmax. unfold task_turn. pose proof (hop_rx_loop Hmax). post_hop. Qed.

Lemma hop_session acts : MAXHOPS <= 255 -> post (keeps_hop hdr) (session hdr acts).
Proof.
  intros Hmax.
  induction acts as [| a acts IH]; cbn [session]; [apply post_ret |].
  apply post_bind; [| intros; exact IH].
  destruct a; cbn [perform]; [apply (hop_task_turn Hmax) | post_hop].
Qed.


Lemma leading_nonzero_char (h : nat) :
  forall (l : list Z) (n : nat),
    (h <= n)%nat ->
    (forall i, (i < h)%nat -> exists c, l !! i = Some c /\ c <> 0) ->
    (h = n \/ l !! h = Some 0) ->
    leading_nonzero (take n l) = h.
Proof.
  induction h as [| h IH]; intros l n Hle Hnz Hend.
  - destruct Hend as [<- | Hz]; [reflexivity |].
    destruct l as [| c l]; [discriminate |]. cbn in Hz. injection Hz as ->.
    destruct n; reflexivity.
  - destruct (Hnz 0%nat ltac:(lia)) as (c & Hc & Hc0).
    destruct l as [| c' l]; [discriminate |]. cbn in Hc. injection Hc as ->.
    destruct n as [| n]; [lia |]. cbn [take leading_nonzero].
    destruct (Z.eqb_spec c 0) as [| _]; [contradiction |].
    f_equal. apply IH; [lia | |].
    + intros i Hi. exact (Hnz (S i) ltac:(lia)).
    + destruct Hend as [Heq | Hz]; [left; lia | right; exact Hz].
Qed.

Lemma hop_inv_hop_count (ch hc : Z) (hops : list Z) :
  hop_inv MAXHOPS ch hc hops -> hc = hop_count MAXHOPS hops.
Proof.
  intros (Hch & Hhc & Hnz & Hend). unfold hop_count.
  rewrite (leading_nonzero_char (Z.to_nat hc)); [lia | lia | |].
  - intros i Hi. specialize (Hnz (Z.of_nat i) ltac:(lia)).
    rewrite Nat2Z.id in Hnz. exact Hnz.
  - destruct Hend as [-> | Hz]; [left; reflexivity | right; exact Hz].
Qed.

Lemma count_hops_spec (fuel : nat) :
  MAXHOPS <= 255 ->
  forall (hc0 : Z) (w : world) (hc : Z) (w' : world),
    0 <= hc0 ->
    count_hops hdr fuel hc0 w = Done hc w' ->
    let hops := BindData.hopchannel (bind_data (dev w)) in
    w' = w /\ hc0 <= hc /\ (hc0 <= MAXHOPS -> hc <= MAXHOPS) /\
    (forall i, hc0 <= i < hc -> exists c, hops !! Z.to_nat i = Some c /\ c <> 0) /\
    (MAXHOPS <= hc \/ hops !! Z.to_nat hc = Some 0).
Proof.
  intros Hmax. induction fuel as [| fuel IH]; intros hc0 w hc w' H0 E; cbn [count_hops] in E.
  - discriminate.
  - destruct (Z.ltb_spec hc0 MAXHOPS) as [Hlt | Hge].
    + apply bind_Done in E as (bd & w1 & E1 & E). inversion E1; subst; clear E1.
      apply bind_Done in E as (c & w2 & E2 & E).
      destruct (BindData.hopchannel (bind_data (dev w1)) !! Z.to_nat hc0) as [c' |] eqn:Hc;
        [| discriminate].
      inversion E2; subst; clear E2.
      destruct (Z.eqb_spec c 0) as [-> | Hc0].
      * inversion E; subst; clear E. cbv zeta.
        split; [reflexivity |]. split; [lia |]. split; [lia |].
        split; [intros i Hi; lia | right; exact Hc].
      * rewrite u8_small in E by lia.
        destruct (IH (hc0 + 1) _ _ _ ltac:(lia) E) as (-> & Hle & Hm & Hnz & Hend).
        split; [reflexivity |]. split; [lia |]. split; [intros _; apply Hm; lia |].
        split; [| exact Hend].
        intros i Hi. destruct (Z.eq_dec i hc0) as [-> | Hne].
        -- exists c. split; [exact Hc | exact Hc0].
        -- apply Hnz. lia.
    + inversion E; subst; clear E. cbv zeta.
      split; [reflexivity |]. split; [lia |]. split; [lia |].
      split; [intros i Hi; lia | left; exact Hge].
Qed.

(** The session does not write [bind_data]. *)
Instance same_bind_data_preorder : PreOrder same_bind_data.
Proof.
  split; [intros w; reflexivity | intros a b c H1 H2; unfold same_bind_data in *; congruence].
Qed.

Lemma core_bind_data {A} (m : M A) : post same_core m -> post same_bind_data m.
Proof.
  apply post_weaken. intros w w' H.
  destruct (same_core_hop_state _ _ H) as (_ & _ & H3). exact H3.
Qed.

Ltac post_bd :=
  repeat first
    [ apply core_bind_data; solve [eauto with drv]
    | post_step ];
  try reflexivity.

Lemma bd_rx_loop : post same_bind_data (pios_openlrs_rx_loop hdr).
Proof.
  unfold pios_openlrs_rx_loop, rx_loop_received, rx_loop_rssi, rx_loop_link, rx_loop_hop.
  post_bd.
Qed.

Lemma bd_session acts : post same_bind_data (session hdr acts).
Proof.
  induction acts as [| a acts IH]; cbn [session]; [apply post_ret |].
  apply post_bind; [| intros; exact IH].
  destruct a; cbn [perform]; [unfold task_turn; pose proof bd_rx_loop |]; post_bd.
Qed.

(** What [pios_openlrs_setup] leaves behind. *)
Lemma setup_hop_state (bind : bool) (w w' : world) :
  0 < MAXHOPS <= 255 ->
  pios_openlrs_setup hdr bind w = Done tt w' ->
  let hops := BindData.hopchannel (bind_data (dev w')) in
  let hc := hopcount (globals w') in
  rf_channel (dev w') = 0 /\ link_acquired (dev w') = false /\
  0 <= hc <= MAXHOPS /\
  (forall i, 0 <= i < hc -> exists c, hops !! Z.to_nat i = Some c /\ c <> 0) /\
  (hc = MAXHOPS \/ hops !! Z.to_nat hc = Some 0).
Proof.
  intros Hmax E. unfold pios_openlrs_setup in E.
  apply bind_Done in E as (? & w1 & _ & E).
  apply bind_Done in E as (? & w2 & _ & E).
  apply bind_Done in E as (? & w3 & _ & E).
  apply bind_Done in E as (? & w4 & E4 & E). inversion E4; subst; clear E4.
  apply bind_Done in E as (ch & w5 & E5 & E). inversion E5; subst; clear E5.
  apply bind_Done in E as (? & w6 & E6 & E).
  apply core_rfmSetChannel in E6. apply same_core_hop_state in E6 as (A1 & _ & A3).
  cbn in A1, A3.
  apply bind_Done in E as (hc & w7 & E7 & E).
  destruct (count_hops_spec 257 ltac:(lia) 0 _ _ _ ltac:(lia) E7) as (-> & Hle & Hm & Hnz & Hend).
  apply bind_Done in E as (? & w8 & E8 & E). inversion E8; subst; clear E8.
  apply bind_Done in E as (? & w9 & E9 & E). inversion E9; subst; clear E9.
  apply bind_Done in E as (? & w10 & E10 & E).
  apply core_to_rx_mode in E10. apply same_core_hop_state in E10 as (B1 & B2 & B3).
  cbn in B1, B2, B3.
  apply bind_Done in E as (? & w11 & E11 & E). inversion E11; subst; clear E11.
  apply bind_Done in E as (t & w12 & E12 & E). inversion E12; subst; clear E12.
  inversion E; subst; clear E.
  cbn. rewrite B1, B3, A1.
  split; [reflexivity |]. split; [reflexivity |]. split; [lia |].
  split; [exact Hnz |].
  destruct Hend as [Hge | Hz]; [left; lia | right; exact Hz].
Qed.

(** C6, amended.  When the hop list is not empty, the channel index stays
    below the hop count at every point of a session after setup, in any
    order of iterations and interrupts; the hop count is the number of
    leading non-zero entries of the hop list and at most [MAXHOPS]; and
    the hop step keeps the bound. *)
Theorem hop_channel_in_range (bind : bool) (acts : list activity) (w w' : world) :
  0 < MAXHOPS <= 255 ->
  (pios_openlrs_setup hdr bind;; session hdr acts) w = Done tt w' ->
  let hops := BindData.hopchannel (bind_data (dev w')) in
  hops !! 0%nat <> Some 0 ->
  0 <= rf_channel (dev w') < hopcount (globals w') /\
  hopcount (globals w') = hop_count MAXHOPS hops /\
  hopcount (globals w') <= MAXHOPS /\
  (forall v v', hop_ok hdr v -> rx_loop_hop hdr v = Done tt v' -> hop_ok hdr v').
Proof.
  intros Hmax E hops Hfirst.
  assert (hop_ok hdr w') as Hok.
  { apply bind_Done in E as ([] & w1 & E1 & E2).
    pose proof (hop_session acts ltac:(lia) _ _ _ E2) as Hkeep.
    assert (BindData.hopchannel (bind_data (dev w1)) = hops) as Hsame.
    { unfold hops. rewrite (bd_session acts _ _ _ E2). reflexivity. }
    apply Hkeep.
    destruct (setup_hop_state bind w w1 Hmax E1) as (Hch & _ & Hhc & Hnz & Hend).
    rewrite Hsame in Hnz, Hend.
    unfold hop_ok, hop_inv. rewrite Hch, Hsame.
    split; [| split; [lia | split; [exact Hnz | exact Hend]]].
    split; [lia |].
    destruct (Z.eq_dec (hopcount (globals w1)) 0) as [Hz | Hnz0]; [| lia].
    exfalso. rewrite Hz in Hend. destruct Hend as [Hm | Hzero]; [lia |].
    exact (Hfirst Hzero). }
  pose proof (hop_inv_hop_count _ _ _ Hok) as Hcount.
  destruct Hok as (Hch & Hhc & _).
  split; [exact Hch |]. split; [exact Hcount |]. split; [exact Hhc |].
  intros v v' Hv Ev. exact (hop_rx_loop_hop ltac:(lia) _ _ _ Ev Hv).
Qed.


(** ** Plumbing that always completes *)

Instance quiet_preorder : PreOrder quiet.
Proof.
  split.
  - intros w. repeat split; reflexivity.
  - intros a b c (A1 & A2 & A3 & A4) (B1 & B2 & B3 & B4).
    repeat split; [etransitivity; eassumption | congruence | congruence | congruence].
Qed.

Lemma plumb_ret {A} (a : A) : plumb (ret a).
Proof. intros w. exists a, w. split; reflexivity. Qed.

Lemma plumb_gets {A} (f : world -> A) : plumb (gets f).
Proof. intros w. exists (f w), w. split; reflexivity. Qed.

Lemma plumb_modify (f : world -> world) : (forall w, quiet w (f w)) -> plumb (modify f).
Proof. intros Hf w. exists tt, (f w). split; [reflexivity | apply Hf]. Qed.

Lemma plumb_bind {A B} (m : M A) (k : A -> M B) :
  plumb m -> (forall a, plumb (k a)) -> plumb (bind m k).
Proof.
  intros Hm Hk w. destruct (Hm w) as (a & w1 & E1 & Q1).
  destruct (Hk a w1) as (b & w2 & E2 & Q2).
  exists b, w2. unfold bind. rewrite E1. split; [exact E2 | etransitivity; eassumption].
Qed.

Lemma plumb_when (b : bool) (m : M unit) : plumb m -> plumb (when b m).
Proof. intros Hm. destruct b; [exact Hm | apply plumb_ret]. Qed.

Lemma record_app (t evs : list event) : record (t ++ evs) = record t ++ record evs.
Proof. unfold record. apply filter_app. Qed.

Lemma plumb_emit (e : event) : notable e = false -> plumb (emit e).
Proof.
  intros He. apply plumb_modify. intros [d g en t].
  repeat split. cbn. rewrite record_app. unfold record at 2. cbn.
  rewrite decide_False by (rewrite He; discriminate).
  apply app_nil_r.
Qed.

Lemma notable_rx l : notable (TransferBlock l true) = false.
Proof. destruct l as [| ? [| ? [| ? ?]]]; reflexivity. Qed.

Lemma plumb_spi_byte : plumb spi_byte.
Proof. intros [d g e t]. do 2 eexists. split; [reflexivity | repeat split]. Qed.

Lemma plumb_micros : plumb micros.
Proof. intros [d g e t]. do 2 eexists. split; [reflexivity | repeat split]. Qed.

Lemma plumb_millis : plumb millis.
Proof. intros [d g e t]. do 2 eexists. split; [reflexivity | repeat split]. Qed.

(** Use of a plumbing step inside a longer computation. *)
Lemma plumb_step {A B} (m : M A) (k : A -> M B) (w : world) (P : outcome B -> Prop) :
  plumb m -> (forall a w', quiet w w' -> P (k a w')) -> P (bind m k w).
Proof.
  intros Hm Hk. destruct (Hm w) as (a & w1 & E1 & Q1).
  unfold bind. rewrite E1. apply Hk. exact Q1.
Qed.

Create HintDb plumb discriminated.
Hint Resolve plumb_spi_byte plumb_micros plumb_millis : plumb.

Ltac plumb_quiet := intros [? ? ? ?]; repeat split.

Ltac plumb_go :=
  repeat lazymatch goal with
  | |- plumb (bind _ _) => apply plumb_bind; [| intros ?]
  | |- plumb (ret _) => apply plumb_ret
  | |- plumb (gets _) => apply plumb_gets
  | |- plumb (when _ _) => apply plumb_when
  | |- plumb (if ?b then _ else _) => destruct b
  | |- plumb (emit _) =>
      first [assumption
            | apply plumb_emit; first [reflexivity | assumption | apply notable_rx]]
  | |- plumb (modify _) => apply plumb_modify; plumb_quiet
  | |- plumb (set_dev _) => apply plumb_modify; plumb_quiet
  | |- plumb (set_global _) => apply plumb_modify; plumb_quiet
  | |- plumb _ => solve [eauto with plumb]
  end.

Lemma plumb_spi_bytes n : plumb (spi_bytes n).
Proof. induction n; cbn [spi_bytes]; plumb_go. Qed.
Hint Resolve plumb_spi_bytes : plumb.

Lemma plumb_assertCs : plumb rfm22_assertCs.
Proof. unfold rfm22_assertCs. plumb_go. Qed.
Lemma plumb_deassertCs : plumb rfm22_deassertCs.
Proof. unfold rfm22_deassertCs. plumb_go. Qed.
Lemma plumb_claimBus : plumb rfm22_claimBus.
Proof. unfold rfm22_claimBus. plumb_go. Qed.
Lemma plumb_releaseBus : plumb rfm22_releaseBus.
Proof. unfold rfm22_releaseBus. plumb_go. Qed.
Hint Resolve plumb_assertCs plumb_deassertCs plumb_claimBus plumb_releaseBus : plumb.

Lemma plumb_TransferBlock_rx l : plumb (PIOS_SPI_TransferBlock_rx l).
Proof.
  unfold PIOS_SPI_TransferBlock_rx. plumb_go.
Qed.
Lemma plumb_TransferByte b : plumb (PIOS_SPI_TransferByte b).
Proof. unfold PIOS_SPI_TransferByte. plumb_go. Qed.
Hint Resolve plumb_TransferBlock_rx plumb_TransferByte : plumb.

Lemma plumb_read a : plumb (rfm22_read a).
Proof. unfold rfm22_read. plumb_go. Qed.
Lemma plumb_read_claim a : plumb (rfm22_read_claim a).
Proof. unfold rfm22_read_claim. plumb_go. Qed.
Hint Resolve plumb_read plumb_read_claim : plumb.

Lemma plumb_write a d : quiet_write a d -> plumb (rfm22_write a d).
Proof.
  intros H. unfold rfm22_write, PIOS_SPI_TransferBlock_tx.
  pose proof (plumb_emit _ H). plumb_go.
Qed.

Lemma plumb_write_claim a d : quiet_write a d -> plumb (rfm22_write_claim a d).
Proof.
  intros H. unfold rfm22_write_claim, PIOS_SPI_TransferBlock_tx.
  pose proof (plumb_emit _ H). plumb_go.
Qed.

(** At an address that is neither 0x3E nor 0x7F any value is quiet, and
    at any address the values other than 1 and ['B'] are. *)
Lemma quiet_write_addr a d :
  u8 (Z.lor (u8 a) 0x80) <> 0xBE -> u8 (Z.lor (u8 a) 0x80) <> 0xFF -> quiet_write a d.
Proof.
  intros H1 H2. unfold quiet_write. cbn [notable].
  destruct (Z.eqb_spec (u8 (Z.lor (u8 a) 128)) 190); [contradiction |].
  destruct (Z.eqb_spec (u8 (Z.lor (u8 a) 128)) 255); [contradiction |].
  reflexivity.
Qed.

Lemma quiet_write_data a d : u8 d <> 1 -> u8 d <> 66 -> quiet_write a d.
Proof.
  intros H1 H2. unfold quiet_write. cbn [notable].
  destruct (Z.eqb_spec (u8 d) 1); [contradiction |].
  destruct (Z.eqb_spec (u8 d) 66); [contradiction |].
  rewrite !andb_false_r. reflexivity.
Qed.

Ltac quiet_addr := apply quiet_write_addr; vm_compute; discriminate.

Lemma plumb_clearFIFO : plumb clearFIFO.
Proof.
  unfold clearFIFO.
  repeat first [apply plumb_write; quiet_addr | apply plumb_bind; [| intros ?] | plumb_go].
Qed.
Hint Resolve plumb_clearFIFO : plumb.

Lemma plumb_rx_reset : plumb (rx_reset hdr).
Proof.
  unfold rx_reset.
  repeat first
    [ apply plumb_write; quiet_addr
    | apply plumb_write_claim; quiet_addr
    | apply plumb_write_claim; apply quiet_write_data; vm_compute; discriminate
    | apply plumb_bind; [| intros ?]
    | plumb_go ].
Qed.
Hint Resolve plumb_rx_reset : plumb.

Lemma plumb_init_rfm_gpio : plumb (init_rfm_gpio hdr).
Proof.
  unfold init_rfm_gpio.
  repeat first
    [ apply plumb_write; quiet_addr
    | apply plumb_bind; [| intros ?]
    | plumb_go ].
Qed.
Hint Resolve plumb_init_rfm_gpio : plumb.


(** ** Sleeping *)

(** A sleep uses up one entry of the interrupt script; the interrupt, if
    it comes and the device is valid, moves the mode. *)
Lemma Sleep_run (ms : Z) (w : world) (b : bool) (rest : list bool) :
  irq_script (env w) = b :: rest ->
  exists w',
    PIOS_Thread_Sleep hdr ms w = Done tt w' /\
    same_core w w' /\
    irq_script (env w') = rest /\
    record (trace w') = record (trace w) /\
    rf_mode (dev w') = (if b && valid hdr w then irq_mode (rf_mode (dev w)) else rf_mode (dev w)).
Proof.
  intros Hs. destruct w as [d g e t]. cbn in Hs.
  unfold PIOS_Thread_Sleep, next_irq, PIOS_OpenLRS_EXT_Int, pios_openlrs_validate, valid.
  unfold_monad. cbn. rewrite Hs.
  destruct b; cbn.
  - destruct (g_openlrs_dev g && (magic d =? hdr_PIOS_OPENLRS_DEV_MAGIC hdr)); cbn.
    + destruct d as [? ? ? ? ? ? ? ? m ? ? ? ?]; destruct m; cbn;
        (eexists; split; [reflexivity |]; cbn;
         split; [reflexivity |]; split; [reflexivity |]; split; [| reflexivity];
         rewrite record_app; apply app_nil_r).
    + eexists. split; [reflexivity |]. cbn.
      split; [reflexivity |]. split; [reflexivity |]. split; [| reflexivity].
      rewrite record_app. apply app_nil_r.
  - eexists. split; [reflexivity |]. cbn.
    split; [reflexivity |]. split; [reflexivity |]. split; [| reflexivity].
    rewrite record_app. apply app_nil_r.
Qed.

Lemma same_core_valid (w w' : world) : same_core w w' -> valid hdr w' = valid hdr w.
Proof.
  intros H. unfold same_core, core in H.
  pose proof (f_equal (fun c => g_openlrs_dev (snd c)) H) as H1.
  pose proof (f_equal (fun c => magic (fst c)) H) as H2.
  cbn in H1, H2. unfold valid. congruence.
Qed.

Lemma sleeps_run (n : nat) (ms : Z) :
  forall w : world,
    (n <= length (irq_script (env w)))%nat ->
    exists w',
      sleeps hdr n ms w = Done tt w' /\
      same_core w w' /\
      irq_script (env w') = drop n (irq_script (env w)) /\
      record (trace w') = record (trace w).
Proof.
  induction n as [| n IH]; intros w Hn; cbn [sleeps].
  - exists w. split; [reflexivity |]. split; [reflexivity |]. split; reflexivity.
  - destruct (irq_script (env w)) as [| b rest] eqn:Hs; [cbn in Hn; lia |].
    destruct (Sleep_run ms w b rest Hs) as (w1 & E1 & C1 & S1 & R1 & _).
    destruct (IH w1 ltac:(rewrite S1; cbn in Hn; lia)) as (w2 & E2 & C2 & S2 & R2).
    exists w2. unfold bind. rewrite E1.
    split; [exact E2 |]. split; [etransitivity; eassumption |].
    split; [rewrite S2, S1; reflexivity | congruence].
Qed.


(** ** The modem table is indexed unchecked *)

Lemma plumb_init_rfm_ready : plumb (init_rfm_ready hdr).
Proof.
  unfold init_rfm_ready.
  repeat first
    [ apply plumb_write; quiet_addr
    | apply plumb_bind; [| intros ?]
    | plumb_go ].
Qed.

Lemma plumb_setModemRegs r : plumb (setModemRegs r).
Proof.
  unfold setModemRegs.
  repeat first
    [ apply plumb_write; quiet_addr
    | apply plumb_bind; [| intros ?]
    | plumb_go ].
Qed.

Lemma plumb_init_rfm_packet b bd : plumb (init_rfm_packet hdr b bd).
Proof.
  unfold init_rfm_packet. cbn [init_rfm_header].
  repeat first
    [ apply plumb_write; quiet_addr
    | apply plumb_bind; [| intros ?]
    | plumb_go ].
Qed.

Lemma plumb_rfmSetCarrierFrequency f : plumb (rfmSetCarrierFrequency hdr f).
Proof.
  unfold rfmSetCarrierFrequency.
  repeat first
    [ apply plumb_write; quiet_addr
    | apply plumb_bind; [| intros ?]
    | plumb_go ].
Qed.

Lemma quiet_bind_data (w w' : world) : quiet w w' -> bind_data (dev w') = bind_data (dev w).
Proof. intros (H & _). destruct (same_core_hop_state _ _ H) as (_ & _ & H3). exact H3. Qed.

Lemma modem_params_lookup (i : Z) :
  0 <= i -> (modem_params !! Z.to_nat i = None <-> 5 <= i).
Proof.
  intros Hi. rewrite lookup_ge_None. cbn [length modem_params]. lia.
Qed.

(** [init_rfm (0)] after its eight sleeps: undefined exactly when the index
    is outside the table. *)
Lemma init_rfm_table (w : world) :
  0 <= BindData.modem_params (bind_data (dev w)) ->
  (8 <= length (irq_script (env w)))%nat ->
  (5 <= BindData.modem_params (bind_data (dev w)) -> init_rfm hdr false w = Undefined) /\
  (BindData.modem_params (bind_data (dev w)) < 5 ->
   exists w', init_rfm hdr false w = Done tt w' /\ same_core w w').
Proof.
  intros Hmp Hs.
  destruct (sleeps_run 8 10 w Hs) as (w1 & E1 & C1 & _ & _).
  pose proof (same_core_hop_state _ _ C1) as (_ & _ & B1).
  unfold init_rfm. cbn [negb when].
  split.
  - intros Hbig. unfold bind at 1. rewrite E1.
    apply plumb_step; [apply plumb_init_rfm_ready |].
    intros [] w2 Q2. pose proof (quiet_bind_data _ _ Q2) as B2.
    unfold bind at 1, gets at 1. rewrite B2, B1.
    destruct (modem_params_lookup _ Hmp) as [_ Hnone]. rewrite (Hnone Hbig).
    reflexivity.
  - intros Hsmall. unfold bind at 1. rewrite E1.
    apply (plumb_step _ _ _ (fun o => exists w', o = Done tt w' /\ same_core w w'));
      [apply plumb_init_rfm_ready |].
    intros [] w2 Q2. pose proof (quiet_bind_data _ _ Q2) as B2.
    unfold bind at 1, gets at 1. rewrite B2, B1.
    destruct (modem_params_valid _ (conj Hmp Hsmall)) as (r & -> & _).
    cbn [lift]. unfold bind at 2, ret at 1.
    apply plumb_step; [apply plumb_setModemRegs |]. intros [] w3 Q3.
    apply plumb_step; [apply plumb_init_rfm_packet |]. intros [] w4 Q4.
    destruct (plumb_rfmSetCarrierFrequency
                (u32 (BindData.rf_frequency (bind_data (dev w)))) w4) as ([] & w5 & E5 & Q5).
    exists w5. split; [exact E5 |].
    destruct Q2 as (Q2 & _), Q3 as (Q3 & _), Q4 as (Q4 & _), Q5 as (Q5 & _).
    unfold same_core in *. congruence.
Qed.


(** ** Receiving a bind packet *)

Lemma claimBus_run (w : world) :
  exists w', rfm22_claimBus w = Done tt w' /\ quiet w w' /\ env w' = env w.
Proof.
  destruct w as [d g e t]. unfold rfm22_claimBus. unfold_monad. cbn.
  destruct (spi_id d =? 0); cbn; eexists; (split; [reflexivity |]);
    (split; [| reflexivity]); repeat split; cbn;
    rewrite ?record_app; rewrite ?app_nil_r; reflexivity.
Qed.

Lemma assertCs_run (w : world) :
  exists w', rfm22_assertCs w = Done tt w' /\ quiet w w' /\ env w' = env w.
Proof.
  destruct w as [d g e t]. unfold rfm22_assertCs. unfold_monad. cbn.
  destruct (spi_id d =? 0); cbn; eexists; (split; [reflexivity |]);
    (split; [| reflexivity]); repeat split; cbn;
    rewrite ?record_app; rewrite ?app_nil_r; reflexivity.
Qed.

Lemma spi_byte_run (w : world) :
  exists w',
    spi_byte w = Done (hd 0 (spi_in (env w))) w' /\ quiet w w' /\
    spi_in (env w') = tl (spi_in (env w)).
Proof.
  destruct w as [d g e t]. eexists. split; [reflexivity |]. repeat split.
Qed.

Lemma TransferByte_run (b : Z) (w : world) :
  exists w',
    PIOS_SPI_TransferByte b w = Done (hd 0 (spi_in (env w))) w' /\ quiet w w' /\
    spi_in (env w') = tl (spi_in (env w)).
Proof.
  destruct w as [d g e t]. unfold PIOS_SPI_TransferByte. unfold_monad. cbn.
  eexists. split; [reflexivity |]. split; [| reflexivity].
  repeat split. cbn. rewrite record_app. apply app_nil_r.
Qed.

Lemma spi_bytes_run (blk : list Z) :
  forall (w : world) (rest : list Z),
    spi_in (env w) = blk ++ rest ->
    exists w',
      spi_bytes (length blk) w = Done blk w' /\ quiet w w' /\ spi_in (env w') = rest.
Proof.
  induction blk as [| b blk IH]; intros w rest Hs; cbn [length spi_bytes].
  - exists w. split; [reflexivity |]. split; [reflexivity | exact Hs].
  - destruct (spi_byte_run w) as (w1 & E1 & Q1 & S1).
    rewrite Hs in E1, S1. cbn in E1, S1.
    destruct (IH w1 rest S1) as (w2 & E2 & Q2 & S2).
    exists w2. unfold bind at 1. rewrite E1. unfold bind at 1. rewrite E2.
    split; [reflexivity |]. split; [etransitivity; eassumption | exact S2].
Qed.

Lemma transfer_OUT_FF_run (n : Z) (w : world) (blk rest : list Z) :
  0 <= n <= 64 -> length blk = Z.to_nat n ->
  spi_in (env w) = blk ++ rest ->
  exists w',
    transfer_OUT_FF n w = Done blk w' /\ quiet w w' /\ spi_in (env w') = rest.
Proof.
  intros Hn Hl Hs. unfold transfer_OUT_FF.
  assert (length OUT_FF = 64%nat) as HL by reflexivity.
  rewrite HL.
  destruct (Z.leb_spec 0 n); [| lia]. destruct (Z.leb_spec n (Z.of_nat 64)); [| lia].
  cbn [andb]. unfold PIOS_SPI_TransferBlock_rx.
  assert (length (take (Z.to_nat n) OUT_FF) = length blk) as ->.
  { rewrite length_take, HL. lia. }
  assert (plumb (emit (TransferBlock (take (Z.to_nat n) OUT_FF) true))) as He
    by (apply plumb_emit; apply notable_rx).
  destruct (He w) as ([] & w1 & E1 & Q1).
  assert (spi_in (env w1) = blk ++ rest) as S1.
  { unfold emit, modify in E1. inversion E1; subst. exact Hs. }
  destruct (spi_bytes_run blk w1 rest S1) as (w2 & E2 & Q2 & S2).
  exists w2. unfold bind. rewrite E1. split; [exact E2 |].
  split; [etransitivity; eassumption | exact S2].
Qed.

(** The acknowledgement leaves two writes in the record: the length 1 and
    the byte ['B']. *)
Lemma tx_packet_async_ack (w : world) :
  exists w',
    tx_packet_async hdr [66] 1 w = Done tt w' /\
    same_core w w' /\
    rf_mode (dev w') = Transmit /\
    irq_script (env w') = irq_script (env w) /\
    record (trace w') =
      record (trace w) ++ [TransferBlock [0xBE; 1] false; TransferBlock [0xFF; 66] false].
Proof.
  unfold tx_packet_async.
  change (Z.to_nat (u8 1)) with 1%nat.
  apply plumb_step; [apply plumb_claimBus |]. intros [] w1 Q1.
  assert (forall v : world, exists v',
            rfm22_write RFM22.transmit_packet_length 1 v = Done tt v' /\
            same_core v v' /\ rf_mode (dev v') = rf_mode (dev v) /\
            irq_script (env v') = irq_script (env v) /\
            record (trace v') = record (trace v) ++ [TransferBlock [0xBE; 1] false]) as Hlen.
  { intros [d g e t]. unfold rfm22_write, rfm22_assertCs, rfm22_deassertCs,
      PIOS_SPI_TransferBlock_tx. unfold_monad. cbn.
    destruct (spi_id d =? 0) eqn:E; repeat (progress (cbn; rewrite ?E));
      eexists; (split; [reflexivity |]); cbn;
      repeat split; rewrite !record_app; cbn; rewrite ?app_nil_r; reflexivity. }
  assert (forall v : world, exists v',
            tx_fifo 1 0 [66] v = Done tt v' /\
            same_core v v' /\ rf_mode (dev v') = rf_mode (dev v) /\
            irq_script (env v') = irq_script (env v) /\
            record (trace v') = record (trace v) ++ [TransferBlock [0xFF; 66] false]) as Hfifo.
  { intros [d g e t]. cbn [tx_fifo]. unfold rfm22_write, rfm22_assertCs, rfm22_deassertCs,
      PIOS_SPI_TransferBlock_tx. unfold_monad. cbn.
    destruct (spi_id d =? 0) eqn:E; repeat (progress (cbn; rewrite ?E));
      eexists; (split; [reflexivity |]); cbn;
      repeat split; rewrite !record_app; cbn; rewrite ?app_nil_r; reflexivity. }
  destruct (Hlen w1) as (w2 & E2 & C2 & M2 & S2 & R2). unfold bind at 1. rewrite E2.
  destruct (Hfifo w2) as (w3 & E3 & C3 & M3 & S3 & R3). unfold bind at 1. rewrite E3.
  apply plumb_step; [apply plumb_write; quiet_addr |]. intros [] w4 Q4.
  apply plumb_step; [apply plumb_read |]. intros s1 w5 Q5.
  apply plumb_step; [apply plumb_modify; plumb_quiet |]. intros [] w6 Q6.
  apply plumb_step; [apply plumb_read |]. intros s2 w7 Q7.
  apply plumb_step; [apply plumb_modify; plumb_quiet |]. intros [] w8 Q8.
  apply plumb_step; [apply plumb_micros |]. intros t w9 Q9.
  unfold bind at 1, set_global at 1, modify at 1.
  apply plumb_step; [apply plumb_write; quiet_addr |]. intros [] w10 Q10.
  apply plumb_step; [apply plumb_releaseBus |]. intros [] w11 Q11.
  unfold set_dev, modify. eexists. split; [reflexivity |].
  destruct Q1 as (A1 & A2 & A3 & A4), Q4 as (D1 & D2 & D3 & D4), Q5 as (F1 & F2 & F3 & F4),
    Q6 as (G1 & G2 & G3 & G4), Q7 as (H1 & H2 & H3 & H4), Q8 as (I1 & I2 & I3 & I4),
    Q9 as (J1 & J2 & J3 & J4), Q10 as (K1 & K2 & K3 & K4), Q11 as (L1 & L2 & L3 & L4).
  unfold same_core in *.
  change (core (with_globals (set_tx_start t) w9)) with (core w9) in K1.
  change (rf_mode (dev (with_globals (set_tx_start t) w9))) with (rf_mode (dev w9)) in K2.
  change (irq_script (env (with_globals (set_tx_start t) w9)))
    with (irq_script (env w9)) in K3.
  change (trace (with_globals (set_tx_start t) w9)) with (trace w9) in K4.
  split; [| split; [reflexivity | split]].
  - change (core (with_dev (set_rf_mode Transmit) w11)) with (core w11).
    congruence.
  - change (irq_script (env (with_dev (set_rf_mode Transmit) w11)))
      with (irq_script (env w11)).
    congruence.
  - change (trace (with_dev (set_rf_mode Transmit) w11)) with (trace w11).
    rewrite L4, K4, J4, I4, H4, G4, F4, D4, R3, R2, A4.
    rewrite <- app_assoc. reflexivity.
Qed.


Lemma plumb_WDG : plumb (PIOS_WDG_UpdateFlag hdr).
Proof. unfold PIOS_WDG_UpdateFlag. plumb_go. Qed.

Lemma plumb_LED : plumb (PIOS_LED_Toggle hdr).
Proof. unfold PIOS_LED_Toggle. plumb_go. Qed.

Lemma tx_pending_run (w : world) :
  exists b w',
    tx_pending w = Done b w' /\ quiet w w' /\
    (rf_mode (dev w) <> Transmit -> b = false).
Proof.
  destruct w as [d g e t]. unfold tx_pending. unfold_monad. cbn.
  destruct (rf_mode d); cbn; do 2 eexists;
    (split; [reflexivity |]); (split; [repeat split |]); congruence.
Qed.

(** The waiting loop of [tx_packet] ends once the packet-sent interrupt
    has come. *)
Lemma tx_wait_run (l : list bool) :
  forall w : world,
    irq_script (env w) = l ->
    valid hdr w = true ->
    rf_mode (dev w) = Transmitted \/ (rf_mode (dev w) = Transmit /\ In true l) ->
    exists r w',
      loop (S (length l)) tt (fun _ => tx_pending)
        (fun _ => PIOS_Thread_Sleep hdr 1;; PIOS_WDG_UpdateFlag hdr;; ret (inl tt : unit + unit)) w
      = Done r w' /\
      same_core w w' /\ record (trace w') = record (trace w).
Proof.
  induction l as [| b rest IH]; intros w Hs Hv Hm.
  - destruct Hm as [Hm | [_ []]].
    destruct (tx_pending_run w) as (c & w1 & E1 & (C1 & _ & _ & R1) & F1).
    rewrite (F1 ltac:(congruence)) in E1.
    cbn [loop length]. unfold bind at 1. rewrite E1.
    do 2 eexists. split; [reflexivity | split; assumption].
  - destruct (tx_pending_run w) as (c & w1 & E1 & (C1 & M1 & S1 & R1) & F1).
    cbn [loop length]. unfold bind at 1. rewrite E1.
    destruct c.
    2: { do 2 eexists. split; [reflexivity | split; assumption]. }
    destruct Hm as [Hm | [Hm Hin]]; [pose proof (F1 ltac:(congruence)); discriminate |].
    rewrite Hs in S1.
    destruct (Sleep_run 1 w1 b rest S1) as (w2 & E2 & C2 & S2 & R2 & M2).
    destruct (plumb_WDG w2) as ([] & w3 & E3 & (C3 & M3 & S3 & R3)).
    unfold bind at 1. unfold bind at 1. rewrite E2. unfold bind at 1. rewrite E3.
    unfold ret at 1.
    assert (valid hdr w3 = true) as Hv3.
    { rewrite (same_core_valid _ _ C3), (same_core_valid _ _ C2), (same_core_valid _ _ C1).
      exact Hv. }
    assert (valid hdr w1 = true) as Hv1 by (rewrite (same_core_valid _ _ C1); exact Hv).
    rewrite Hv1, M1, Hm, andb_true_r in M2.
    destruct (IH w3 ltac:(congruence) Hv3) as (r & w4 & E4 & C4 & R4).
    { rewrite M3, M2. destruct b; cbn [irq_mode]; [left; reflexivity |].
      right. split; [reflexivity |]. destruct Hin as [Hb | Hin]; [discriminate | exact Hin]. }
    exists r, w4. split; [exact E4 |].
    unfold same_core in *. split; congruence.
Qed.

Lemma tx_packet_ack (w : world) :
  valid hdr w = true ->
  In true (irq_script (env w)) ->
  exists w',
    tx_packet hdr [66] 1 w = Done tt w' /\
    same_core w w' /\
    record (trace w') =
      record (trace w) ++ [TransferBlock [0xBE; 1] false; TransferBlock [0xFF; 66] false].
Proof.
  intros Hv Hin. unfold tx_packet.
  destruct (tx_packet_async_ack w) as (w1 & E1 & C1 & M1 & S1 & R1).
  unfold bind at 1. rewrite E1. unfold bind at 1. unfold while_.
  destruct (tx_wait_run (irq_script (env w1)) w1 eq_refl) as (r & w2 & E2 & C2 & R2).
  { rewrite (same_core_valid _ _ C1). exact Hv. }
  { right. split; [exact M1 | rewrite S1; exact Hin]. }
  rewrite E2. unfold ret. eexists. split; [reflexivity |].
  unfold same_core in *. split; congruence.
Qed.


Lemma bind_bind_step {A B C} (m : M A) (f : A -> M B) (k : B -> M C) w a w1 :
  m w = Done a w1 -> bind (bind m f) k w = bind (f a) k w1.
Proof. intros E. unfold bind. rewrite E. reflexivity. Qed.

Lemma bind_step {A B} (m : M A) (k : A -> M B) w a w1 :
  m w = Done a w1 -> bind m k w = k a w1.
Proof. intros E. unfold bind. rewrite E. reflexivity. Qed.

(** The block that follows the byte ['b'] is read straight into
    [bind_data]; up to the test of the version nothing is acknowledged or
    stored. *)
Lemma bind_receive_packet_block (w : world) (x : Z) (blk rest : list Z) :
  let bd := hdr_bind_data_of_bytes hdr blk in
  spi_in (env w) = x :: 98 :: blk ++ rest ->
  length blk = Z.to_nat (hdr_sizeof_bind_data hdr) ->
  0 <= hdr_sizeof_bind_data hdr <= 64 ->
  (8 + Z.to_nat MAXHOPS <= length (irq_script (env w)))%nat ->
  exists v,
    bind_receive_packet hdr w = bind_receive_verdict hdr bd v /\
    bind_data (dev v) = bd /\
    record (trace v) = record (trace w) /\
    irq_script (env v) = drop (8 + Z.to_nat MAXHOPS) (irq_script (env w)) /\
    valid hdr v = valid hdr w.
Proof.
  intros bd Hs Hl Hsz Hn. unfold bind_receive_packet.
  destruct (claimBus_run w) as (w1 & E1 & Q1 & V1).
  rewrite (bind_step _ _ _ _ _ E1).
  destruct (assertCs_run w1) as (w2 & E2 & Q2 & V2).
  rewrite (bind_step _ _ _ _ _ E2).
  destruct (TransferByte_run 0x7f w2) as (w3 & E3 & Q3 & S3).
  rewrite (bind_step _ _ _ _ _ E3).
  rewrite V2, V1, Hs in S3. cbn [tl] in S3.
  destruct (TransferByte_run 0x00 w3) as (w4 & E4 & Q4 & S4).
  rewrite (bind_step _ _ _ _ _ E4).
  rewrite S3 in S4 |- *. cbn [hd tl] in S4 |- *.
  change (u8 98 =? 98) with true. cbv iota.
  destruct (transfer_OUT_FF_run _ w4 blk rest Hsz Hl S4) as (w5 & E5 & Q5 & S5).
  rewrite (bind_bind_step _ _ _ _ _ _ E5).
  rewrite (bind_bind_step (set_dev (set_bind_data bd)) _ _ w5 tt
             (with_dev (set_bind_data bd) w5) eq_refl).
  set (w6 := with_dev (set_bind_data bd) w5).
  destruct (plumb_deassertCs w6) as ([] & w7 & E7 & Q7).
  rewrite (bind_bind_step _ _ _ _ _ _ E7).
  destruct (plumb_releaseBus w7) as ([] & w8 & E8 & Q8).
  rewrite (bind_bind_step _ _ _ _ _ _ E8).
  assert (irq_script (env w8) = irq_script (env w)) as HS8.
  { destruct Q1 as (_ & _ & A & _), Q2 as (_ & _ & B & _), Q3 as (_ & _ & C & _),
      Q4 as (_ & _ & D & _), Q5 as (_ & _ & F & _), Q7 as (_ & _ & G & _),
      Q8 as (_ & _ & H & _).
    change (irq_script (env w6)) with (irq_script (env w5)) in G. congruence. }
  destruct (sleeps_run 8 10 w8 ltac:(rewrite HS8; lia)) as (w9 & E9 & C9 & S9 & R9).
  rewrite (bind_bind_step _ _ _ _ _ _ E9).
  destruct (sleeps_run (Z.to_nat MAXHOPS) 10 w9
              ltac:(rewrite S9, length_drop, HS8; lia)) as (w10 & E10 & C10 & S10 & R10).
  rewrite (bind_bind_step _ _ _ _ _ _ E10).
  assert (bind_data (dev w10) = bd) as HB.
  { destruct Q7 as (A & _), Q8 as (B & _).
    pose proof (same_core_hop_state _ _ A) as (_ & _ & A3).
    pose proof (same_core_hop_state _ _ B) as (_ & _ & B3).
    pose proof (same_core_hop_state _ _ C9) as (_ & _ & C3).
    pose proof (same_core_hop_state _ _ C10) as (_ & _ & D3).
    rewrite D3, C3, B3, A3. reflexivity. }
  rewrite (bind_bind_step (gets (fun w => bind_data (dev w))) _ _ w10 _ w10 eq_refl).
  rewrite HB.
  exists w10. split; [reflexivity |]. split; [exact HB |]. split; [| split].
  - destruct Q1 as (_ & _ & _ & A), Q2 as (_ & _ & _ & B), Q3 as (_ & _ & _ & C),
      Q4 as (_ & _ & _ & D), Q5 as (_ & _ & _ & F), Q7 as (_ & _ & _ & G),
      Q8 as (_ & _ & _ & H).
    change (trace w6) with (trace w5) in G. congruence.
  - rewrite S10, S9, HS8, drop_drop. reflexivity.
  - destruct Q1 as (A & _), Q2 as (B & _), Q3 as (C & _), Q4 as (D & _), Q5 as (F & _),
      Q7 as (G & _), Q8 as (H & _).
    rewrite (same_core_valid _ _ C10), (same_core_valid _ _ C9), (same_core_valid _ _ H),
      (same_core_valid _ _ G).
    change (valid hdr w6) with (valid hdr w5).
    rewrite (same_core_valid _ _ F), (same_core_valid _ _ D), (same_core_valid _ _ C),
      (same_core_valid _ _ B), (same_core_valid _ _ A).
    reflexivity.
Qed.


Lemma core_bind_receive_verdict bd : post same_core (bind_receive_verdict hdr bd).
Proof. unfold bind_receive_verdict. post_core. Qed.

(** A block of the right version is acknowledged with ['B'], stored, and
    answered with 1. *)
Lemma bind_receive_verdict_accept (v : world) (bd binding : BindData.t) :
  BindData.version bd = hdr_BINDING_VERSION hdr ->
  binding_of hdr bd = Some binding ->
  valid hdr v = true ->
  In true (irq_script (env v)) ->
  exists w',
    bind_receive_verdict hdr bd v = Done (Some 1) w' /\
    bind_data (dev w') = bind_data (dev v) /\
    record (trace w') =
      record (trace v) ++
      [TransferBlock [0xBE; 1] false; TransferBlock [0xFF; 66] false;
       UavoSet binding; UavoSave].
Proof.
  intros Hver Hbinding Hvalid Hirq. unfold bind_receive_verdict.
  destruct (Z.eqb_spec (BindData.version bd) (hdr_BINDING_VERSION hdr)); [| contradiction].
  destruct (tx_packet_ack v Hvalid Hirq) as (w1 & E1 & C1 & R1).
  rewrite (bind_bind_step _ _ _ _ _ _ E1).
  rewrite Hbinding. cbn [lift].
  rewrite (bind_bind_step (ret binding) _ _ w1 binding w1 eq_refl).
  rewrite (bind_bind_step (emit (UavoSet binding)) _ _ w1 tt _ eq_refl).
  rewrite (bind_bind_step (emit UavoSave) _ _ _ tt _ eq_refl).
  match goal with
  | |- context [bind (bind (PIOS_LED_Toggle hdr) _) _ ?u] =>
      destruct (plumb_LED u) as ([] & w2 & E2 & (C2 & _ & _ & R2));
      rewrite (bind_bind_step _ _ _ _ _ _ E2)
  end.
  rewrite (bind_step (ret true) _ w2 true w2 eq_refl). unfold ret.
  exists w2. split; [reflexivity |]. split.
  + pose proof (same_core_hop_state _ _ C2) as (_ & _ & B2).
    pose proof (same_core_hop_state _ _ C1) as (_ & _ & B1).
    rewrite B2. cbn. rewrite B1. reflexivity.
  + rewrite R2. cbn. rewrite !record_app. rewrite R1. cbn.
    rewrite <- !app_assoc. reflexivity.
Qed.

Lemma getInterval_None (bd : BindData.t) :
  0 <= BindData.modem_params bd ->
  (getInterval hdr bd = None <-> 5 <= BindData.modem_params bd).
Proof.
  intros Hmp. rewrite <- (modem_params_lookup _ Hmp). unfold getInterval.
  destruct (modem_params !! Z.to_nat (BindData.modem_params bd)); split; intros H;
    try reflexivity; discriminate.
Qed.

(** C10.  The table [modem_params] has five rows and is indexed by
    [bind_data.modem_params] without a check: [getInterval] and
    [init_rfm (0)] read inside the table exactly when the index is below 5,
    and a bind packet of the right version is accepted whatever its index,
    after which both read outside the table. *)
Theorem modem_params_unchecked :
  (forall bd : BindData.t,
     0 <= BindData.modem_params bd ->
     (getInterval hdr bd = None <-> 5 <= BindData.modem_params bd)) /\
  (forall w : world,
     0 <= BindData.modem_params (bind_data (dev w)) ->
     (8 <= length (irq_script (env w)))%nat ->
     (init_rfm hdr false w = Undefined <-> 5 <= BindData.modem_params (bind_data (dev w)))) /\
  (forall (w : world) (x : Z) (blk rest : list Z) (binding : BindData.t),
     let bd := hdr_bind_data_of_bytes hdr blk in
     spi_in (env w) = x :: 98 :: blk ++ rest ->
     length blk = Z.to_nat (hdr_sizeof_bind_data hdr) ->
     0 <= hdr_sizeof_bind_data hdr <= 64 ->
     (8 + Z.to_nat MAXHOPS <= length (irq_script (env w)))%nat ->
     valid hdr w = true ->
     In true (drop (8 + Z.to_nat MAXHOPS) (irq_script (env w))) ->
     binding_of hdr bd = Some binding ->
     BindData.version bd = hdr_BINDING_VERSION hdr ->
     5 <= BindData.modem_params bd ->
     exists w',
       bind_receive_packet hdr w = Done (Some 1) w' /\
       bind_data (dev w') = bd /\
       In (UavoSet binding) (trace w') /\
       getInterval hdr (bind_data (dev w')) = None /\
       ((8 <= length (irq_script (env w')))%nat -> init_rfm hdr false w' = Undefined)).
Proof.
  split; [exact getInterval_None | split].
  - intros w Hmp Hs. destruct (init_rfm_table w Hmp Hs) as (Hbig & Hsmall). split.
    + intros E. destruct (Z.lt_ge_cases (BindData.modem_params (bind_data (dev w))) 5) as [Hlt | Hge];
        [| exact Hge].
      destruct (Hsmall Hlt) as (w' & E' & _). congruence.
    + exact Hbig.
  - intros w x blk rest binding bd Hs Hl Hsz Hn Hv Hirq Hbinding Hver Hmp.
    destruct (bind_receive_packet_block w x blk rest Hs Hl Hsz Hn)
      as (v & Ev & HBv & HRv & HSv & HVv).
    fold bd in Ev, HBv.
    destruct (bind_receive_verdict_accept v bd binding Hver Hbinding
                ltac:(congruence) ltac:(rewrite HSv; exact Hirq)) as (w' & E & B & HR).
    rewrite <- Ev in E. assert (bind_data (dev w') = bd) as HB by congruence.
    exists w'. split; [exact E |]. split; [exact HB |]. split; [| split].
    + assert (In (UavoSet binding) (record (trace w'))) as Hin.
      { rewrite HR. apply in_or_app. right. cbn. tauto. }
      unfold record in Hin. apply list_elem_of_In in Hin.
      apply list_elem_of_filter in Hin as [_ Hin]. apply list_elem_of_In. exact Hin.
    + apply getInterval_None; rewrite HB; fold bd; lia.
    + intros Hs'. apply (init_rfm_table w'); [rewrite HB; fold bd; lia | exact Hs' |].
      rewrite HB. exact Hmp.
Qed.

(** * Further properties of the driver *)

(** ** The carrier registers determine the frequency *)

(** X1.  Over the range of the RFM22B, 240 MHz to 960 MHz, the band number
    [fb] computed by [rfmSetCarrierFrequency] is below 24 and passes the
    five-bit mask unchanged, the fraction [fc] is below 64000 and is split
    into the two register bytes without loss, and the three values give
    the frequency back by the formula of the radio,
    [10 MHz * (1 + hbsel) * (fb + 24 + fc / 64000)], with an error below
    156.25 Hz in the low band and 312.5 Hz in the high band, never above
    the frequency asked for. *)
Theorem carrier_registers_decode (f : Z) :
  240000000 <= f < 960000000 ->
  let hbsel := carrier_hbsel f in
  let fb := carrier_fb f in
  let fc := carrier_fc f in
  0 <= fb < 24 /\
  Z.land fb RFM22.fb_mask = fb /\
  0 <= fc < 64000 /\
  u8 (Z.shiftr fc 8) * 2 ^ 8 + u8 (Z.land fc 0xff) = fc /\
  0 <= 4 * f - (1 + hbsel) * (40000000 * (fb + 24) + 625 * fc) < 625 * (1 + hbsel).
Proof.
  intros Hf. cbv zeta.
  assert (forall fb, 0 <= fb < 24 -> Z.land fb RFM22.fb_mask = fb) as Hmask.
  { intros fb Hfb. change RFM22.fb_mask with (Z.ones 5).
    rewrite Z.land_ones by lia. apply Z.mod_small. lia. }
  assert (forall fc, 0 <= fc < 64000 ->
            u8 (Z.shiftr fc 8) * 2 ^ 8 + u8 (Z.land fc 0xff) = fc) as Hsplit.
  { intros fc Hfc. rewrite Z.shiftr_div_pow2 by lia.
    change 0xff with (Z.ones 8). rewrite Z.land_ones by lia.
    pose proof (Z.div_mod fc (2 ^ 8) ltac:(lia)) as Hd.
    pose proof (Z.mod_pos_bound fc (2 ^ 8) ltac:(lia)) as Hm.
    assert (0 <= fc / 2 ^ 8 < 2 ^ 8) as Hq.
    { split; [apply Z.div_pos; lia | apply Z.div_lt_upper_bound; lia]. }
    rewrite !u8_small by lia. lia. }
  destruct (Z.lt_ge_cases f 480000000) as [Hlo | Hhi].
  - destruct (carrier_low f ltac:(lia)) as (-> & Hfb & Hfc).
    pose proof (Z.div_mod f 10000000 ltac:(lia)) as Hd.
    pose proof (Z.mod_pos_bound f 10000000 ltac:(lia)) as Hm.
    assert (24 <= f / 10000000 < 48) as Hq.
    { split; [apply Z.div_le_lower_bound | apply Z.div_lt_upper_bound]; lia. }
    set (r := f - (carrier_fb f + 24) * 10000000) in *.
    assert (0 <= r < 10000000) as Hr by (unfold r; rewrite Hfb; lia).
    pose proof (Z.div_mod (r * 4) 625 ltac:(lia)) as Hd2.
    pose proof (Z.mod_pos_bound (r * 4) 625 ltac:(lia)) as Hm2.
    assert (0 <= carrier_fc f < 64000) as Hfcr.
    { rewrite Hfc. split; [apply Z.div_pos; lia | apply Z.div_lt_upper_bound; lia]. }
    split; [lia |]. split; [apply Hmask; lia |]. split; [exact Hfcr |].
    split; [apply Hsplit; exact Hfcr |].
    rewrite Hfc. unfold r in *. lia.
  - destruct (carrier_high f ltac:(lia)) as (-> & Hfb & Hfc).
    pose proof (Z.div_mod f 20000000 ltac:(lia)) as Hd.
    pose proof (Z.mod_pos_bound f 20000000 ltac:(lia)) as Hm.
    assert (24 <= f / 20000000 < 48) as Hq.
    { split; [apply Z.div_le_lower_bound | apply Z.div_lt_upper_bound]; lia. }
    set (r := f - (carrier_fb f + 24) * 20000000) in *.
    assert (0 <= r < 20000000) as Hr by (unfold r; rewrite Hfb; lia).
    pose proof (Z.div_mod (r * 2) 625 ltac:(lia)) as Hd2.
    pose proof (Z.mod_pos_bound (r * 2) 625 ltac:(lia)) as Hm2.
    assert (0 <= carrier_fc f < 64000) as Hfcr.
    { rewrite Hfc. split; [apply Z.div_pos; lia | apply Z.div_lt_upper_bound; lia]. }
    split; [lia |]. split; [apply Hmask; lia |]. split; [exact Hfcr |].
    split; [apply Hsplit; exact Hfcr |].
    rewrite Hfc. unfold r in *. lia.
Qed.

(** ** The range of the packet interval *)

Lemma modem_params_bps (i : nat) (r : rfm22_modem_regs) :
  modem_params !! i = Some r -> 4800 <= bps r <= 125000.
Proof.
  intros H.
  do 5 (destruct i as [| i]; [injection H as <-; cbn; lia |]).
  discriminate H.
Qed.

(** X2.  Whatever the flags, a packet interval that [getInterval] returns
    lies between 2000 us and 2^21 us and is a multiple of 1000 us, so the
    two thresholds that the scheduler derives from it, [interval - 1500]
    for the RSSI sample and [interval + 1000] for a missed packet, never
    wrap around in [uint32_t]. *)
Theorem getInterval_range (bd : BindData.t) (v : Z) :
  getInterval hdr bd = Some v ->
  2000 <= v < 2 ^ 21 /\ (1000 | v) /\
  u32 (v - 1500) = v - 1500 /\ u32 (v + 1000) = v + 1000.
Proof.
  unfold getInterval.
  destruct (modem_params !! Z.to_nat (BindData.modem_params bd)) as [r |] eqn:Hr;
    [| discriminate].
  intros H. injection H as <-.
  pose proof (modem_params_bps _ _ Hr) as Hb.
  set (div := Z.land (BindData.flags bd) (hdr_DIVERSITY_ENABLED hdr)).
  pose proof (BYTES_AT_BAUD_TO_USEC_bound (getPacketSize bd) (bps r) div Hb) as Hpk.
  pose proof (BYTES_AT_BAUD_TO_USEC_bound (hdr_TELEMETRY_PACKETSIZE hdr) (bps r) div Hb) as Htl.
  set (packet := BYTES_AT_BAUD_TO_USEC (getPacketSize bd) (bps r) div) in *.
  set (tele := BYTES_AT_BAUD_TO_USEC (hdr_TELEMETRY_PACKETSIZE hdr) (bps r) div) in *.
  rewrite (u32_small (packet + 2000)) by lia.
  rewrite (u32_small (tele + 1000)) by lia.
  rewrite (u32_small (packet + 2000 + (tele + 1000))) by lia.
  set (nominal := if Z.land (BindData.flags bd) (hdr_TELEMETRY_MASK hdr) =? 0
                  then packet + 2000 else packet + 2000 + (tele + 1000)).
  assert (2000 <= nominal < 1792570) as Hn.
  { unfold nominal. destruct (_ =? 0); lia. }
  destruct (round_up_ms_spec nominal ltac:(lia)) as (_ & Hdiv & Hround).
  destruct (limit_rate_spec (round_up_ms nominal) Hdiv) as (Hdiv' & Hle).
  assert (limit_rate hdr (round_up_ms nominal) < 2 ^ 21) as Hup.
  { unfold limit_rate.
    destruct (hdr_LIMIT_RATE_TO_50HZ hdr && (round_up_ms nominal <? 20000)); lia. }
  split; [lia |]. split; [exact Hdiv' |].
  split; apply u32_small; lia.
Qed.

(** ** The RSSI accumulator *)

Lemma rx_loop_rssi_run (timeUs interval : Z) (w : world) :
  getInterval hdr (bind_data (dev w)) = Some interval ->
  let g := globals w in
  let due :=
    (numberOfLostPackets g <? 2)
    && negb (lastRSSITimeUs g =? lastPacketTimeUs g)
    && (u32 (interval - 1500) <? u32 (timeUs - lastPacketTimeUs g)) in
  let rssi := u8 (hd 0 (tl (spi_in (env w)))) in
  let sum := u16 (RSSI_sum g + rssi) in
  let count := u8 (RSSI_count g + 1) in
  let full := 8 <? count in
  exists w',
    rx_loop_rssi hdr timeUs w = Done tt w' /\
    (due = false -> w' = w) /\
    (due = true ->
       globals w' =
         mk_statics (tx_start g) (hopcount g) (lastPacketTimeUs g)
           (numberOfLostPackets g) (lastAFCCvalue g) (linkQuality g)
           (lastPacketTimeUs g)
           rssi
           (if full then 0 else sum)
           (if full then 0 else count)
           (if full
            then u8 ((u16 (smoothRSSI g) * 3 + u16 (u16 (sum / count)) * 1) / 4)
            else smoothRSSI g)
           (willhop g) (nextBeaconTimeMs g) (linkLossTimeMs g) (irqs g)
           (g_openlrs_dev g)).
Proof.
  intros Hiv. cbv zeta.
  unfold rx_loop_rssi at 1. unfold rfmGetRSSI.
  unfold bind at 1, gets at 1.
  destruct ((numberOfLostPackets (globals w) <? 2)
            && negb (lastRSSITimeUs (globals w) =? lastPacketTimeUs (globals w))) eqn:E1.
  2: { exists w. cbn. split; [reflexivity | split; [reflexivity | discriminate]]. }
  cbn [andb]. unfold bind at 1, gets at 1. rewrite Hiv. unfold bind at 1, lift, ret.
  destruct (u32 (interval - 1500) <? u32 (timeUs - lastPacketTimeUs (globals w))) eqn:E2.
  2: { exists w. cbn. split; [reflexivity | split; [reflexivity | discriminate]]. }
  unfold when. unfold bind at 1, set_global at 1, modify at 1.
  unfold bind at 1.
  destruct (rfm22_read_claim_run 0x26
              (with_globals (set_lastRSSITimeUs (lastPacketTimeUs (globals w))) w))
    as (w1 & evs & -> & Hd & Hg & He & Ht & Hin).
  cbn in Hd, Hg, He, Ht.
  unfold_monad. cbn. rewrite Hg. cbn.
  destruct (8 <? u8 (RSSI_count (globals w) + 1)) eqn:E3; cbn;
    (eexists; split; [reflexivity |]; split; [discriminate |]; intros _; cbn;
     rewrite ?Hg; reflexivity).
Qed.

(** X3.  The RSSI accumulator cannot overflow: if at most eight samples
    are pending and their sum is at most 255 times their number, the same
    holds after the sampling block of an iteration, whatever the radio
    answers.  No addition wraps, and the smoothed value stays a byte that
    lies between its previous value and the average of the nine samples
    whenever it is updated. *)
Theorem rssi_accumulator_bounded (timeUs : Z) (w w' : world) :
  rssi_inv (globals w) ->
  rx_loop_rssi hdr timeUs w = Done tt w' ->
  rssi_inv (globals w') /\
  (smoothRSSI (globals w') <> smoothRSSI (globals w) ->
   let avg := (RSSI_sum (globals w) + lastRSSIvalue (globals w')) / 9 in
   RSSI_count (globals w) = 8 /\ 0 <= avg <= 255 /\
   smoothRSSI (globals w') = (3 * smoothRSSI (globals w) + avg) / 4 /\
   Z.min (smoothRSSI (globals w)) avg <= smoothRSSI (globals w')
     <= Z.max (smoothRSSI (globals w)) avg).
Proof.
  intros (Hc & Hs & Hm) E.
  destruct (getInterval hdr (bind_data (dev w))) as [interval |] eqn:Hiv.
  2: { (* the interval is not read, or the run does not complete *)
    unfold rx_loop_rssi in E. unfold bind at 1, gets at 1 in E.
    destruct ((numberOfLostPackets (globals w) <? 2)
              && negb (lastRSSITimeUs (globals w) =? lastPacketTimeUs (globals w))).
    - unfold bind at 1, gets at 1 in E. rewrite Hiv in E. discriminate E.
    - inversion E; subst. split; [repeat split; lia | intros H; contradiction]. }
  destruct (rx_loop_rssi_run timeUs interval w Hiv) as (w1 & E1 & Hno & Hyes).
  rewrite E1 in E. inversion E; subst w1; clear E.
  match type of Hno with (?d = false -> _) => destruct d end.
  - clear Hno. specialize (Hyes eq_refl).
    set (rssi := u8 (hd 0 (tl (spi_in (env w))))) in *.
    assert (0 <= rssi < 2 ^ 8) as Hr by (apply Z.mod_pos_bound; lia).
    rewrite (u16_small (RSSI_sum (globals w) + rssi)) in Hyes by lia.
    rewrite (u8_small (RSSI_count (globals w) + 1)) in Hyes by lia.
    rewrite Hyes. cbn [RSSI_count RSSI_sum smoothRSSI lastRSSIvalue]. unfold rssi_inv.
    cbn [RSSI_count RSSI_sum smoothRSSI lastRSSIvalue].
    destruct (Z.ltb_spec 8 (RSSI_count (globals w) + 1)) as [Hfull | Hnot].
    + assert (RSSI_count (globals w) = 8) as H8 by lia.
      rewrite H8 in *. change (8 + 1) with 9.
      set (avg := (RSSI_sum (globals w) + rssi) / 9).
      assert (0 <= avg <= 255) as Havg.
      { unfold avg. split; [apply Z.div_pos; lia |].
        apply Z.lt_succ_r. apply Z.div_lt_upper_bound; lia. }
      rewrite (u16_small avg) by lia. rewrite (u16_small avg) by lia.
      rewrite (u16_small (smoothRSSI (globals w))) by lia.
      pose proof (Z.div_mod (smoothRSSI (globals w) * 3 + avg * 1) 4 ltac:(lia)) as Hd.
      pose proof (Z.mod_pos_bound (smoothRSSI (globals w) * 3 + avg * 1) 4 ltac:(lia)) as Hmod.
      rewrite u8_small by lia.
      split; [repeat split; lia |]. intros _.
      split; [reflexivity |]. split; [lia |].
      split; [f_equal; lia | lia].
    + split; [repeat split; lia | intros H; contradiction].
  - rewrite (Hno eq_refl). split; [repeat split; lia | intros H; contradiction].
Qed.

(** ** The link block of an iteration *)

(** The block as one assignment to the file-scope variables. *)
Lemma rx_loop_link_run (timeUs timeMs interval : Z) (w : world) :
  getInterval hdr (bind_data (dev w)) = Some interval ->
  rx_loop_link hdr timeUs timeMs w =
  Done tt
    (mk_world (dev w)
       (link_block (link_acquired (dev w)) timeUs timeMs interval (globals w))
       (env w) (trace w)).
Proof.
  destruct w as [d g e t]. cbn [dev globals env trace]. intros Hiv.
  unfold rx_loop_link, link_block. unfold_monad. cbn. rewrite Hiv.
  destruct (link_acquired d).
  - destruct (numberOfLostPackets g <? hopcount g); cbn; rewrite ?Hiv.
    + destruct (u32 (interval + 1000) <? u32 (timeUs - lastPacketTimeUs g)); cbn; rewrite ?Hiv.
      * unfold link_missed. destruct (numberOfLostPackets g =? 0); reflexivity.
      * destruct (numberOfLostPackets g =? hopcount g); cbn; rewrite ?Hiv; [| reflexivity].
        destruct (u32 (interval * hopcount g) <? u32 (timeUs - lastPacketTimeUs g));
          reflexivity.
    + destruct (numberOfLostPackets g =? hopcount g); cbn; rewrite ?Hiv; [| reflexivity].
      destruct (u32 (interval * hopcount g) <? u32 (timeUs - lastPacketTimeUs g));
        reflexivity.
  - cbn. destruct (u32 (interval * hopcount g) <? u32 (timeUs - lastPacketTimeUs g));
      reflexivity.
Qed.

Lemma rx_loop_link_blind (timeUs timeMs : Z) (w w' : world) :
  getInterval hdr (bind_data (dev w)) = None ->
  rx_loop_link hdr timeUs timeMs w = Done tt w' -> w' = w.
Proof.
  destruct w as [d g e t]. cbn [dev globals env trace]. intros Hiv.
  unfold rx_loop_link. unfold_monad. cbn. rewrite Hiv.
  destruct (link_acquired d); cbn; [| discriminate].
  destruct (numberOfLostPackets g <? hopcount g); cbn; [discriminate |].
  destruct (numberOfLostPackets g =? hopcount g); cbn; rewrite ?Hiv; [discriminate |].
  intros H. inversion H. reflexivity.
Qed.

(** X4.  Search mode.  With the link acquired, as many packets lost as
    there are hop channels, and more than [interval * hopcount] us elapsed
    since [lastPacketTimeUs], the link block of an iteration clears
    [linkQuality] and [smoothRSSI], restarts [lastPacketTimeUs] at the
    current time and asks for a hop; the counter of lost packets stays at
    [hopcount], so that the receiver goes on hopping once per
    [interval * hopcount].  Nothing else changes and no SPI transfer is
    made. *)
Theorem search_mode (timeUs timeMs interval : Z) (w : world) :
  let g := globals w in
  link_acquired (dev w) = true ->
  getInterval hdr (bind_data (dev w)) = Some interval ->
  numberOfLostPackets g = hopcount g ->
  u32 (interval * hopcount g) < u32 (timeUs - lastPacketTimeUs g) ->
  exists w',
    rx_loop_link hdr timeUs timeMs w = Done tt w' /\
    dev w' = dev w /\ env w' = env w /\ trace w' = trace w /\
    globals w' =
      set_lastPacketTimeUs timeUs
        (set_smoothRSSI 0 (set_willhop true (set_linkQuality 0 g))) /\
    numberOfLostPackets (globals w') = hopcount (globals w').
Proof.
  intros g Hacq Hiv Hlost Hlate.
  rewrite (rx_loop_link_run timeUs timeMs interval w Hiv).
  eexists. split; [reflexivity |]. cbn [dev env trace globals].
  unfold link_block. rewrite Hacq. fold g.
  destruct (Z.ltb_spec (numberOfLostPackets g) (hopcount g)) as [? | _]; [lia |].
  cbn [andb].
  destruct (Z.eqb_spec (numberOfLostPackets g) (hopcount g)) as [_ | ?]; [| contradiction].
  destruct (Z.ltb_spec (u32 (interval * hopcount g)) (u32 (timeUs - lastPacketTimeUs g)))
    as [_ | ?]; [| lia].
  cbn [andb]. repeat split. cbn. exact Hlost.
Qed.

(** X5.  Before the first packet the receiver hops slowly: while the link
    is not acquired, the link block moves [lastPacketTimeUs] to the current
    time and asks for a hop exactly when more than [interval * hopcount] us
    have elapsed since [lastPacketTimeUs]; otherwise it changes nothing.
    The counter of lost packets and [linkQuality] are never touched. *)
Theorem acquisition_slow_hop (timeUs timeMs interval : Z) (w : world) :
  let g := globals w in
  link_acquired (dev w) = false ->
  getInterval hdr (bind_data (dev w)) = Some interval ->
  rx_loop_link hdr timeUs timeMs w =
  Done tt
    (if u32 (interval * hopcount g) <? u32 (timeUs - lastPacketTimeUs g)
     then mk_world (dev w) (set_willhop true (set_lastPacketTimeUs timeUs g)) (env w) (trace w)
     else w).
Proof.
  intros g Hacq Hiv.
  rewrite (rx_loop_link_run timeUs timeMs interval w Hiv).
  unfold link_block. rewrite Hacq. fold g.
  destruct (u32 (interval * hopcount g) <? u32 (timeUs - lastPacketTimeUs g)).
  - reflexivity.
  - destruct w; reflexivity.
Qed.

(** X6.  What the link block never does: it makes no SPI transfer, reads
    no clock and does not sleep (device, environment and trace are
    unchanged), it never cancels a hop that is asked for, and it never
    moves [lastPacketTimeUs] without asking for a hop.  The hop count, the
    RSSI accumulator and the AFC value are left alone, and the counter of
    lost packets either stays or grows by one. *)
Theorem link_block_frame (timeUs timeMs : Z) (w w' : world) :
  rx_loop_link hdr timeUs timeMs w = Done tt w' ->
  let g := globals w in
  let g' := globals w' in
  dev w' = dev w /\ env w' = env w /\ trace w' = trace w /\
  (willhop g = true -> willhop g' = true) /\
  (lastPacketTimeUs g' <> lastPacketTimeUs g -> willhop g' = true) /\
  hopcount g' = hopcount g /\
  RSSI_sum g' = RSSI_sum g /\ RSSI_count g' = RSSI_count g /\
  lastRSSIvalue g' = lastRSSIvalue g /\ lastRSSITimeUs g' = lastRSSITimeUs g /\
  lastAFCCvalue g' = lastAFCCvalue g /\
  (numberOfLostPackets g' = numberOfLostPackets g \/
   numberOfLostPackets g' = u32 (numberOfLostPackets g + 1)).
Proof.
  intros E. cbv zeta.
  destruct (getInterval hdr (bind_data (dev w))) as [interval |] eqn:Hiv.
  2: { rewrite (rx_loop_link_blind _ _ _ _ Hiv E). repeat split; tauto. }
  rewrite (rx_loop_link_run timeUs timeMs interval w Hiv) in E.
  inversion E; subst w'; clear E. cbn [dev env trace globals].
  split; [reflexivity |]. split; [reflexivity |]. split; [reflexivity |].
  unfold link_block.
  destruct (link_acquired (dev w)).
  - destruct ((numberOfLostPackets (globals w) <? hopcount (globals w))
              && (u32 (interval + 1000) <? u32 (timeUs - lastPacketTimeUs (globals w)))).
    + unfold link_missed.
      destruct (numberOfLostPackets (globals w) =? 0); cbn; repeat split; tauto.
    + destruct ((numberOfLostPackets (globals w) =? hopcount (globals w))
                && (u32 (interval * hopcount (globals w))
                    <? u32 (timeUs - lastPacketTimeUs (globals w)))).
      * cbn. repeat split; tauto.
      * repeat split; tauto.
  - destruct (u32 (interval * hopcount (globals w))
              <? u32 (timeUs - lastPacketTimeUs (globals w))).
    + cbn. repeat split; tauto.
    + repeat split; tauto.
Qed.

(** ** The counter of lost packets stays within the hop count *)

Instance keeps_lost_preorder : PreOrder (keeps_lost hdr).
Proof. split; [intros w H; exact H | intros a b c H1 H2 H; exact (H2 (H1 H))]. Qed.

Instance same_lost_preorder : PreOrder same_lost.
Proof.
  split; [intros w; reflexivity | intros a b c H1 H2; unfold same_lost in *; congruence].
Qed.

Lemma same_core_lost_state (w w' : world) :
  same_core w w' ->
  numberOfLostPackets (globals w') = numberOfLostPackets (globals w) /\
  hopcount (globals w') = hopcount (globals w).
Proof.
  intros H. unfold same_core, core in H.
  pose proof (f_equal (fun c => numberOfLostPackets (snd c)) H) as H1.
  pose proof (f_equal (fun c => hopcount (snd c)) H) as H2.
  cbn in H1, H2. auto.
Qed.

Lemma core_keeps_lost {A} (m : M A) : post same_core m -> post (keeps_lost hdr) m.
Proof.
  apply post_weaken. intros w w' H Hi.
  destruct (same_core_lost_state _ _ H) as (H1 & H2).
  unfold lost_ok in *. rewrite H1, H2. exact Hi.
Qed.

Lemma core_same_lost {A} (m : M A) : post same_core m -> post same_lost m.
Proof.
  apply post_weaken. intros w w' H. exact (proj1 (same_core_lost_state _ _ H)).
Qed.

Ltac post_keeps_lost :=
  repeat first
    [ apply core_keeps_lost; solve [eauto with drv]
    | post_step ];
  try (unfold keeps_lost, lost_ok; cbn; intros; lia).

Ltac post_same_lost :=
  repeat first
    [ apply core_same_lost; solve [eauto with drv]
    | post_step ];
  try reflexivity.

Lemma lost_rx_loop_received : post (keeps_lost hdr) (rx_loop_received hdr).
Proof. unfold rx_loop_received. post_keeps_lost. Qed.

Lemma lost_rx_loop_rssi t : post (keeps_lost hdr) (rx_loop_rssi hdr t).
Proof. unfold rx_loop_rssi. post_keeps_lost. Qed.

Lemma u32_le (x : Z) : 0 <= x -> 0 <= u32 x <= x.
Proof.
  intros Hx. unfold u32. split.
  - apply Z.mod_pos_bound. lia.
  - apply Z.mod_le; lia.
Qed.

Lemma lost_rx_loop_link t ms : post (keeps_lost hdr) (rx_loop_link hdr t ms).
Proof.
  intros w a w' E (Hl & Hh). destruct a.
  destruct (getInterval hdr (bind_data (dev w))) as [interval |] eqn:Hiv.
  2: { rewrite (rx_loop_link_blind _ _ _ _ Hiv E). split; assumption. }
  rewrite (rx_loop_link_run t ms interval w Hiv) in E.
  inversion E; subst w'; clear E. unfold lost_ok. cbn [globals].
  unfold link_block.
  destruct (link_acquired (dev w)).
  - destruct (Z.ltb_spec (numberOfLostPackets (globals w)) (hopcount (globals w))) as [Hlt | Hge];
      cbn [andb].
    + destruct (u32 (interval + 1000) <? u32 (t - lastPacketTimeUs (globals w))).
      * pose proof (u32_le (numberOfLostPackets (globals w) + 1) ltac:(lia)) as Hw.
        unfold link_missed.
        destruct (numberOfLostPackets (globals w) =? 0); cbn; lia.
      * destruct ((numberOfLostPackets (globals w) =? hopcount (globals w))
                  && (u32 (interval * hopcount (globals w))
                      <? u32 (t - lastPacketTimeUs (globals w)))); cbn; lia.
    + destruct ((numberOfLostPackets (globals w) =? hopcount (globals w))
                && (u32 (interval * hopcount (globals w))
                    <? u32 (t - lastPacketTimeUs (globals w)))); cbn; lia.
  - destruct (u32 (interval * hopcount (globals w)) <? u32 (t - lastPacketTimeUs (globals w)));
      cbn; lia.
Qed.

Lemma lost_rx_loop_hop : post (keeps_lost hdr) (rx_loop_hop hdr).
Proof. unfold rx_loop_hop. post_keeps_lost. Qed.

Lemma lost_rx_loop : post (keeps_lost hdr) (pios_openlrs_rx_loop hdr).
Proof.
  unfold pios_openlrs_rx_loop.
  pose proof lost_rx_loop_received. pose proof lost_rx_loop_rssi.
  pose proof lost_rx_loop_link. pose proof lost_rx_loop_hop.
  post_keeps_lost.
Qed.

Lemma lost_session acts : post (keeps_lost hdr) (session hdr acts).
Proof.
  induction acts as [| a acts IH]; cbn [session]; [apply post_ret |].
  apply post_bind; [| intros; exact IH].
  destruct a; cbn [perform]; [unfold task_turn; pose proof lost_rx_loop |]; post_keeps_lost.
Qed.

Lemma same_lost_setup bind : post same_lost (pios_openlrs_setup hdr bind).
Proof.
  unfold pios_openlrs_setup, pios_openlrs_bind_receive, bind_receive_turn,
    bind_receive_packet.
  assert (forall n hc, post same_lost (count_hops hdr n hc)) as Hcount.
  { induction n; intros; cbn [count_hops]; post_same_lost. }
  post_same_lost.
Qed.

(** X7.  The counter of lost packets saturates at the hop count.  From
    the start of the task, where no packet is lost, through
    [pios_openlrs_setup] and any sequence of scheduler iterations and
    interrupts, [numberOfLostPackets] stays between 0 and [hopcount], and
    [hopcount] stays within [MAXHOPS]; in particular the test
    [numberOfLostPackets == hopcount] of the search mode is the end of the
    counting, and the counter never wraps. *)
Theorem lost_packets_bounded (bind : bool) (acts : list activity) (w w' : world) :
  0 < hdr_MAXHOPS hdr <= 255 ->
  numberOfLostPackets (globals w) = 0 ->
  (pios_openlrs_setup hdr bind;; session hdr acts) w = Done tt w' ->
  0 <= numberOfLostPackets (globals w') <= hopcount (globals w') /\
  hopcount (globals w') <= hdr_MAXHOPS hdr.
Proof.
  intros Hmax H0 E.
  apply bind_Done in E as ([] & w1 & E1 & E2).
  apply (lost_session acts _ _ _ E2).
  pose proof (same_lost_setup bind _ _ _ E1) as Hl. unfold same_lost in Hl.
  destruct (setup_hop_state bind w w1 Hmax E1) as (_ & _ & Hhc & _).
  unfold lost_ok. rewrite Hl, H0. lia.
Qed.

(** ** The discipline of the SPI bus *)

Lemma bus_run_app strict s evs1 evs2 :
  bus_run strict s (evs1 ++ evs2) =
  match bus_run strict s evs1 with
  | Some s' => bus_run strict s' evs2
  | None => None
  end.
Proof.
  revert s. induction evs1 as [| e evs1 IH]; intros s; cbn [bus_run app]; [reflexivity |].
  destruct (bus_step strict s e); [apply IH | reflexivity].
Qed.

Lemma bus_rel_refl strict s w : bus_rel strict s s w w.
Proof. split; [reflexivity |]. exists []. rewrite app_nil_r. split; reflexivity. Qed.

Lemma bus_rel_trans strict s1 s2 s3 w1 w2 w3 :
  bus_rel strict s1 s2 w1 w2 -> bus_rel strict s2 s3 w2 w3 -> bus_rel strict s1 s3 w1 w3.
Proof.
  intros (Hid1 & evs1 & Ht1 & Hr1) (Hid2 & evs2 & Ht2 & Hr2).
  split; [congruence |]. exists (evs1 ++ evs2).
  split; [rewrite Ht2, Ht1, app_assoc; reflexivity |].
  rewrite bus_run_app, Hr1. exact Hr2.
Qed.

Section Bus.
Variable strict : bool.

Lemma bus_ret {A} s (a : A) : bus_post strict s s (ret a).
Proof. intros w x w' _ H. inversion H; subst. apply bus_rel_refl. Qed.

Lemma bus_gets {A} s (f : world -> A) : bus_post strict s s (gets f).
Proof. intros w x w' _ H. inversion H; subst. apply bus_rel_refl. Qed.

Lemma bus_undefined {A} s s' : bus_post strict s s' (@undefined A).
Proof. intros w x w' _ H. discriminate. Qed.

Lemma bus_stalled {A} s s' : bus_post strict s s' (@stalled A).
Proof. intros w x w' _ H. discriminate. Qed.

Lemma bus_lift {A} s (o : option A) : bus_post strict s s (lift o).
Proof. destruct o; [apply bus_ret | apply bus_undefined]. Qed.

Lemma bus_bind {A B} s1 s2 s3 (m : M A) (k : A -> M B) :
  bus_post strict s1 s2 m -> (forall a, bus_post strict s2 s3 (k a)) ->
  bus_post strict s1 s3 (bind m k).
Proof.
  intros Hm Hk w b w'' Hid H.
  destruct (bind_Done _ _ _ _ _ H) as (a & w' & H1 & H2).
  pose proof (Hm _ _ _ Hid H1) as R1.
  assert (spi_id (dev w') <> 0) as Hid' by (destruct R1 as (-> & _); exact Hid).
  exact (bus_rel_trans _ _ _ _ _ _ _ R1 (Hk _ _ _ _ Hid' H2)).
Qed.

Lemma bus_when s (b : bool) (m : M unit) :
  bus_post strict s s m -> bus_post strict s s (when b m).
Proof. intros Hm. destruct b; [exact Hm | apply bus_ret]. Qed.

(** A step that leaves the trace and the bus identifier alone. *)
Lemma bus_silent {A} s (m : M A) :
  (forall w a w', m w = Done a w' ->
     spi_id (dev w') = spi_id (dev w) /\ trace w' = trace w) ->
  bus_post strict s s m.
Proof.
  intros Hm w a w' _ H. destruct (Hm _ _ _ H) as (Hid & Ht).
  split; [exact Hid |]. exists []. rewrite app_nil_r. split; [exact Ht | reflexivity].
Qed.

Lemma bus_modify s (f : world -> world) :
  (forall w, spi_id (dev (f w)) = spi_id (dev w) /\ trace (f w) = trace w) ->
  bus_post strict s s (modify f).
Proof. intros Hf. apply bus_silent. intros w a w' H. inversion H; subst. apply Hf. Qed.

Lemma bus_emit s s' (e : event) :
  bus_step strict s e = Some s' -> bus_post strict s s' (emit e).
Proof.
  intros He w a w' _ H. inversion H; subst. split; [reflexivity |].
  exists [e]. split; [reflexivity |]. cbn [bus_run]. rewrite He. reflexivity.
Qed.

Lemma bus_loop {S A} s (cond : S -> M bool) (body : S -> M (S + A)) :
  (forall x, bus_post strict s s (cond x)) -> (forall x, bus_post strict s s (body x)) ->
  forall fuel x, bus_post strict s s (loop fuel x cond body).
Proof.
  intros Hc Hb. induction fuel as [| fuel IH]; intros x; cbn [loop].
  - apply bus_stalled.
  - eapply bus_bind; [apply Hc |]. intros [|]; [| apply bus_ret].
    eapply bus_bind; [apply Hb |]. intros [x' | a]; [apply IH | apply bus_ret].
Qed.

Lemma bus_while {S A} s (x : S) (cond : S -> M bool) (body : S -> M (S + A)) :
  (forall x, bus_post strict s s (cond x)) -> (forall x, bus_post strict s s (body x)) ->
  bus_post strict s s (while_ x cond body).
Proof.
  intros Hc Hb w r w' Hid H. unfold while_ in H.
  exact (bus_loop s cond body Hc Hb _ _ _ _ _ Hid H).
Qed.

(** The environment: bytes, clocks and the interrupt script. *)
Lemma bus_spi_byte s : bus_post strict s s spi_byte.
Proof. apply bus_silent. intros [d g e t] a w' H. inversion H; subst. split; reflexivity. Qed.
Lemma bus_micros s : bus_post strict s s micros.
Proof. apply bus_silent. intros [d g e t] a w' H. inversion H; subst. split; reflexivity. Qed.
Lemma bus_millis s : bus_post strict s s millis.
Proof. apply bus_silent. intros [d g e t] a w' H. inversion H; subst. split; reflexivity. Qed.
Lemma bus_next_irq s : bus_post strict s s next_irq.
Proof.
  apply bus_silent. intros [d g e t] a w' H. unfold next_irq in H. cbn in H.
  destruct (irq_script e); [discriminate |]. inversion H; subst. split; reflexivity.
Qed.

End Bus.

(** One step of the syntax-directed proof of [bus_post strict s s' m]; the
    state after a step is found by the step. *)
Ltac bus_step_tac :=
  lazymatch goal with
  | |- bus_post _ _ _ (bind _ _) => eapply bus_bind; [| intros ?]
  | |- bus_post _ _ _ (ret _) => apply bus_ret
  | |- bus_post _ _ _ (gets _) => apply bus_gets
  | |- bus_post _ _ _ (lift _) => apply bus_lift
  | |- bus_post _ _ _ undefined => apply bus_undefined
  | |- bus_post _ _ _ stalled => apply bus_stalled
  | |- bus_post _ _ _ (when _ _) => apply bus_when
  | |- bus_post _ _ _ (while_ _ _ _) => apply bus_while; intros ?
  | |- bus_post _ _ _ (if ?b then _ else _) => destruct b
  | |- bus_post _ _ _ (match ?x with _ => _ end) => destruct x
  | |- bus_post _ _ _ (modify _) => apply bus_modify; intros [[] ? ? ?]; split; reflexivity
  | |- bus_post _ _ _ (set_dev _) => apply bus_modify; intros [[] ? ? ?]; split; reflexivity
  | |- bus_post _ _ _ (set_global _) => apply bus_modify; intros [[] ? ? ?]; split; reflexivity
  | |- bus_post _ _ _ (emit _) => apply bus_emit; reflexivity
  | |- bus_post _ _ _ spi_byte => apply bus_spi_byte
  | |- bus_post _ _ _ micros => apply bus_micros
  | |- bus_post _ _ _ millis => apply bus_millis
  | |- bus_post _ _ _ next_irq => apply bus_next_irq
  | |- bus_post _ _ _ _ => solve [eauto with bus]
  end.

Ltac bus_go := cbv zeta; repeat bus_step_tac.

(** The four calls that change the bus, on a device with [spi_id != 0]. *)
Lemma bus_claimBus strict : bus_post strict idle (mk_bus true false) rfm22_claimBus.
Proof.
  intros [d g e t] a w' Hid H. cbn in Hid. unfold rfm22_claimBus in H. unfold_monad.
  cbn in H. destruct (Z.eqb_spec (spi_id d) 0); [contradiction |]. cbn in H.
  inversion H; subst. split; [reflexivity |]. exists [ClaimBus]. split; reflexivity.
Qed.

Lemma bus_releaseBus strict : bus_post strict (mk_bus true false) idle rfm22_releaseBus.
Proof.
  intros [d g e t] a w' Hid H. cbn in Hid. unfold rfm22_releaseBus in H. unfold_monad.
  cbn in H. destruct (Z.eqb_spec (spi_id d) 0); [contradiction |]. cbn in H.
  inversion H; subst. split; [reflexivity |]. exists [ReleaseBus]. split; reflexivity.
Qed.

Lemma bus_assertCs strict :
  bus_post strict (mk_bus true false) (mk_bus true true) rfm22_assertCs.
Proof.
  intros [d g e t] a w' Hid H. cbn in Hid. unfold rfm22_assertCs in H. unfold_monad.
  cbn in H. destruct (Z.eqb_spec (spi_id d) 0); [contradiction |]. cbn in H.
  inversion H; subst. split; [reflexivity |]. exists [WaituS 1; PinSet 0].
  split; [cbn; rewrite <- app_assoc; reflexivity | reflexivity].
Qed.

Lemma bus_assertCs_free : bus_post false idle (mk_bus false true) rfm22_assertCs.
Proof.
  intros [d g e t] a w' Hid H. cbn in Hid. unfold rfm22_assertCs in H. unfold_monad.
  cbn in H. destruct (Z.eqb_spec (spi_id d) 0); [contradiction |]. cbn in H.
  inversion H; subst. split; [reflexivity |]. exists [WaituS 1; PinSet 0].
  split; [cbn; rewrite <- app_assoc; reflexivity | reflexivity].
Qed.

Lemma bus_deassertCs strict c :
  bus_post strict (mk_bus c true) (mk_bus c false) rfm22_deassertCs.
Proof.
  intros [d g e t] a w' Hid H. cbn in Hid. unfold rfm22_deassertCs in H. unfold_monad.
  cbn in H. destruct (Z.eqb_spec (spi_id d) 0); [contradiction |]. cbn in H.
  inversion H; subst. split; [reflexivity |]. exists [PinSet 1]. split; reflexivity.
Qed.
Hint Resolve bus_claimBus bus_releaseBus bus_assertCs bus_assertCs_free bus_deassertCs : bus.

Lemma bus_spi_bytes strict s n : bus_post strict s s (spi_bytes n).
Proof. induction n; cbn [spi_bytes]; bus_go. Qed.
Hint Resolve bus_spi_bytes : bus.

Lemma bus_validate strict s b : bus_post strict s s (pios_openlrs_validate hdr b).
Proof. unfold pios_openlrs_validate. bus_go. Qed.
Hint Resolve bus_validate : bus.

Lemma bus_EXT_Int strict s : bus_post strict s s (PIOS_OpenLRS_EXT_Int hdr).
Proof. unfold PIOS_OpenLRS_EXT_Int. bus_go. Qed.
Hint Resolve bus_EXT_Int : bus.

Lemma bus_Sleep strict ms : bus_post strict idle idle (PIOS_Thread_Sleep hdr ms).
Proof. unfold PIOS_Thread_Sleep. bus_go. Qed.
Hint Resolve bus_Sleep : bus.

Lemma bus_delay strict ms : bus_post strict idle idle (delay hdr ms).
Proof. unfold delay. bus_go. Qed.
Lemma bus_WDG strict s : bus_post strict s s (PIOS_WDG_UpdateFlag hdr).
Proof. unfold PIOS_WDG_UpdateFlag. bus_go. Qed.
Lemma bus_LED strict s : bus_post strict s s (PIOS_LED_Toggle hdr).
Proof. unfold PIOS_LED_Toggle. bus_go. Qed.
Hint Resolve bus_delay bus_WDG bus_LED : bus.

Lemma bus_TransferBlock_tx strict c l :
  bus_post strict (mk_bus c true) (mk_bus c true) (PIOS_SPI_TransferBlock_tx l).
Proof. unfold PIOS_SPI_TransferBlock_tx. bus_go. Qed.
Lemma bus_TransferBlock_rx strict c l :
  bus_post strict (mk_bus c true) (mk_bus c true) (PIOS_SPI_TransferBlock_rx l).
Proof. unfold PIOS_SPI_TransferBlock_rx. bus_go. Qed.
Lemma bus_TransferByte strict c b :
  bus_post strict (mk_bus c true) (mk_bus c true) (PIOS_SPI_TransferByte b).
Proof. unfold PIOS_SPI_TransferByte. bus_go. Qed.
Hint Resolve bus_TransferBlock_tx bus_TransferBlock_rx bus_TransferByte : bus.

Lemma bus_transfer_OUT_FF strict c n :
  bus_post strict (mk_bus c true) (mk_bus c true) (transfer_OUT_FF n).
Proof. unfold transfer_OUT_FF. bus_go. Qed.
Hint Resolve bus_transfer_OUT_FF : bus.

Lemma bus_write strict a d :
  bus_post strict (mk_bus true false) (mk_bus true false) (rfm22_write a d).
Proof. unfold rfm22_write. bus_go. Qed.
Lemma bus_write_claim strict a d : bus_post strict idle idle (rfm22_write_claim a d).
Proof. unfold rfm22_write_claim. bus_go. Qed.
Lemma bus_read strict a :
  bus_post strict (mk_bus true false) (mk_bus true false) (rfm22_read a).
Proof. unfold rfm22_read. bus_go. Qed.
Lemma bus_read_free a : bus_post false idle idle (rfm22_read a).
Proof. unfold rfm22_read. bus_go. Qed.
Lemma bus_read_claim strict a : bus_post strict idle idle (rfm22_read_claim a).
Proof. unfold rfm22_read_claim. bus_go. Qed.
Hint Resolve bus_write bus_write_claim bus_read bus_read_free bus_read_claim : bus.

Lemma bus_rfmSetChannel strict ch : bus_post strict idle idle (rfmSetChannel ch).
Proof. unfold rfmSetChannel. bus_go. Qed.
Lemma bus_rfmGetRSSI strict : bus_post strict idle idle rfmGetRSSI.
Proof. unfold rfmGetRSSI. bus_go. Qed.
Lemma bus_rfmGetAFCC strict : bus_post strict idle idle rfmGetAFCC.
Proof. unfold rfmGetAFCC. bus_go. Qed.
Lemma bus_setModemRegs strict r : bus_post strict idle idle (setModemRegs r).
Proof. unfold setModemRegs. bus_go. Qed.
Lemma bus_rfmSetCarrierFrequency strict f :
  bus_post strict idle idle (rfmSetCarrierFrequency hdr f).
Proof. unfold rfmSetCarrierFrequency. bus_go. Qed.
Hint Resolve bus_rfmSetChannel bus_rfmGetRSSI bus_rfmGetAFCC bus_setModemRegs
  bus_rfmSetCarrierFrequency : bus.

Lemma bus_init_rfm_gpio strict :
  bus_post strict (mk_bus true false) (mk_bus true false) (init_rfm_gpio hdr).
Proof. unfold init_rfm_gpio. bus_go. Qed.
Lemma bus_init_rfm_header strict n :
  forall i m,
    bus_post strict (mk_bus true false) (mk_bus true false) (init_rfm_header n i m).
Proof. induction n; intros; cbn [init_rfm_header]; bus_go. Qed.
Lemma bus_sleeps strict n ms : bus_post strict idle idle (sleeps hdr n ms).
Proof. induction n; cbn [sleeps]; bus_go. Qed.
Hint Resolve bus_init_rfm_gpio bus_init_rfm_header bus_sleeps : bus.

Lemma bus_init_rfm strict b : bus_post strict idle idle (init_rfm hdr b).
Proof. unfold init_rfm, init_rfm_ready, init_rfm_packet. bus_go. Qed.
Lemma bus_clearFIFO strict : bus_post strict idle idle clearFIFO.
Proof. unfold clearFIFO. bus_go. Qed.
Hint Resolve bus_init_rfm bus_clearFIFO : bus.
Lemma bus_rx_reset strict : bus_post strict idle idle (rx_reset hdr).
Proof. unfold rx_reset. bus_go. Qed.
Hint Resolve bus_rx_reset : bus.
Lemma bus_to_rx_mode strict : bus_post strict idle idle (to_rx_mode hdr).
Proof. unfold to_rx_mode. bus_go. Qed.
Hint Resolve bus_to_rx_mode : bus.
Lemma bus_tx_fifo strict n :
  forall i pkt, bus_post strict (mk_bus true false) (mk_bus true false) (tx_fifo n i pkt).
Proof. induction n; intros; cbn [tx_fifo]; bus_go. Qed.
Hint Resolve bus_tx_fifo : bus.
Lemma bus_tx_packet_async strict pkt size :
  bus_post strict idle idle (tx_packet_async hdr pkt size).
Proof. unfold tx_packet_async. bus_go. Qed.
Lemma bus_tx_pending strict s : bus_post strict s s tx_pending.
Proof. unfold tx_pending. bus_go. Qed.
Hint Resolve bus_tx_packet_async bus_tx_pending : bus.
Lemma bus_tx_packet strict pkt size : bus_post strict idle idle (tx_packet hdr pkt size).
Proof. unfold tx_packet. bus_go. Qed.
Hint Resolve bus_tx_packet : bus.

Lemma bus_bind_receive_packet strict : bus_post strict idle idle (bind_receive_packet hdr).
Proof. unfold bind_receive_packet. bus_go. Qed.
Hint Resolve bus_bind_receive_packet : bus.

Lemma bus_bind_receive strict timeout :
  bus_post strict idle idle (pios_openlrs_bind_receive hdr timeout).
Proof. unfold pios_openlrs_bind_receive, bind_receive_turn. bus_go. Qed.
Hint Resolve bus_bind_receive : bus.

Lemma bus_count_hops strict s n : forall hc, bus_post strict s s (count_hops hdr n hc).
Proof. induction n; intros; cbn [count_hops]; bus_go. Qed.
Hint Resolve bus_count_hops : bus.

Lemma bus_setup strict bind : bus_post strict idle idle (pios_openlrs_setup hdr bind).
Proof. unfold pios_openlrs_setup. bus_go. Qed.

Lemma bus_rx_loop_received strict : bus_post strict idle idle (rx_loop_received hdr).
Proof. unfold rx_loop_received. bus_go. Qed.
Lemma bus_rx_loop_rssi strict t : bus_post strict idle idle (rx_loop_rssi hdr t).
Proof. unfold rx_loop_rssi. bus_go. Qed.
Lemma bus_rx_loop_link strict t ms : bus_post strict idle idle (rx_loop_link hdr t ms).
Proof. unfold rx_loop_link. bus_go. Qed.
Lemma bus_rx_loop_hop strict : bus_post strict idle idle (rx_loop_hop hdr).
Proof. unfold rx_loop_hop. bus_go. Qed.
Lemma bus_rx_loop_lockup : bus_post false idle idle (rx_loop_lockup hdr).
Proof. unfold rx_loop_lockup. bus_go. Qed.
Hint Resolve bus_rx_loop_received bus_rx_loop_rssi bus_rx_loop_link bus_rx_loop_hop
  bus_rx_loop_lockup : bus.

Lemma bus_rx_loop : bus_post false idle idle (pios_openlrs_rx_loop hdr).
Proof. unfold pios_openlrs_rx_loop. bus_go. Qed.
Hint Resolve bus_rx_loop : bus.

Lemma bus_task_turn : bus_post false idle idle (task_turn hdr).
Proof. unfold task_turn. bus_go. Qed.

Lemma bus_session acts : bus_post false idle idle (session hdr acts).
Proof.
  induction acts as [| a acts IH]; cbn [session]; [apply bus_ret |].
  eapply bus_bind; [| intros; exact IH].
  destruct a; cbn [perform]; [apply bus_task_turn | bus_go].
Qed.

(** X8.  Setup keeps the discipline of the SPI bus.  On a device with a
    configured bus ([spi_id != 0]), whatever the radio answers and whether
    or not the receiver binds first, the calls that
    [pios_openlrs_setup] makes claim the bus only when it is free, select
    the chip only on the claimed bus, transfer bytes only to the selected
    chip, deselect it before they release the bus, never sleep while
    holding the bus or the chip, and leave the bus released at the end.
    This covers [init_rfm], [pios_openlrs_bind_receive] with its
    acknowledgement, [rfmSetChannel] and [to_rx_mode]. *)
Theorem setup_bus_discipline (bind : bool) (w w' : world) :
  spi_id (dev w) <> 0 ->
  pios_openlrs_setup hdr bind w = Done tt w' ->
  exists evs,
    trace w' = trace w ++ evs /\ bus_run true idle evs = Some idle.
Proof.
  intros Hid E. destruct (bus_setup true bind w tt w' Hid E) as (_ & evs & Ht & Hr).
  exists evs. split; assumption.
Qed.

(** X9.  The scheduler keeps the discipline of the chip select.  In any
    sequence of iterations and interrupts on a device with a configured
    bus, the chip is selected and deselected in turn, bytes are
    transferred only to the selected chip, claims and releases of the bus
    alternate, the task never sleeps while it holds the bus or the chip,
    and every iteration ends with the bus released and the chip
    deselected.  (That the chip is selected only on a claimed bus does not
    hold here: see the next property.) *)
Theorem session_bus_discipline (acts : list activity) (w w' : world) :
  spi_id (dev w) <> 0 ->
  session hdr acts w = Done tt w' ->
  exists evs,
    trace w' = trace w ++ evs /\ bus_run false idle evs = Some idle.
Proof.
  intros Hid E. destruct (bus_session acts w tt w' Hid E) as (_ & evs & Ht & Hr).
  exists evs. split; assumption.
Qed.

Lemma rfm22_read_free_run (addr : Z) (w : world) :
  spi_id (dev w) <> 0 ->
  exists r w',
    rfm22_read addr w = Done r w' /\
    spi_id (dev w') = spi_id (dev w) /\
    trace w' =
      trace w ++ [WaituS 1; PinSet 0; TransferBlock [Z.land (u8 addr) 0x7F; 0xFF] true;
                  PinSet 1].
Proof.
  destruct w as [d g e t]. cbn [dev trace]. intros Hid.
  unfold rfm22_read. unfold_spi. unfold_monad. cbn.
  destruct (spi_id d =? 0) eqn:E; [apply Z.eqb_eq in E; contradiction |].
  repeat (progress (cbn; rewrite ?E)).
  do 2 eexists. split; [reflexivity |]. cbn. split; [reflexivity |].
  rewrite <- !app_assoc. reflexivity.
Qed.

(** X10.  The lock-up probe is made on an unclaimed bus.  Every scheduler
    iteration starts, after the watchdog flag, by reading register 0x0C
    with [rfm22_read]: it selects the chip, transfers the two bytes and
    deselects it without any claim of the bus before, so that the
    iteration as a whole does not keep the strict discipline in which the
    chip is selected on a claimed bus only. *)
Theorem lockup_probe_unclaimed (w w' : world) :
  spi_id (dev w) <> 0 ->
  pios_openlrs_rx_loop hdr w = Done tt w' ->
  exists pre rest,
    trace w' =
      trace w ++ pre
      ++ [WaituS 1; PinSet 0; TransferBlock [0x0C; 0xFF] true; PinSet 1] ++ rest /\
    Forall (fun e => e = WdgUpdate) pre /\
    bus_run true idle
      (pre ++ [WaituS 1; PinSet 0; TransferBlock [0x0C; 0xFF] true; PinSet 1] ++ rest)
    = None.
Proof.
  intros Hid E. unfold pios_openlrs_rx_loop in E.
  apply bind_Done in E as ([] & w0 & E0 & E).
  assert (spi_id (dev w0) = spi_id (dev w) /\
          exists pre, trace w0 = trace w ++ pre /\ Forall (fun e => e = WdgUpdate) pre)
    as (Hid0 & pre & Ht0 & Hpre).
  { unfold PIOS_WDG_UpdateFlag in E0. destruct (hdr_PIOS_WDG_RFM22B hdr); cbn [when] in E0.
    - inversion E0; subst. split; [reflexivity |]. exists [WdgUpdate].
      split; [reflexivity | repeat constructor].
    - inversion E0; subst. split; [reflexivity |]. exists [].
      split; [rewrite app_nil_r; reflexivity | constructor]. }
  apply bind_Done in E as ([] & w2 & E2 & E).
  unfold rx_loop_lockup in E2.
  apply bind_Done in E2 as (r & w1 & E1 & E2).
  destruct (rfm22_read_free_run 0x0C w0 ltac:(congruence)) as (r' & w1' & E1' & Hid1 & Ht1).
  rewrite E1 in E1'. inversion E1'; subst r' w1'; clear E1'.
  assert (bus_post false idle idle (when (r =? 0) (init_rfm hdr false;; to_rx_mode hdr)))
    as B2 by bus_go.
  destruct (B2 w1 tt w2 ltac:(congruence) E2) as (Hid2 & evs2 & Ht2 & _).
  assert (bus_post false idle idle
            (_ <- micros;;
             mode <- gets (fun w => rf_mode (dev w));;
             when (RF_MODE_eqb mode Received) (rx_loop_received hdr);;
             timeUs <- micros;;
             timeMs <- millis;;
             rx_loop_rssi hdr timeUs;;
             rx_loop_link hdr timeUs timeMs;;
             rx_loop_hop hdr)) as B3 by bus_go.
  destruct (B3 w2 tt w' ltac:(congruence) E) as (_ & evs3 & Ht3 & _).
  exists pre, (evs2 ++ evs3). split; [| split; [exact Hpre |]].
  - rewrite Ht3, Ht2, Ht1, Ht0. rewrite <- !app_assoc. reflexivity.
  - rewrite bus_run_app.
    assert (bus_run true idle pre = Some idle) as ->.
    { clear -Hpre. induction Hpre as [| e pre -> _ IH]; [reflexivity | exact IH]. }
    reflexivity.
Qed.

(** ** Tuning to a hop channel *)

Lemma lxor_byte (a b : Z) : 0 <= a < 2 ^ 8 -> 0 <= b < 2 ^ 8 -> 0 <= Z.lxor a b < 2 ^ 8.
Proof.
  intros Ha Hb.
  assert (0 <= Z.lxor a b) as H0 by (apply Z.lxor_nonneg; lia).
  split; [exact H0 |].
  destruct (Z.eq_dec (Z.lxor a b) 0) as [-> | Hne]; [lia |].
  apply Z.log2_lt_pow2; [lia |].
  pose proof (Z.log2_lxor a b ltac:(lia) ltac:(lia)) as Hl.
  assert (Z.log2 a < 8) as Hla.
  { destruct (Z.eq_dec a 0) as [-> | ?]; [cbn; lia | apply Z.log2_lt_pow2; lia]. }
  assert (Z.log2 b < 8) as Hlb.
  { destruct (Z.eq_dec b 0) as [-> | ?]; [cbn; lia | apply Z.log2_lt_pow2; lia]. }
  lia.
Qed.

Lemma land_byte (a : Z) : 0 <= Z.land a 0xff < 2 ^ 8.
Proof.
  change 0xff with (Z.ones 8). rewrite Z.land_ones by lia.
  apply Z.mod_pos_bound. lia.
Qed.

Lemma rfmSetChannel_run (ch hop : Z) (w : world) :
  0 <= ch < 2 ^ 8 ->
  BindData.hopchannel (bind_data (dev w)) !! Z.to_nat ch = Some hop ->
  exists w' evs,
    rfmSetChannel ch w = Done tt w' /\
    dev w' = dev w /\ globals w' = globals w /\ env w' = env w /\
    trace w' = trace w ++ evs /\
    reg_writes evs =
      [(0x79, u8 hop);
       (0x3D, Z.lxor (Z.land (BindData.rf_magic (bind_data (dev w))) 0xff) ch);
       (0x42, Z.lxor (Z.land (BindData.rf_magic (bind_data (dev w))) 0xff) ch)].
Proof.
  destruct w as [d g e t]. cbn [dev globals env trace]. intros Hch Hhop.
  pose proof (lxor_byte _ _ (land_byte (BindData.rf_magic (bind_data d))) Hch) as Hx.
  unfold rfmSetChannel, rfm22_claimBus, rfm22_releaseBus, rfm22_write,
    rfm22_assertCs, rfm22_deassertCs, PIOS_SPI_TransferBlock_tx, emit, when,
    bind, gets, modify, ret, lift, with_trace; cbn.
  rewrite (u8_small ch) by lia. rewrite Hhop. rewrite !(u8_small (Z.lxor _ _)) by exact Hx.
  destruct (spi_id d =? 0) eqn:E; repeat (progress (cbn; rewrite ?E));
    do 2 eexists;
    (split; [reflexivity | repeat split; cbn;
      [rewrite <- ?app_assoc; reflexivity | reflexivity]]).
Qed.

(** X11.  [rfmSetChannel (ch)] programs three registers and nothing else:
    the hop channel select 0x79 with [hopchannel[ch]], and the last byte
    of the transmit header, 0x3D, and of the check header, 0x42, with the
    low byte of [rf_magic] exclusive-or [ch]; so packets of another hop
    position fail the header check.  Device state and statics are left
    alone.  For a [ch] outside the array [hopchannel] the read is out of
    bounds. *)
Theorem channel_registers (ch : Z) (w : world) :
  0 <= ch < 2 ^ 8 ->
  let bd := bind_data (dev w) in
  match BindData.hopchannel bd !! Z.to_nat ch with
  | Some hop =>
      exists w' evs,
        rfmSetChannel ch w = Done tt w' /\
        dev w' = dev w /\ globals w' = globals w /\ env w' = env w /\
        trace w' = trace w ++ evs /\
        reg_writes evs =
          [(0x79, u8 hop);
           (0x3D, Z.lxor (Z.land (BindData.rf_magic bd) 0xff) ch);
           (0x42, Z.lxor (Z.land (BindData.rf_magic bd) 0xff) ch)]
  | None => rfmSetChannel ch w = Undefined
  end.
Proof.
  intros Hch bd.
  destruct (BindData.hopchannel bd !! Z.to_nat ch) as [hop |] eqn:Hhop.
  - exact (rfmSetChannel_run ch hop w Hch Hhop).
  - destruct w as [d g e t]. cbn [dev] in *. subst bd.
    unfold rfmSetChannel, rfm22_claimBus, emit, when, bind, gets, modify, ret, lift,
      undefined. cbn.
    rewrite (u8_small ch) by lia. rewrite Hhop.
    destruct (spi_id d =? 0); reflexivity.
Qed.

Lemma rx_loop_hop_run (w : world) :
  hdr_MAXHOPS hdr <= 255 ->
  hop_ok hdr w ->
  let bd := bind_data (dev w) in
  let ch' := (rf_channel (dev w) + 1) mod hopcount (globals w) in
  (willhop (globals w) = false -> rx_loop_hop hdr w = Done tt w) /\
  (willhop (globals w) = true ->
   exists w' evs hop,
     rx_loop_hop hdr w = Done tt w' /\
     dev w' = set_rf_channel ch' (dev w) /\
     globals w' = set_willhop false (globals w) /\
     env w' = env w /\
     BindData.hopchannel bd !! Z.to_nat ch' = Some hop /\ hop <> 0 /\
     trace w' = trace w ++ evs /\
     reg_writes evs =
       [(0x79, u8 hop);
        (0x3D, Z.lxor (Z.land (BindData.rf_magic bd) 0xff) ch');
        (0x42, Z.lxor (Z.land (BindData.rf_magic bd) 0xff) ch')]).
Proof.
  intros Hmax Hok. cbv zeta. split.
  - intros Hhop. destruct w as [d g e t]. cbn [globals] in Hhop.
    unfold rx_loop_hop. unfold_monad. cbn. rewrite Hhop. reflexivity.
  - intros Hhop. destruct w as [d g e t].
    unfold hop_ok, hop_inv in Hok. cbn [dev globals env trace] in *.
    destruct Hok as (Hch & Hhc & Hnz & Hend).
    set (ch := rf_channel d) in *. set (hc := hopcount g) in *.
    set (hops := BindData.hopchannel (bind_data d)) in *.
    assert (u8 (ch + 1) = ch + 1) as Hu by (apply u8_small; lia).
    (* the new index and whether the code wraps *)
    assert (exists c,
              ((ch + 1 =? hdr_MAXHOPS hdr) = true \/
               (ch + 1 =? hdr_MAXHOPS hdr) = false /\ hops !! Z.to_nat (ch + 1) = Some c) /\
              (ch + 1) mod hc =
                (if (ch + 1 =? hdr_MAXHOPS hdr) then 0
                 else if c =? 0 then 0 else ch + 1)) as (c & Hcase & Hmod).
    { destruct (Z.eqb_spec (ch + 1) (hdr_MAXHOPS hdr)) as [Heq | Hne].
      - exists 0. split; [left; reflexivity |].
        replace hc with (ch + 1) by lia. apply Z_mod_same_full.
      - destruct (Z.eq_dec (ch + 1) hc) as [Heq | Hneq].
        + destruct Hend as [Hm | Hz]; [lia |]. exists 0.
          rewrite Heq. split; [right; split; [reflexivity | exact Hz] |].
          cbn. apply Z_mod_same_full.
        + destruct (Hnz (ch + 1) ltac:(lia)) as (c & Hc & Hc0). exists c.
          split; [right; split; [reflexivity | exact Hc] |].
          destruct (Z.eqb_spec c 0); [contradiction |]. apply Z.mod_small. lia. }
    set (ch' := (ch + 1) mod hc) in *.
    assert (0 <= ch' < hc) as Hch' by (apply Z.mod_pos_bound; lia).
    destruct (Hnz ch' Hch') as (hop & Hhopc & Hhop0).
    destruct (rfmSetChannel_run ch' hop (mk_world (set_rf_channel ch' d) g e t)
                ltac:(lia) Hhopc) as (w1 & evs & E1 & Hd1 & Hg1 & He1 & Ht1 & Hw1).
    cbn [dev globals env trace] in Hd1, Hg1, He1, Ht1, Hw1.
    change (bind_data (set_rf_channel ch' d)) with (bind_data d) in Hw1.
    assert (rx_loop_hop hdr (mk_world d g e t)
            = (rfmSetChannel ch';; set_global (set_willhop false))
                (mk_world (set_rf_channel ch' d) g e t)) as ->.
    { unfold rx_loop_hop. remember rfmSetChannel as K eqn:HK.
      unfold_monad. cbn. rewrite Hhop. cbn. fold ch. rewrite Hu.
      destruct Hcase as [Hm | [Hm Hc]]; rewrite Hm in *; cbn.
      - rewrite Hmod. unfold_monad. cbn. reflexivity.
      - fold hops. rewrite Hc. cbn.
        destruct (c =? 0) eqn:Hc0; rewrite Hmod; unfold_monad; cbn;
          unfold with_dev; cbn [dev globals env trace]; fold ch;
          rewrite ?Hu; reflexivity. }
    unfold bind at 1. rewrite E1. unfold set_global, modify.
    exists (with_globals (set_willhop false) w1), evs, hop.
    split; [reflexivity |]. cbn [dev globals env trace with_globals].
    rewrite Hd1, Hg1, He1, Ht1.
    repeat split; try assumption.
Qed.

(** X12.  A hop goes round the hop list.  When a hop is asked for and
    the channel index lies inside the [hopcount] leading channels, the hop
    block always completes: the index becomes
    [(rf_channel + 1) mod hopcount], [willhop] is cleared, and the radio
    is tuned to that entry of the hop list, which is not zero, with the
    header bytes of that index.  Nothing else changes.  When no hop is
    asked for the block does nothing. *)
Theorem hop_cycles (w : world) :
  hdr_MAXHOPS hdr <= 255 ->
  hop_ok hdr w ->
  let bd := bind_data (dev w) in
  let ch' := (rf_channel (dev w) + 1) mod hopcount (globals w) in
  (willhop (globals w) = false -> rx_loop_hop hdr w = Done tt w) /\
  (willhop (globals w) = true ->
   exists w' evs hop,
     rx_loop_hop hdr w = Done tt w' /\
     dev w' = set_rf_channel ch' (dev w) /\
     globals w' = set_willhop false (globals w) /\
     env w' = env w /\
     BindData.hopchannel bd !! Z.to_nat ch' = Some hop /\ hop <> 0 /\
     trace w' = trace w ++ evs /\
     reg_writes evs =
       [(0x79, u8 hop);
        (0x3D, Z.lxor (Z.land (BindData.rf_magic bd) 0xff) ch');
        (0x42, Z.lxor (Z.land (BindData.rf_magic bd) 0xff) ch')]).
Proof. exact (rx_loop_hop_run w). Qed.

(** ** The header registers *)

Lemma top_byte (a r : Z) :
  0 <= a < 2 ^ 8 -> 0 <= r < 2 ^ 24 ->
  Z.land (Z.shiftr (a * 2 ^ 24 + r) 24) 0xff = a /\
  u32 (Z.shiftl (a * 2 ^ 24 + r) 8) = r * 2 ^ 8.
Proof.
  intros Ha Hr. split.
  - rewrite Z.shiftr_div_pow2 by lia.
    change 0xff with (Z.ones 8). rewrite Z.land_ones by lia.
    assert ((a * 2 ^ 24 + r) / 2 ^ 24 = a) as ->.
    { symmetry. apply (Z.div_unique _ _ a r); lia. }
    apply Z.mod_small. lia.
  - rewrite Z.shiftl_mul_pow2 by lia. unfold u32.
    symmetry. apply (Z.mod_unique _ _ a); lia.
Qed.

Lemma bytes_of_word (m : Z) :
  0 <= m < 2 ^ 32 ->
  0 <= byte_of m 3 < 2 ^ 8 /\ 0 <= byte_of m 2 < 2 ^ 8 /\
  0 <= byte_of m 1 < 2 ^ 8 /\ 0 <= byte_of m 0 < 2 ^ 8 /\
  m = byte_of m 3 * 2 ^ 24 + byte_of m 2 * 2 ^ 16 + byte_of m 1 * 2 ^ 8 + byte_of m 0.
Proof.
  intros Hm. unfold byte_of.
  change (2 ^ (8 * 3)) with (2 ^ 24). change (2 ^ (8 * 2)) with (2 ^ 16).
  change (2 ^ (8 * 1)) with (2 ^ 8). change (2 ^ (8 * 0)) with 1.
  rewrite Z.div_1_r.
  pose proof (Z.div_mod m (2 ^ 8) ltac:(lia)) as H0.
  pose proof (Z.mod_pos_bound m (2 ^ 8) ltac:(lia)) as B0.
  pose proof (Z.div_mod (m / 2 ^ 8) (2 ^ 8) ltac:(lia)) as H1.
  pose proof (Z.mod_pos_bound (m / 2 ^ 8) (2 ^ 8) ltac:(lia)) as B1.
  pose proof (Z.div_mod (m / 2 ^ 16) (2 ^ 8) ltac:(lia)) as H2.
  pose proof (Z.mod_pos_bound (m / 2 ^ 16) (2 ^ 8) ltac:(lia)) as B2.
  assert (m / 2 ^ 8 / 2 ^ 8 = m / 2 ^ 16) as D1.
  { rewrite Z.div_div by lia. reflexivity. }
  assert (m / 2 ^ 16 / 2 ^ 8 = m / 2 ^ 24) as D2.
  { rewrite Z.div_div by lia. reflexivity. }
  rewrite D1 in H1. rewrite D2 in H2.
  assert (0 <= m / 2 ^ 24 < 2 ^ 8) as B3.
  { split; [apply Z.div_pos; lia | apply Z.div_lt_upper_bound; lia]. }
  rewrite (Z.mod_small (m / 2 ^ 24)) by lia.
  lia.
Qed.

Lemma init_rfm_header_run (magic : Z) (w : world) :
  exists w' evs,
    init_rfm_header 4 0 magic w = Done tt w' /\
    dev w' = dev w /\ globals w' = globals w /\ env w' = env w /\
    trace w' = trace w ++ evs /\
    let top m := u8 (Z.land (Z.shiftr m 24) 0xff) in
    let next m := u32 (Z.shiftl m 8) in
    reg_writes evs =
      [(0x3A, top magic); (0x3F, top magic);
       (0x3B, top (next magic)); (0x40, top (next magic));
       (0x3C, top (next (next magic))); (0x41, top (next (next magic)));
       (0x3D, top (next (next (next magic)))); (0x42, top (next (next (next magic))))].
Proof.
  destruct w as [d g e t]. cbn [dev globals env trace].
  cbn [init_rfm_header].
  unfold rfm22_write, rfm22_assertCs, rfm22_deassertCs, PIOS_SPI_TransferBlock_tx, emit,
    when, bind, gets, modify, ret, with_trace; cbn.
  destruct (spi_id d =? 0) eqn:E; repeat (progress (cbn; rewrite ?E));
    do 2 eexists;
    (split; [reflexivity | repeat split; cbn;
      [rewrite <- ?app_assoc; reflexivity | reflexivity]]).
Qed.

Lemma header_tops (magic : Z) :
  0 <= magic < 2 ^ 32 ->
  let top m := u8 (Z.land (Z.shiftr m 24) 0xff) in
  let next m := u32 (Z.shiftl m 8) in
  [(0x3A, top magic); (0x3F, top magic);
   (0x3B, top (next magic)); (0x40, top (next magic));
   (0x3C, top (next (next magic))); (0x41, top (next (next magic)));
   (0x3D, top (next (next (next magic)))); (0x42, top (next (next (next magic))))]
  = header_image magic.
Proof.
  intros Hm. cbv zeta. unfold header_image.
  destruct (bytes_of_word magic Hm) as (B3 & B2 & B1 & B0 & Hsum).
  set (a := byte_of magic 3) in *. set (b := byte_of magic 2) in *.
  set (c := byte_of magic 1) in *. set (d := byte_of magic 0) in *.
  rewrite Hsum.
  destruct (top_byte a (b * 2 ^ 16 + c * 2 ^ 8 + d) B3 ltac:(lia)) as (T3 & N3).
  replace (a * 2 ^ 24 + b * 2 ^ 16 + c * 2 ^ 8 + d)
    with (a * 2 ^ 24 + (b * 2 ^ 16 + c * 2 ^ 8 + d)) by lia.
  rewrite N3, T3.
  replace ((b * 2 ^ 16 + c * 2 ^ 8 + d) * 2 ^ 8)
    with (b * 2 ^ 24 + (c * 2 ^ 16 + d * 2 ^ 8)) by lia.
  destruct (top_byte b (c * 2 ^ 16 + d * 2 ^ 8) B2 ltac:(lia)) as (T2 & N2).
  rewrite N2, T2.
  replace ((c * 2 ^ 16 + d * 2 ^ 8) * 2 ^ 8) with (c * 2 ^ 24 + d * 2 ^ 16) by lia.
  destruct (top_byte c (d * 2 ^ 16) B1 ltac:(lia)) as (T1 & N1).
  rewrite N1, T1.
  replace (d * 2 ^ 16 * 2 ^ 8) with (d * 2 ^ 24 + 0) by lia.
  destruct (top_byte d 0 B0 ltac:(lia)) as (T0 & _).
  rewrite T0.
  rewrite !u8_small by lia. reflexivity.
Qed.

(** X13.  The header is the magic number, most significant byte first.
    For a 32-bit [magic], the loop of [init_rfm] writes its four bytes to
    the transmit header 0x3A..0x3D and to the check header 0x3F..0x42,
    the byte of weight [2 ^ 24] to 0x3A and 0x3F and the byte of weight 1
    to 0x3D and 0x42; the four bytes written give [magic] back.  Nothing
    but the trace is changed. *)
Theorem header_is_magic (magic : Z) (w : world) :
  0 <= magic < 2 ^ 32 ->
  exists w' evs,
    init_rfm_header 4 0 magic w = Done tt w' /\
    dev w' = dev w /\ globals w' = globals w /\ env w' = env w /\
    trace w' = trace w ++ evs /\
    reg_writes evs =
      [(0x3A, byte_of magic 3); (0x3F, byte_of magic 3);
       (0x3B, byte_of magic 2); (0x40, byte_of magic 2);
       (0x3C, byte_of magic 1); (0x41, byte_of magic 1);
       (0x3D, byte_of magic 0); (0x42, byte_of magic 0)] /\
    byte_of magic 3 * 2 ^ 24 + byte_of magic 2 * 2 ^ 16
      + byte_of magic 1 * 2 ^ 8 + byte_of magic 0 = magic.
Proof.
  intros Hm.
  destruct (init_rfm_header_run magic w) as (w' & evs & E & Hd & Hg & He & Ht & Hw).
  exists w', evs. do 5 (split; [assumption |]).
  destruct (bytes_of_word magic Hm) as (B3 & B2 & B1 & B0 & Hsum).
  split; [| lia].
  cbv zeta in Hw. rewrite Hw. exact (header_tops magic Hm).
Qed.

(** ** Reception of a packet *)

Instance calm_preorder : PreOrder calm.
Proof.
  split.
  - intros w. split; reflexivity.
  - intros a b c (A1 & A2) (B1 & B2). split; [etransitivity; eassumption | congruence].
Qed.

Ltac post_calm :=
  repeat post_step;
  try (split; [reflexivity |]; unfold updates; cbn;
       rewrite ?omap_app; cbn; rewrite ?app_nil_r; reflexivity).

Lemma calm_spi_byte : post calm spi_byte.
Proof. intros [d g e t] a w' H. inversion H; subst. split; reflexivity. Qed.
Lemma calm_micros : post calm micros.
Proof. intros [d g e t] a w' H. inversion H; subst. split; reflexivity. Qed.
Hint Resolve calm_spi_byte calm_micros : drv.
Lemma calm_spi_bytes n : post calm (spi_bytes n).
Proof. induction n; cbn [spi_bytes]; post_calm. Qed.
Hint Resolve calm_spi_bytes : drv.
Lemma calm_assertCs : post calm rfm22_assertCs.
Proof. unfold rfm22_assertCs. post_calm. Qed.
Lemma calm_deassertCs : post calm rfm22_deassertCs.
Proof. unfold rfm22_deassertCs. post_calm. Qed.
Lemma calm_claimBus : post calm rfm22_claimBus.
Proof. unfold rfm22_claimBus. post_calm. Qed.
Lemma calm_releaseBus : post calm rfm22_releaseBus.
Proof. unfold rfm22_releaseBus. post_calm. Qed.
Hint Resolve calm_assertCs calm_deassertCs calm_claimBus calm_releaseBus : drv.
Lemma calm_TransferBlock_tx l : post calm (PIOS_SPI_TransferBlock_tx l).
Proof. unfold PIOS_SPI_TransferBlock_tx. post_calm. Qed.
Lemma calm_TransferBlock_rx l : post calm (PIOS_SPI_TransferBlock_rx l).
Proof. unfold PIOS_SPI_TransferBlock_rx. post_calm. Qed.
Lemma calm_TransferByte b : post calm (PIOS_SPI_TransferByte b).
Proof. unfold PIOS_SPI_TransferByte. post_calm. Qed.
Hint Resolve calm_TransferBlock_tx calm_TransferBlock_rx calm_TransferByte : drv.
Lemma calm_transfer_OUT_FF n : post calm (transfer_OUT_FF n).
Proof. unfold transfer_OUT_FF. post_calm. Qed.
Lemma calm_write a d : post calm (rfm22_write a d).
Proof. unfold rfm22_write. post_calm. Qed.
Lemma calm_write_claim a d : post calm (rfm22_write_claim a d).
Proof. unfold rfm22_write_claim. post_calm. Qed.
Lemma calm_read a : post calm (rfm22_read a).
Proof. unfold rfm22_read. post_calm. Qed.
Lemma calm_read_claim a : post calm (rfm22_read_claim a).
Proof. unfold rfm22_read_claim. post_calm. Qed.
Hint Resolve calm_transfer_OUT_FF calm_write calm_write_claim calm_read calm_read_claim : drv.
Lemma calm_rfmGetAFCC : post calm rfmGetAFCC.
Proof. unfold rfmGetAFCC. post_calm. Qed.
Lemma calm_LED : post calm (PIOS_LED_Toggle hdr).
Proof. unfold PIOS_LED_Toggle. post_calm. Qed.
Lemma calm_clearFIFO : post calm clearFIFO.
Proof. unfold clearFIFO. post_calm. Qed.
Hint Resolve calm_rfmGetAFCC calm_LED calm_clearFIFO : drv.
Lemma calm_rx_reset : post calm (rx_reset hdr).
Proof. unfold rx_reset. post_calm. Qed.
Hint Resolve calm_rx_reset : drv.

Lemma tracks_refl w : tracks w w.
Proof. split; reflexivity. Qed.

Lemma tracks_calm W w1 w2 : tracks W w1 -> calm w1 w2 -> tracks W w2.
Proof.
  intros (C & U) (C' & U'). unfold same_core in C'. split; congruence.
Qed.

Lemma core_eq (w : world) : core w = (core_dev (dev w), core_statics (globals w)).
Proof. reflexivity. Qed.

Lemma core_with_dev (f : pios_openlrs_dev -> pios_openlrs_dev) W w1 :
  (forall d, core_dev (f d) = core_dev (f (core_dev d))) ->
  core w1 = core W -> core (with_dev f w1) = core (with_dev f W).
Proof.
  intros Hf C. rewrite !core_eq in *. cbn [with_dev dev globals].
  pose proof (f_equal fst C) as Cd. pose proof (f_equal snd C) as Cg.
  cbn [fst snd] in Cd, Cg.
  rewrite Cg, (Hf (dev w1)), (Hf (dev W)), Cd. reflexivity.
Qed.

Lemma core_with_globals (f : statics -> statics) W w1 :
  (forall g, core_statics (f g) = core_statics (f (core_statics g))) ->
  core w1 = core W -> core (with_globals f w1) = core (with_globals f W).
Proof.
  intros Hf C. rewrite !core_eq in *. cbn [with_globals dev globals].
  pose proof (f_equal fst C) as Cd. pose proof (f_equal snd C) as Cg.
  cbn [fst snd] in Cd, Cg.
  rewrite Cd, (Hf (globals w1)), (Hf (globals W)), Cg. reflexivity.
Qed.

Lemma tracks_set_dev (f : pios_openlrs_dev -> pios_openlrs_dev) W w1 :
  (forall d, core_dev (f d) = core_dev (f (core_dev d))) ->
  tracks W w1 -> tracks (with_dev f W) (with_dev f w1).
Proof. intros Hf (C & U). split; [exact (core_with_dev f _ _ Hf C) | exact U]. Qed.

Lemma tracks_set_global (f : statics -> statics) W w1 :
  (forall g, core_statics (f g) = core_statics (f (core_statics g))) ->
  tracks W w1 -> tracks (with_globals f W) (with_globals f w1).
Proof. intros Hf (C & U). split; [exact (core_with_globals f _ _ Hf C) | exact U]. Qed.

Lemma tracks_mode (m : RF_MODE) W w1 :
  tracks W w1 -> tracks W (with_dev (set_rf_mode m) w1).
Proof.
  intros (C & U). split; [| exact U]. rewrite <- C.
  destruct w1 as [[] g e t]. reflexivity.
Qed.

Lemma tracks_emit (e : event) W w1 :
  tracks W w1 ->
  tracks (with_trace (fun t => t ++ [e]) W) (with_trace (fun t => t ++ [e]) w1).
Proof.
  intros (C & U). split; [exact C |].
  cbn [with_trace trace]. unfold updates in *. rewrite !omap_app, U. reflexivity.
Qed.

Lemma core_dev_fields W w1 :
  core w1 = core W ->
  ppm (dev w1) = ppm (dev W) /\ rx_buf (dev w1) = rx_buf (dev W) /\
  link_acquired (dev w1) = link_acquired (dev W) /\
  bind_data (dev w1) = bind_data (dev W) /\
  rf_channel (dev w1) = rf_channel (dev W) /\
  openlrs_rcvr_id (dev w1) = openlrs_rcvr_id (dev W).
Proof.
  intros C. rewrite !core_eq in C. pose proof (f_equal fst C) as Cd.
  cbn [fst] in Cd. unfold core_dev in Cd.
  pose proof (f_equal ppm Cd) as H1. pose proof (f_equal rx_buf Cd) as H2.
  pose proof (f_equal link_acquired Cd) as H3. pose proof (f_equal bind_data Cd) as H4.
  pose proof (f_equal rf_channel Cd) as H5. pose proof (f_equal openlrs_rcvr_id Cd) as H6.
  cbn in H1, H2, H3, H4, H5, H6. auto 10.
Qed.

Lemma core_global_fields W w1 :
  core w1 = core W ->
  lastPacketTimeUs (globals w1) = lastPacketTimeUs (globals W) /\
  numberOfLostPackets (globals w1) = numberOfLostPackets (globals W) /\
  linkQuality (globals w1) = linkQuality (globals W) /\
  willhop (globals w1) = willhop (globals W) /\
  hopcount (globals w1) = hopcount (globals W) /\
  lastAFCCvalue (globals w1) = lastAFCCvalue (globals W) /\
  RSSI_sum (globals w1) = RSSI_sum (globals W) /\
  RSSI_count (globals w1) = RSSI_count (globals W) /\
  smoothRSSI (globals w1) = smoothRSSI (globals W) /\
  lastRSSITimeUs (globals w1) = lastRSSITimeUs (globals W).
Proof.
  intros C. rewrite !core_eq in C. pose proof (f_equal snd C) as Cg.
  cbn [snd] in Cg. unfold core_statics in Cg.
  pose proof (f_equal lastPacketTimeUs Cg) as H1.
  pose proof (f_equal numberOfLostPackets Cg) as H2.
  pose proof (f_equal linkQuality Cg) as H3. pose proof (f_equal willhop Cg) as H4.
  pose proof (f_equal hopcount Cg) as H5. pose proof (f_equal lastAFCCvalue Cg) as H6.
  pose proof (f_equal RSSI_sum Cg) as H7. pose proof (f_equal RSSI_count Cg) as H8.
  pose proof (f_equal smoothRSSI Cg) as H9. pose proof (f_equal lastRSSITimeUs Cg) as H10.
  cbn in H1, H2, H3, H4, H5, H6, H7, H8, H9, H10. auto 15.
Qed.

Lemma micros_run (w : world) :
  exists w',
    micros w = Done (hd 0 (us_clock (env w))) w' /\ calm w w' /\
    spi_in (env w') = spi_in (env w).
Proof.
  destruct w as [d g e t]. eexists. split; [reflexivity |].
  split; [split; reflexivity | reflexivity].
Qed.

Lemma plumb_rfmGetAFCC : plumb rfmGetAFCC.
Proof. unfold rfmGetAFCC. plumb_go. Qed.

(** X14.  Reception of a packet.  When the block that handles
    [rf_mode == Received] runs, it reads [getPacketSize] bytes from the
    FIFO into the head of [rx_buf], and, whatever the radio answers to the
    register reads that follow: the time of the last packet becomes the
    clock reading taken before the SPI transfer, the counter of lost
    packets is reset, a 1 is shifted into [linkQuality], the link counts as
    acquired, the mode is [Receive] again and a hop is asked for.  The
    channels are decoded, and the registered receiver notified with them,
    exactly when the bits [0x3e] of the first byte are clear; a packet of
    another type leaves [ppm] as it is and notifies nobody.  Hop state,
    bind data and the RSSI accumulator are not touched. *)
Theorem packet_received (w : world) (x b0 : Z) (pkt rest chans : list Z) :
  let bd := bind_data (dev w) in
  let g := globals w in
  let id := openlrs_rcvr_id (dev w) in
  let buf := pkt ++ drop (length pkt) (rx_buf (dev w)) in
  let servo := Z.land b0 0x3e =? 0 in
  spi_in (env w) = x :: pkt ++ rest ->
  length pkt = Z.to_nat (getPacketSize bd) ->
  (length pkt <= length (rx_buf (dev w)))%nat ->
  buf !! 0%nat = Some b0 ->
  (if servo
   then unpackChannels (Z.land (BindData.flags bd) 7) (ppm (dev w)) (drop 1 buf) = Some chans
   else chans = ppm (dev w)) ->
  exists w',
    rx_loop_received hdr w = Done tt w' /\
    rf_mode (dev w') = Receive /\
    rx_buf (dev w') = buf /\
    ppm (dev w') = chans /\
    link_acquired (dev w') = true /\
    bind_data (dev w') = bd /\
    rf_channel (dev w') = rf_channel (dev w) /\
    lastPacketTimeUs (globals w') = hd 0 (us_clock (env w)) /\
    numberOfLostPackets (globals w') = 0 /\
    linkQuality (globals w') = Z.lor (u16 (Z.shiftl (linkQuality g) 1)) 1 /\
    willhop (globals w') = true /\
    hopcount (globals w') = hopcount g /\
    RSSI_sum (globals w') = RSSI_sum g /\
    RSSI_count (globals w') = RSSI_count g /\
    smoothRSSI (globals w') = smoothRSSI g /\
    updates (trace w') =
      updates (trace w) ++
      (if servo && negb (id =? 0) && hdr_PIOS_INCLUDE_OPENLRS_RCVR hdr
       then [(id, chans)] else []).
Proof.
  intros bd g id buf servo Hs Hl Hfit Hb0 Hchans.
  unfold rx_loop_received.
  (* the clock, the bus, the address byte *)
  destruct (micros_run w) as (w1 & E1 & C1 & S1).
  rewrite (bind_step _ _ _ _ _ E1).
  pose proof (tracks_calm _ _ _ (tracks_refl w) C1) as T.
  destruct (claimBus_run w1) as (w2 & E2 & _ & V2).
  rewrite (bind_step _ _ _ _ _ E2).
  pose proof (tracks_calm _ _ _ T (calm_claimBus _ _ _ E2)) as T2. clear T.
  destruct (assertCs_run w2) as (w3 & E3 & _ & V3).
  rewrite (bind_step _ _ _ _ _ E3).
  pose proof (tracks_calm _ _ _ T2 (calm_assertCs _ _ _ E3)) as T3. clear T2.
  destruct (TransferByte_run 0x7F w3) as (w4 & E4 & _ & S4).
  rewrite (bind_step _ _ _ _ _ E4).
  pose proof (tracks_calm _ _ _ T3 (calm_TransferByte _ _ _ _ E4)) as T4. clear T3.
  rewrite V3, V2, S1, Hs in S4. cbn [tl] in S4.
  (* the packet *)
  rewrite (bind_step (gets (fun w => bind_data (dev w))) _ w4 _ w4 eq_refl).
  destruct (core_dev_fields _ _ (proj1 T4)) as (P4 & B4 & L4 & D4 & R4 & I4).
  rewrite D4. fold bd.
  pose proof (getPacketSize_range bd) as Hsize.
  destruct (transfer_OUT_FF_run (getPacketSize bd) w4 pkt rest ltac:(lia) Hl S4)
    as (w5 & E5 & _ & S5).
  rewrite (bind_step _ _ _ _ _ E5).
  pose proof (tracks_calm _ _ _ T4 (calm_transfer_OUT_FF _ _ _ _ E5)) as T5. clear T4.
  rewrite (bind_step (gets (fun w => rx_buf (dev w))) _ w5 _ w5 eq_refl).
  destruct (core_dev_fields _ _ (proj1 T5)) as (P5 & B5 & _).
  rewrite B5.
  destruct (Nat.leb_spec (length pkt) (length (rx_buf (dev w)))) as [_ | ?]; [| lia].
  fold buf.
  rewrite (bind_step (set_dev (set_rx_buf buf)) _ w5 tt
             (with_dev (set_rx_buf buf) w5) eq_refl).
  pose proof (tracks_set_dev (set_rx_buf buf) _ _ ltac:(intros []; reflexivity) T5) as T6.
  clear T5.
  match goal with |- context [rfm22_deassertCs ?u] => idtac | _ => idtac end.
  destruct (plumb_deassertCs (with_dev (set_rx_buf buf) w5)) as ([] & w7 & E7 & _).
  rewrite (bind_step _ _ _ _ _ E7).
  pose proof (tracks_calm _ _ _ T6 (calm_deassertCs _ _ _ E7)) as T7. clear T6.
  destruct (plumb_releaseBus w7) as ([] & w8 & E8 & _).
  rewrite (bind_step _ _ _ _ _ E8).
  pose proof (tracks_calm _ _ _ T7 (calm_releaseBus _ _ _ E8)) as T8. clear T7.
  (* the AFC value and the bookkeeping *)
  destruct (plumb_rfmGetAFCC w8) as (afcc & w9 & E9 & _).
  rewrite (bind_step _ _ _ _ _ E9).
  pose proof (tracks_calm _ _ _ T8 (calm_rfmGetAFCC _ _ _ E9)) as T9. clear T8.
  rewrite (bind_step (set_global (set_lastAFCCvalue afcc)) _ w9 tt _ eq_refl).
  pose proof (tracks_set_global (set_lastAFCCvalue afcc) _ _
                ltac:(intros []; reflexivity) T9) as T10. clear T9.
  match goal with
  | |- context [bind (PIOS_LED_Toggle hdr) _ ?u] =>
      destruct (plumb_LED u) as ([] & w11 & E11 & _);
      rewrite (bind_step _ _ _ _ _ E11)
  end.
  pose proof (tracks_calm _ _ _ T10 (calm_LED _ _ _ E11)) as T11. clear T10.
  set (t0 := hd 0 (us_clock (env w))) in *.
  rewrite (bind_step (set_global (set_lastPacketTimeUs t0)) _ w11 tt _ eq_refl).
  pose proof (tracks_set_global (set_lastPacketTimeUs t0) _ _
                ltac:(intros []; reflexivity) T11) as T12. clear T11.
  rewrite (bind_step (set_global (set_numberOfLostPackets 0)) _ _ tt _ eq_refl).
  pose proof (tracks_set_global (set_numberOfLostPackets 0) _ _
                ltac:(intros []; reflexivity) T12) as T13. clear T12.
  rewrite (bind_step
             (set_global (fun g => set_linkQuality (u16 (Z.shiftl (linkQuality g) 1)) g))
             _ _ tt _ eq_refl).
  pose proof (tracks_set_global
                (fun g => set_linkQuality (u16 (Z.shiftl (linkQuality g) 1)) g) _ _
                ltac:(intros []; reflexivity) T13) as T14. clear T13.
  rewrite (bind_step (set_global (fun g => set_linkQuality (Z.lor (linkQuality g) 1) g))
             _ _ tt _ eq_refl).
  pose proof (tracks_set_global (fun g => set_linkQuality (Z.lor (linkQuality g) 1) g) _ _
                ltac:(intros []; reflexivity) T14) as T15. clear T14.
  (* the first byte and the channels *)
  match type of T15 with tracks ?W ?u => set (W15 := W) in *; set (u15 := u) in * end.
  destruct (core_dev_fields _ _ (proj1 T15)) as (P15 & B15 & L15 & D15 & R15 & I15).
  change (rx_buf (dev W15)) with buf in B15. change (ppm (dev W15)) with (ppm (dev w)) in P15.
  change (openlrs_rcvr_id (dev W15)) with id in I15.
  rewrite (bind_step (gets (fun w => rx_buf (dev w))) _ u15 _ u15 eq_refl).
  rewrite B15, Hb0.
  rewrite (bind_step (lift (Some b0)) _ u15 b0 u15 eq_refl).
  assert (exists W16 u16,
            when (Z.land b0 62 =? 0)
              (chans0 <- gets (fun w0 : world => ppm (dev w0));;
               chans' <- lift (unpackChannels (Z.land (BindData.flags bd) 7) chans0
                                 (drop 1 buf));;
               set_dev (set_ppm chans');;
               id0 <- gets (fun w0 : world => openlrs_rcvr_id (dev w0));;
               when (negb (id0 =? 0) && hdr_PIOS_INCLUDE_OPENLRS_RCVR hdr)
                 (emit (RcvrUpdate id0 chans'))) u15 = Done tt u16 /\
            tracks W16 u16 /\
            core W16 = core (with_dev (set_ppm chans) W15) /\
            updates (trace W16) =
              updates (trace w) ++
              (if servo && negb (id =? 0) && hdr_PIOS_INCLUDE_OPENLRS_RCVR hdr
               then [(id, chans)] else []))
    as (W16 & u16 & E16 & T16 & C16 & U16).
  { unfold servo in *. destruct (Z.land b0 62 =? 0); cbn [when andb].
    - rewrite (bind_step (gets (fun w => ppm (dev w))) _ u15 _ u15 eq_refl).
      rewrite P15, Hchans.
      rewrite (bind_step (lift (Some chans)) _ u15 chans u15 eq_refl).
      rewrite (bind_step (set_dev (set_ppm chans)) _ u15 tt _ eq_refl).
      pose proof (tracks_set_dev (set_ppm chans) _ _ ltac:(intros []; reflexivity) T15)
        as T16.
      rewrite (bind_step (gets (fun w => openlrs_rcvr_id (dev w))) _ _ _ _ eq_refl).
      change (openlrs_rcvr_id (dev (with_dev (set_ppm chans) u15)))
        with (openlrs_rcvr_id (dev u15)).
      rewrite I15.
      destruct (negb (id =? 0) && hdr_PIOS_INCLUDE_OPENLRS_RCVR hdr); cbn [when].
      + do 2 eexists. split; [reflexivity |].
        split; [exact (tracks_emit (RcvrUpdate id chans) _ _ T16) |].
        split; [reflexivity |].
        cbn [with_trace trace]. unfold updates. rewrite omap_app. reflexivity.
      + do 2 eexists. split; [reflexivity |]. split; [exact T16 |].
        split; [reflexivity |]. cbn [with_dev trace]. rewrite app_nil_r. reflexivity.
    - subst chans. do 2 eexists. split; [reflexivity |]. split; [exact T15 |].
      split; [| rewrite app_nil_r; reflexivity].
      unfold W15. destruct w as [[] ? ? ?]. reflexivity. }
  rewrite (bind_step _ _ _ _ _ E16).
  (* the link, the mode, the receiver, the hop *)
  rewrite (bind_step
             (set_dev (fun d => set_link_acquired (link_acquired d || true) d))
             _ u16 tt _ eq_refl).
  pose proof (tracks_set_dev (fun d => set_link_acquired (link_acquired d || true) d) _ _
                ltac:(intros []; reflexivity) T16) as T17.
  rewrite (bind_step (set_dev (set_rf_mode Receive)) _ _ tt _ eq_refl).
  pose proof (tracks_mode Receive _ _ T17) as T18.
  match goal with
  | |- context [bind (rx_reset hdr) _ ?u] =>
      destruct (plumb_rx_reset u) as ([] & w19 & E19 & (_ & M19 & _));
      rewrite (bind_step _ _ _ _ _ E19)
  end.
  pose proof (tracks_calm _ _ _ T18 (calm_rx_reset _ _ _ E19)) as T19.
  unfold set_global, modify.
  eexists. split; [reflexivity |].
  pose proof (tracks_set_global (set_willhop true) _ _ ltac:(intros []; reflexivity) T19)
    as T20.
  match type of T20 with tracks ?W ?u => set (W20 := W) in *; set (u20 := u) in * end.
  assert (core u20 =
          core (with_globals (set_willhop true)
                  (with_dev (fun d => set_link_acquired (link_acquired d || true) d)
                     (with_dev (set_ppm chans) W15)))) as C20.
  { rewrite (proj1 T20). unfold W20.
    apply core_with_globals; [intros []; reflexivity |].
    apply core_with_dev; [intros []; reflexivity | exact C16]. }
  assert (updates (trace u20) =
          updates (trace w) ++
          (if servo && negb (id =? 0) && hdr_PIOS_INCLUDE_OPENLRS_RCVR hdr
           then [(id, chans)] else [])) as U20.
  { rewrite (proj2 T20). exact U16. }
  destruct (core_dev_fields _ _ C20) as (F1 & F2 & F3 & F4 & F5 & _).
  destruct (core_global_fields _ _ C20) as (G1 & G2 & G3 & G4 & G5 & _ & G7 & G8 & G9 & _).
  unfold W15 in F1, F2, F3, F4, F5, G1, G2, G3, G4, G5, G7, G8, G9.
  cbn [with_globals with_dev dev globals ppm rx_buf link_acquired bind_data rf_channel
       set_ppm set_rx_buf set_link_acquired
       lastPacketTimeUs numberOfLostPackets linkQuality willhop hopcount
       RSSI_sum RSSI_count smoothRSSI
       set_willhop set_linkQuality set_numberOfLostPackets set_lastPacketTimeUs
       set_lastAFCCvalue] in F1, F2, F3, F4, F5, G1, G2, G3, G4, G5, G7, G8, G9.
  rewrite orb_true_r in F3.
  split.
  { unfold u20. cbn [with_globals dev]. rewrite M19. reflexivity. }
  repeat (split; [assumption |]). exact U20.
Qed.

(** ** Binding without a time limit *)

Lemma bind_receive_packet_accept (w w' : world) (v : Z) :
  bind_receive_packet hdr w = Done (Some v) w' ->
  v = 1 /\ BindData.version (bind_data (dev w')) = hdr_BINDING_VERSION hdr.
Proof.
  intros E. unfold bind_receive_packet in E.
  apply bind_Done in E as (? & w1 & _ & E).
  apply bind_Done in E as (? & w2 & _ & E).
  apply bind_Done in E as (? & w3 & _ & E).
  apply bind_Done in E as (rxb & w4 & _ & E).
  apply bind_Done in E as (acc & w5 & E5 & E).
  destruct acc.
  2: { repeat (apply bind_Done in E as (? & ? & _ & E)). inversion E. }
  inversion E; subst; clear E. split; [reflexivity |].
  destruct (u8 rxb =? 98).
  2: { repeat (apply bind_Done in E5 as (? & ? & _ & E5)). inversion E5. }
  apply bind_Done in E5 as (blk & w6 & _ & E5).
  apply bind_Done in E5 as (? & w7 & _ & E5).
  apply bind_Done in E5 as (? & w8 & _ & E5).
  apply bind_Done in E5 as (? & w9 & _ & E5).
  apply bind_Done in E5 as (? & w10 & _ & E5).
  apply bind_Done in E5 as (? & w11 & _ & E5).
  apply bind_Done in E5 as (bd & w12 & E12 & E5). inversion E12; subst; clear E12.
  destruct (Z.eqb_spec (BindData.version (bind_data (dev w12))) (hdr_BINDING_VERSION hdr))
    as [Hv | _]; [| inversion E5].
  assert (post same_bind_data
            (tx_packet hdr [66] 1;;
             binding <- lift (binding_of hdr (bind_data (dev w12)));;
             emit (UavoSet binding);;
             emit UavoSave;;
             PIOS_LED_Toggle hdr;;
             ret true)) as Hpost by post_bd.
  rewrite (Hpost _ _ _ E5). exact Hv.
Qed.

Lemma bind_receive_turn_accept (i : Z) (w w' : world) (v : Z) :
  bind_receive_turn hdr i w = Done (inr v) w' ->
  v = 1 /\ BindData.version (bind_data (dev w')) = hdr_BINDING_VERSION hdr.
Proof.
  intros E. unfold bind_receive_turn in E.
  apply bind_Done in E as (? & w1 & _ & E).
  apply bind_Done in E as (? & w2 & _ & E).
  apply bind_Done in E as (? & w3 & _ & E).
  apply bind_Done in E as (mode & w4 & _ & E).
  destruct (RF_MODE_eqb mode Received); [| inversion E].
  apply bind_Done in E as (r & w5 & E5 & E).
  destruct r as [v' |]; inversion E; subst; clear E.
  exact (bind_receive_packet_accept _ _ _ E5).
Qed.

Lemma bind_receive_loop_accept (fuel : nat) :
  forall (i : Z) (w w' : world) (r : Z + Z),
    loop fuel i (fun _ => ret true) (bind_receive_turn hdr) w = Done r w' ->
    r = inr 1 /\ BindData.version (bind_data (dev w')) = hdr_BINDING_VERSION hdr.
Proof.
  induction fuel as [| fuel IH]; intros i w w' r E; cbn [loop] in E; [discriminate |].
  apply bind_Done in E as (c & w1 & E1 & E). inversion E1; subst; clear E1.
  apply bind_Done in E as (r1 & w2 & E2 & E).
  destruct r1 as [i' | v].
  - exact (IH _ _ _ _ E).
  - inversion E; subst; clear E.
    destruct (bind_receive_turn_accept _ _ _ _ E2) as (-> & Hv). split; [reflexivity | exact Hv].
Qed.

Lemma bind_receive_accept (w w' : world) (r : Z) :
  pios_openlrs_bind_receive hdr 0 w = Done r w' ->
  r = 1 /\ BindData.version (bind_data (dev w')) = hdr_BINDING_VERSION hdr.
Proof.
  intros E. unfold pios_openlrs_bind_receive in E.
  apply bind_Done in E as (start & w1 & _ & E).
  apply bind_Done in E as (? & w2 & _ & E).
  apply bind_Done in E as (? & w3 & _ & E).
  apply bind_Done in E as (? & w4 & _ & E).
  apply bind_Done in E as (res & w5 & E5 & E).
  unfold while_ in E5. cbn [Z.eqb] in E5.
  destruct (bind_receive_loop_accept _ _ _ _ _ E5) as (-> & Hv).
  inversion E; subst. split; [reflexivity | exact Hv].
Qed.

(** X15.  Binding without a time limit ends only with a bind.  Called
    with [timeout == 0], as [pios_openlrs_setup] does,
    [pios_openlrs_bind_receive] never returns 0: whenever it returns, it
    returns 1 and [bind_data] holds a block of version [BINDING_VERSION].
    Packets that do not start with ['b'] and blocks of another version
    keep it listening. *)
Theorem bind_receive_untimed (w w' : world) (r : Z) :
  pios_openlrs_bind_receive hdr 0 w = Done r w' ->
  r = 1 /\ BindData.version (bind_data (dev w')) = hdr_BINDING_VERSION hdr.
Proof. exact (bind_receive_accept w w' r). Qed.

Lemma bd_setup_tail :
  post same_bind_data
    (init_rfm hdr false;;
     set_dev (set_rf_channel 0);;
     ch <- gets (fun w => rf_channel (dev w));;
     rfmSetChannel ch;;
     hc <- count_hops hdr 257 0;;
     set_global (set_hopcount hc);;
     set_dev (set_rf_mode Receive);;
     to_rx_mode hdr;;
     set_dev (set_link_acquired false);;
     t <- micros;;
     set_global (set_lastPacketTimeUs t)).
Proof.
  assert (forall n hc, post same_bind_data (count_hops hdr n hc)) as Hcount.
  { induction n; intros; cbn [count_hops]; post_bd. }
  post_bd.
Qed.

(** X16.  The receiver starts only when bound.  When the task has passed
    [pios_openlrs_setup], [bind_data] has version [BINDING_VERSION]: bind
    data that had this version at the start are used as they are, and
    otherwise the task has listened for a bind packet until one of this
    version came. *)
Theorem task_start_bound (not_null : bool) (w w' : world) :
  task_start hdr not_null w = Done true w' ->
  BindData.version (bind_data (dev w')) = hdr_BINDING_VERSION hdr /\
  (BindData.version (bind_data (dev w)) = hdr_BINDING_VERSION hdr ->
   bind_data (dev w') = bind_data (dev w)).
Proof.
  intros E. unfold task_start in E.
  apply bind_Done in E as (ok & w1 & E1 & E).
  assert (w1 = w) as ->.
  { unfold pios_openlrs_validate in E1. apply bind_Done in E1 as (? & ? & A & B).
    inversion A; subst. inversion B; subst. reflexivity. }
  destruct ok; cbn [negb] in E; [| inversion E].
  apply bind_Done in E as (v & w2 & E2 & E). inversion E2; subst; clear E2.
  apply bind_Done in E as ([] & w3 & E3 & E). inversion E; subst; clear E.
  unfold pios_openlrs_setup in E3.
  apply bind_Done in E3 as ([] & w4 & E4 & E3).
  pose proof (core_bind_data _ (core_Sleep 5) _ _ _ E4) as B4. unfold same_bind_data in B4.
  apply bind_Done in E3 as ([] & w5 & E5 & E3).
  pose proof (bd_setup_tail _ _ _ E3) as B3. unfold same_bind_data in B3.
  destruct (Z.eqb_spec (BindData.version (bind_data (dev w2))) (hdr_BINDING_VERSION hdr))
    as [Hv | Hv]; cbn [negb when] in E5.
  - inversion E5; subst; clear E5. rewrite B3, B4. split; [exact Hv | reflexivity].
  - apply bind_Done in E5 as (r & w6 & E6 & E5). inversion E5; subst; clear E5.
    destruct (bind_receive_accept _ _ _ E6) as (_ & Hv').
    rewrite B3. split; [exact Hv' | intros; contradiction].
Qed.

(** ** The acknowledgement times out *)

Instance keeps_time_preorder : PreOrder keeps_time.
Proof.
  split.
  - intros w. repeat split.
  - intros a b c (A1 & A2 & A3 & A4) (B1 & B2 & B3 & B4). repeat split; congruence.
Qed.

Ltac post_time := repeat post_step; try (repeat split; reflexivity).

Lemma time_spi_byte : post keeps_time spi_byte.
Proof. intros [d g e t] a w' H. inversion H; subst. repeat split. Qed.
Hint Resolve time_spi_byte : drv.
Lemma time_spi_bytes n : post keeps_time (spi_bytes n).
Proof. induction n; cbn [spi_bytes]; post_time. Qed.
Hint Resolve time_spi_bytes : drv.
Lemma time_assertCs : post keeps_time rfm22_assertCs.
Proof. unfold rfm22_assertCs. post_time. Qed.
Lemma time_deassertCs : post keeps_time rfm22_deassertCs.
Proof. unfold rfm22_deassertCs. post_time. Qed.
Lemma time_claimBus : post keeps_time rfm22_claimBus.
Proof. unfold rfm22_claimBus. post_time. Qed.
Lemma time_releaseBus : post keeps_time rfm22_releaseBus.
Proof. unfold rfm22_releaseBus. post_time. Qed.
Hint Resolve time_assertCs time_deassertCs time_claimBus time_releaseBus : drv.
Lemma time_write a d : post keeps_time (rfm22_write a d).
Proof. unfold rfm22_write, PIOS_SPI_TransferBlock_tx. post_time. Qed.
Lemma time_read a : post keeps_time (rfm22_read a).
Proof. unfold rfm22_read, PIOS_SPI_TransferBlock_rx. post_time. Qed.
Hint Resolve time_write time_read : drv.
Lemma time_tx_fifo n : forall i pkt, post keeps_time (tx_fifo n i pkt).
Proof. induction n; intros; cbn [tx_fifo]; post_time. Qed.
Hint Resolve time_tx_fifo : drv.

(** [tx_packet_async] reads the clock once, into [tx_start]. *)
Lemma tx_packet_async_clock (pkt : list Z) (size : Z) (w w' : world) :
  tx_packet_async hdr pkt size w = Done tt w' ->
  us_clock (env w') = tl (us_clock (env w)) /\
  irq_script (env w') = irq_script (env w) /\
  tx_start (globals w') = hd 0 (us_clock (env w)) /\
  rf_mode (dev w') = Transmit.
Proof.
  intros E. unfold tx_packet_async in E.
  assert (post keeps_time
            (rfm22_claimBus;;
             rfm22_write RFM22.transmit_packet_length size;;
             tx_fifo (Z.to_nat (u8 size)) 0 pkt;;
             rfm22_write RFM22.interrupt_enable1 (hdr_RFM22_ie1_enpksent hdr);;
             s1 <- rfm22_read RFM22.interrupt_status1;;
             set_dev (set_it_status1 s1);;
             s2 <- rfm22_read RFM22.interrupt_status2;;
             set_dev (set_it_status2 s2))) as Hpre by post_time.
  assert (post keeps_time
            (rfm22_write RFM22.op_and_func_ctrl1
               (Z.lor (hdr_RFM22_opfc1_txon hdr) (hdr_RFM22_opfc1_xton hdr));;
             rfm22_releaseBus)) as Hsuf by post_time.
  apply bind_Done in E as ([] & w1 & E1 & E).
  apply bind_Done in E as ([] & w2 & E2 & E).
  apply bind_Done in E as ([] & w3 & E3 & E).
  apply bind_Done in E as ([] & w4 & E4 & E).
  apply bind_Done in E as (s1 & w5 & E5 & E).
  apply bind_Done in E as ([] & w6 & E6 & E).
  apply bind_Done in E as (s2 & w7 & E7 & E).
  apply bind_Done in E as ([] & w8 & E8 & E).
  apply bind_Done in E as (t & w9 & E9 & E).
  apply bind_Done in E as ([] & w10 & E10 & E).
  apply bind_Done in E as ([] & w11 & E11 & E).
  apply bind_Done in E as ([] & w12 & E12 & E).
  assert (keeps_time w w8) as (A1 & A2 & A3 & A4).
  { apply (Hpre w tt w8). unfold bind.
    rewrite E1, E2, E3, E4, E5, E6, E7. exact E8. }
  assert (keeps_time w10 w12) as (B1 & B2 & B3 & B4).
  { apply (Hsuf w10 tt w12). unfold bind. rewrite E11. exact E12. }
  assert (t = hd 0 (us_clock (env w8)) /\ us_clock (env w9) = tl (us_clock (env w8)) /\
          irq_script (env w9) = irq_script (env w8)) as (-> & M1 & M2).
  { destruct w8 as [d8 g8 e8 t8]. inversion E9; subst. repeat split. }
  inversion E; subst; clear E. inversion E10; subst; clear E10.
  cbn [with_dev with_globals dev globals env rf_mode set_rf_mode tx_start set_tx_start]
    in *.
  split; [congruence |]. split; [congruence |]. split; [| reflexivity].
  rewrite B3. cbn. congruence.
Qed.

Lemma tx_pending_clock (w : world) (t : Z) (more : list Z) :
  rf_mode (dev w) = Transmit ->
  us_clock (env w) = t :: more ->
  exists w',
    tx_pending w = Done (u32 (t - tx_start (globals w)) <? 100000) w' /\
    dev w' = dev w /\ globals w' = globals w /\ trace w' = trace w /\
    us_clock (env w') = more /\ irq_script (env w') = irq_script (env w).
Proof.
  destruct w as [d g e tr]. cbn [dev globals env trace]. intros Hm Hc.
  unfold tx_pending. unfold_monad. cbn. rewrite Hm. cbn. rewrite Hc. cbn.
  eexists. split; [reflexivity |]. repeat split; cbn; rewrite ?Hc; reflexivity.
Qed.

Lemma Sleep_undisturbed (ms : Z) (w : world) (rest : list bool) :
  irq_script (env w) = false :: rest ->
  exists w',
    PIOS_Thread_Sleep hdr ms w = Done tt w' /\
    dev w' = dev w /\ globals w' = globals w /\
    us_clock (env w') = us_clock (env w) /\ irq_script (env w') = rest.
Proof.
  destruct w as [d g e tr]. cbn [dev globals env trace]. intros Hs.
  unfold PIOS_Thread_Sleep, next_irq. unfold_monad. cbn. rewrite Hs. cbn.
  eexists. split; [reflexivity |]. repeat split.
Qed.

Lemma WDG_run (w : world) :
  exists w',
    PIOS_WDG_UpdateFlag hdr w = Done tt w' /\
    dev w' = dev w /\ globals w' = globals w /\ env w' = env w.
Proof.
  destruct w as [d g e tr]. unfold PIOS_WDG_UpdateFlag. unfold_monad.
  destruct (hdr_PIOS_WDG_RFM22B hdr); cbn; eexists; (split; [reflexivity |]); repeat split.
Qed.

(** Without an interrupt the waiting loop of [tx_packet] runs until the
    clock is 100 ms past [tx_start]. *)
Lemma tx_wait_timeout (ts : list Z) :
  forall (fuel : nat) (w : world) (late : Z) (more : list Z) (rest : list bool),
    (length ts < fuel)%nat ->
    rf_mode (dev w) = Transmit ->
    us_clock (env w) = ts ++ late :: more ->
    irq_script (env w) = replicate (length ts) false ++ rest ->
    Forall (fun t => u32 (t - tx_start (globals w)) < 100000) ts ->
    100000 <= u32 (late - tx_start (globals w)) ->
    exists w',
      loop fuel tt (fun _ => tx_pending)
        (fun _ => PIOS_Thread_Sleep hdr 1;; PIOS_WDG_UpdateFlag hdr;; ret (inl tt : unit + unit)) w
      = Done (inl tt) w' /\
      dev w' = dev w /\ globals w' = globals w /\
      us_clock (env w') = more /\ irq_script (env w') = rest.
Proof.
  induction ts as [| t ts IH]; intros fuel w late more rest Hfuel Hm Hc Hs Hts Hlate;
    (destruct fuel as [| fuel]; [cbn in Hfuel; lia |]); cbn [loop].
  - cbn [app length replicate] in Hc, Hs.
    destruct (tx_pending_clock w late more Hm Hc) as (w1 & E1 & D1 & G1 & _ & C1 & S1).
    rewrite (bind_step _ _ _ _ _ E1).
    destruct (Z.ltb_spec (u32 (late - tx_start (globals w))) 100000) as [? | _]; [lia |].
    eexists. split; [reflexivity |]. repeat split; congruence.
  - cbn [app length replicate] in Hc, Hs.
    destruct (tx_pending_clock w t (ts ++ late :: more) Hm Hc)
      as (w1 & E1 & D1 & G1 & _ & C1 & S1).
    rewrite (bind_step _ _ _ _ _ E1).
    inversion Hts as [| ? ? Ht Hts']; subst.
    destruct (Z.ltb_spec (u32 (t - tx_start (globals w))) 100000) as [_ | ?]; [| lia].
    destruct (Sleep_undisturbed 1 w1 (replicate (length ts) false ++ rest)
                ltac:(congruence)) as (w2 & E2 & D2 & G2 & C2 & S2).
    destruct (WDG_run w2) as (w3 & E3 & D3 & G3 & V3).
    rewrite (bind_step _ _ w1 (inl tt) w3).
    2: { unfold bind. rewrite E2, E3. reflexivity. }
    destruct (IH fuel w3 late more rest) as (w4 & E4 & D4 & G4 & C4 & S4).
    + cbn in Hfuel. lia.
    + congruence.
    + rewrite V3. congruence.
    + rewrite V3. congruence.
    + rewrite G3, G2, G1. exact Hts'.
    + rewrite G3, G2, G1. exact Hlate.
    + exists w4. split; [exact E4 |]. repeat split; congruence.
Qed.

Lemma tx_packet_timeout (w : world) (t0 late : Z) (ts more : list Z) (rest : list bool) :
  us_clock (env w) = t0 :: ts ++ late :: more ->
  irq_script (env w) = replicate (length ts) false ++ rest ->
  Forall (fun t => u32 (t - t0) < 100000) ts ->
  100000 <= u32 (late - t0) ->
  exists w',
    tx_packet hdr [66] 1 w = Done tt w' /\
    rf_mode (dev w') = Transmit /\
    tx_start (globals w') = t0 /\
    us_clock (env w') = more /\
    irq_script (env w') = rest /\
    same_core w w'.
Proof.
  intros Hc Hs Hts Hlate. unfold tx_packet.
  destruct (tx_packet_async_ack w) as (w1 & E1 & C1 & M1 & _).
  destruct (tx_packet_async_clock _ _ _ _ E1) as (K1 & S1 & T1 & _).
  rewrite Hc in K1, T1. cbn [hd tl] in K1, T1. rewrite Hs in S1.
  rewrite (bind_step _ _ _ _ _ E1). unfold bind at 1. unfold while_.
  destruct (tx_wait_timeout ts (S (length (irq_script (env w1)))) w1 late more rest)
    as (w2 & E2 & D2 & G2 & C2 & S2).
  - rewrite S1, length_app, length_replicate. lia.
  - exact M1.
  - exact K1.
  - exact S1.
  - rewrite T1. exact Hts.
  - rewrite T1. exact Hlate.
  - rewrite E2. unfold ret.
    eexists. split; [reflexivity |].
    split; [congruence |]. split; [congruence |]. split; [exact C2 |].
    split; [exact S2 |].
    unfold same_core in *. rewrite <- C1. unfold core. rewrite D2, G2. reflexivity.
Qed.

(** X17.  The acknowledgement of a bind gives up after 100 ms.  When the
    radio raises no interrupt, [tx_packet] sleeps one millisecond at a
    time for as long as the clock readings are less than 100000 us past
    the reading taken before the transmission started, and returns at the
    first reading that is not; the mode is then still [Transmit], nothing
    reports the failure, and the driver's state is as before outside the
    bookkeeping of the transmission ([rf_mode], [tx_start], the interrupt
    status bytes and the interrupt count). *)
Theorem ack_times_out (w : world) (t0 late : Z) (ts more : list Z) (rest : list bool) :
  us_clock (env w) = t0 :: ts ++ late :: more ->
  irq_script (env w) = replicate (length ts) false ++ rest ->
  Forall (fun t => u32 (t - t0) < 100000) ts ->
  100000 <= u32 (late - t0) ->
  exists w',
    tx_packet hdr [66] 1 w = Done tt w' /\
    rf_mode (dev w') = Transmit /\
    tx_start (globals w') = t0 /\
    us_clock (env w') = more /\
    irq_script (env w') = rest /\
    same_core w w'.
Proof. exact (tx_packet_timeout w t0 late ts more rest). Qed.

(** ** The channels come from the packet *)

Lemma unpack_group_agree (PPM : list Z) (o : nat) (p p' : list Z) (q : nat) :
  (forall i, (i < q + 5)%nat -> p !! i = p' !! i) ->
  unpack_group PPM o p q = unpack_group PPM o p' q.
Proof.
  intros H. unfold unpack_group.
  rewrite (H q), (H (q + 1)%nat), (H (q + 2)%nat), (H (q + 3)%nat), (H (q + 4)%nat) by lia.
  reflexivity.
Qed.

Lemma unpack_loop_agree (n : nat) :
  forall (PPM : list Z) (o : nat) (p p' : list Z) (q : nat),
    (forall i, (i < q + 5 * n)%nat -> p !! i = p' !! i) ->
    unpack_loop n PPM o p q = unpack_loop n PPM o p' q.
Proof.
  induction n as [| n IH]; intros PPM o p p' q H; cbn [unpack_loop]; [reflexivity |].
  rewrite (unpack_group_agree PPM o p p' q) by (intros i Hi; apply H; lia).
  destruct (unpack_group PPM o p' q) as [r |]; cbn; [| reflexivity].
  apply IH. intros i Hi. apply H. lia.
Qed.

Lemma unpack_loop_offset (n : nat) :
  forall (PPM : list Z) (o : nat) (p : list Z) (q : nat) r o' q',
    unpack_loop n PPM o p q = Some (r, o', q') -> q' = (q + 5 * n)%nat.
Proof.
  induction n as [| n IH]; intros PPM o p q r o' q' H; cbn [unpack_loop] in H.
  - injection H as _ _ <-. lia.
  - destruct (unpack_group PPM o p q) as [r1 |]; cbn in H; [| discriminate].
    rewrite (IH _ _ _ _ _ _ _ H). lia.
Qed.

(** X18.  [unpackChannels] reads the packet and nothing behind it.  For
    a configuration from 1 to 6 the bytes it reads are the
    [getPacketSize - 1] bytes that follow the first byte of a packet of
    the configured size, five for each group of channels and one for the
    coarse channels: two payloads that agree on these bytes are decoded
    alike, and fail alike. *)
Theorem unpack_reads_packet (config : Z) (PPM p p' : list Z) :
  1 <= config <= 6 ->
  let size := nth (Z.to_nat config) pktsizes 0 in
  size - 1 = 5 * (config / 2 + 1) + config mod 2 /\
  (take (Z.to_nat (size - 1)) p = take (Z.to_nat (size - 1)) p' ->
   unpackChannels config PPM p = unpackChannels config PPM p').
Proof.
  intros Hc size.
  assert (size - 1 = 5 * (config / 2 + 1) + config mod 2 /\
          Z.to_nat (size - 1)
          = (5 * Z.to_nat (u8 config / 2 + 1)
             + (if (Z.land (u8 config) 1 =? 0)%Z then 0 else 1))%nat) as (Hsize & Hk).
  { unfold size.
    assert (config = 1 \/ config = 2 \/ config = 3 \/ config = 4 \/ config = 5 \/ config = 6)
      as [-> | [-> | [-> | [-> | [-> | ->]]]]] by lia;
      split; reflexivity. }
  split; [exact Hsize |]. intros Htake.
  assert (forall i, (i < Z.to_nat (size - 1))%nat -> p !! i = p' !! i) as Hagree.
  { intros i Hi.
    rewrite <- (lookup_take_lt p (Z.to_nat (size - 1)) i Hi).
    rewrite <- (lookup_take_lt p' (Z.to_nat (size - 1)) i Hi).
    rewrite Htake. reflexivity. }
  rewrite Hk in Hagree. clear Hk Htake.
  unfold unpackChannels.
  set (n := Z.to_nat (u8 config / 2 + 1)) in *.
  rewrite (unpack_loop_agree n PPM 0 p p' 0) by (intros i Hi; apply Hagree; lia).
  destruct (unpack_loop n PPM 0 p' 0) as [[[r o] q] |] eqn:El; cbn; [| reflexivity].
  pose proof (unpack_loop_offset _ _ _ _ _ _ _ _ El) as ->.
  destruct (Z.land (u8 config) 1 =? 0); [reflexivity |].
  unfold unpack_coarse. rewrite (Hagree (0 + 5 * n)%nat) by lia. reflexivity.
Qed.

(** ** The version string *)

Lemma nibble_range (x : Z) : 0 <= Z.land x 0x0f < 16.
Proof.
  change 0x0f with (Z.ones 4). rewrite Z.land_ones by lia.
  apply Z.mod_pos_bound. lia.
Qed.

(** X19.  The version string is a safe format.  For every version word,
    [printVersion] builds five characters, or seven when the low nibble is
    not zero, so that the string with its NUL fits the eight bytes of
    [ver]; the string ends in CR and LF; and no character is a ['%'] or a
    NUL (each nibble is printed as ['0'] plus its value, one of
    [0123456789:;<=>?]), so that the string is printed as it is when it is
    used as a format. *)
Theorem printVersion_format (v : Z) :
  let s := printVersion v in
  length s = (if (Z.land (u16 v) 0x0f =? 0)%Z then 5 else 7)%nat /\
  (length s + 1 <= 8)%nat /\
  drop (length s - 2) s = [13; 10] /\
  Forall (fun c => 0 < c < 64 /\ c <> 37) s.
Proof.
  cbv zeta. unfold printVersion.
  pose proof (nibble_range (Z.shiftr (u16 v) 8)) as H1.
  pose proof (nibble_range (Z.shiftr (u16 v) 4)) as H2.
  pose proof (nibble_range (u16 v)) as H3.
  destruct (Z.land (u16 v) 15 =? 0); cbn [length].
  - split; [reflexivity |]. split; [lia |]. split; [reflexivity |].
    repeat (constructor; [lia |]). constructor.
  - split; [reflexivity |]. split; [lia |]. split; [reflexivity |].
    repeat (constructor; [lia |]). constructor.
Qed.

(** ** The task does not return *)

Lemma endless_loop (fuel : nat) (w w' : world) (r : unit + unit) :
  loop fuel tt (fun _ => ret true) (fun _ => task_turn hdr;; ret (inl tt)) w = Done r w' ->
  False.
Proof.
  revert w. induction fuel as [| fuel IH]; intros w E; cbn [loop] in E; [discriminate |].
  apply bind_Done in E as (c & w1 & E1 & E). inversion E1; subst; clear E1.
  apply bind_Done in E as (r1 & w2 & E2 & E).
  apply bind_Done in E2 as ([] & w3 & _ & E2). inversion E2; subst; clear E2.
  exact (IH _ E).
Qed.

(** X20.  The task returns only from its first test.  [pios_openlrs_task]
    returns, without having done anything, when its parameter is [NULL] or
    does not carry the magic number; with a valid device it never returns:
    neither setup nor any scheduler iteration leaves the function. *)
Theorem task_never_returns (not_null : bool) (w w' : world) :
  pios_openlrs_task hdr not_null w = Done tt w' ->
  not_null && (magic (dev w) =? hdr_PIOS_OPENLRS_DEV_MAGIC hdr) = false /\ w' = w.
Proof.
  intros E. unfold pios_openlrs_task in E.
  apply bind_Done in E as (ok & w1 & E1 & E).
  unfold task_start in E1.
  apply bind_Done in E1 as (ok' & w2 & E2 & E1).
  assert (w2 = w /\ ok' = not_null && (magic (dev w) =? hdr_PIOS_OPENLRS_DEV_MAGIC hdr))
    as (-> & ->).
  { unfold pios_openlrs_validate in E2. apply bind_Done in E2 as (? & ? & A & B).
    inversion A; subst. inversion B; subst. split; reflexivity. }
  destruct (not_null && (magic (dev w) =? hdr_PIOS_OPENLRS_DEV_MAGIC hdr)); cbn [negb] in E1.
  - exfalso.
    apply bind_Done in E1 as (v & w3 & _ & E1).
    apply bind_Done in E1 as ([] & w4 & _ & E1). inversion E1; subst; clear E1.
    cbn [when] in E. apply bind_Done in E as (r & w5 & E5 & _).
    unfold while_ in E5. exact (endless_loop _ _ _ _ E5).
  - inversion E1; subst; clear E1. cbn [when] in E. inversion E; subst.
    split; reflexivity.
Qed.

(** ** The register image of [init_rfm] *)

Lemma reg_writes_app (a b : list event) : reg_writes (a ++ b) = reg_writes a ++ reg_writes b.
Proof. apply omap_app. Qed.

Lemma writes_rel_refl w : writes_rel [] w w.
Proof. exists []. rewrite app_nil_r. split; reflexivity. Qed.

Lemma writes_rel_trans l1 l2 w1 w2 w3 :
  writes_rel l1 w1 w2 -> writes_rel l2 w2 w3 -> writes_rel (l1 ++ l2) w1 w3.
Proof.
  intros (e1 & T1 & R1) (e2 & T2 & R2). exists (e1 ++ e2).
  split; [rewrite T2, T1, app_assoc; reflexivity |].
  rewrite reg_writes_app, R1, R2. reflexivity.
Qed.

Lemma wr_ret {A} (a : A) : writes_post [] (ret a).
Proof. intros w x w' H. inversion H; subst. apply writes_rel_refl. Qed.

Lemma wr_gets {A} (f : world -> A) : writes_post [] (gets f).
Proof. intros w x w' H. inversion H; subst. apply writes_rel_refl. Qed.

Lemma wr_undefined {A} l : writes_post l (@undefined A).
Proof. intros w x w' H. discriminate. Qed.

Lemma wr_lift {A} (o : option A) : writes_post [] (lift o).
Proof. destruct o; [apply wr_ret | apply wr_undefined]. Qed.

Lemma wr_bind {A B} l1 l2 l (m : M A) (k : A -> M B) :
  writes_post l1 m -> (forall a, writes_post l2 (k a)) -> l = l1 ++ l2 ->
  writes_post l (bind m k).
Proof.
  intros Hm Hk -> w b w'' H.
  destruct (bind_Done _ _ _ _ _ H) as (a & w' & H1 & H2).
  exact (writes_rel_trans _ _ _ _ _ (Hm _ _ _ H1) (Hk _ _ _ _ H2)).
Qed.

Lemma wr_when (b : bool) (m : M unit) : writes_post [] m -> writes_post [] (when b m).
Proof. intros Hm. destruct b; [exact Hm | apply wr_ret]. Qed.

Lemma wr_silent {A} (m : M A) :
  (forall w a w', m w = Done a w' -> trace w' = trace w) -> writes_post [] m.
Proof.
  intros Hm w a w' H. exists []. rewrite app_nil_r. split; [exact (Hm _ _ _ H) | reflexivity].
Qed.

Lemma wr_modify (f : world -> world) :
  (forall w, trace (f w) = trace w) -> writes_post [] (modify f).
Proof. intros Hf. apply wr_silent. intros w a w' H. inversion H; subst. apply Hf. Qed.

Lemma wr_emit (e : event) l :
  reg_writes [e] = l -> writes_post l (emit e).
Proof.
  intros <- w a w' H. inversion H; subst. exists [e]. split; reflexivity.
Qed.

(** One step of the syntax-directed computation of the writes of a run;
    the lists are put together at the end. *)
Ltac wr_step :=
  lazymatch goal with
  | |- writes_post _ (bind _ _) => eapply wr_bind; [| intros ? |]
  | |- writes_post _ (ret _) => apply wr_ret
  | |- writes_post _ (gets _) => apply wr_gets
  | |- writes_post _ (lift _) => apply wr_lift
  | |- writes_post _ (when _ _) => apply wr_when
  | |- writes_post _ (modify _) => apply wr_modify; intros [? ? ? ?]; reflexivity
  | |- writes_post _ (set_dev _) => apply wr_modify; intros [? ? ? ?]; reflexivity
  | |- writes_post _ (set_global _) => apply wr_modify; intros [? ? ? ?]; reflexivity
  | |- writes_post _ (emit _) => apply wr_emit; reflexivity
  | |- _ = ?r => tryif has_evar r then fail else reflexivity
  | |- writes_post _ _ => solve [eauto with regs]
  end.

Ltac wr_go := repeat wr_step.

Lemma wr_claimBus : writes_post [] rfm22_claimBus.
Proof. unfold rfm22_claimBus. wr_go. Qed.
Lemma wr_releaseBus : writes_post [] rfm22_releaseBus.
Proof. unfold rfm22_releaseBus. wr_go. Qed.
Lemma wr_assertCs : writes_post [] rfm22_assertCs.
Proof. unfold rfm22_assertCs. wr_go. Qed.
Lemma wr_deassertCs : writes_post [] rfm22_deassertCs.
Proof. unfold rfm22_deassertCs. wr_go. Qed.
Hint Resolve wr_claimBus wr_releaseBus wr_assertCs wr_deassertCs : regs.

Lemma wr_spi_bytes n : writes_post [] (spi_bytes n).
Proof.
  apply wr_silent. induction n as [| n IH]; intros w a w' H; cbn [spi_bytes] in H.
  - inversion H; subst. reflexivity.
  - apply bind_Done in H as (b & w1 & H1 & H).
    apply bind_Done in H as (bs & w2 & H2 & H). inversion H; subst; clear H.
    rewrite (IH _ _ _ H2). destruct w as [d g e t]. inversion H1; subst. reflexivity.
Qed.
Hint Resolve wr_spi_bytes : regs.

Lemma wr_read a : writes_post [] (rfm22_read a).
Proof. unfold rfm22_read, PIOS_SPI_TransferBlock_rx. wr_go. Qed.
Hint Resolve wr_read : regs.

Lemma write_address (a : Z) : 0 <= a < 0x80 -> u8 (Z.lor (u8 a) 0x80) = a + 0x80.
Proof.
  intros Ha. rewrite (u8_small a) by lia.
  assert (Z.lor a 0x80 = a + 0x80) as ->; [| apply u8_small; lia].
  pose proof (Z.add_lor_land a 0x80) as Hl.
  assert (Z.land a 0x80 = 0) as Hz; [| lia].
  apply Z.bits_inj'; intros n Hn. rewrite Z.land_spec, Z.bits_0.
  destruct (Z.eq_dec n 7) as [-> | Hne].
  - destruct (Z.eq_dec a 0) as [-> | Hnz]; [reflexivity |].
    rewrite (Z.bits_above_log2 a 7); [reflexivity | lia |].
    apply Z.log2_lt_pow2; lia.
  - change 128 with (2 ^ 7). rewrite Z.pow2_bits_false by lia.
    apply andb_false_r.
Qed.

Lemma wr_write (a d : Z) :
  0 <= a < 0x80 -> writes_post [(a, u8 d)] (rfm22_write a d).
Proof.
  intros Ha. unfold rfm22_write, PIOS_SPI_TransferBlock_tx.
  assert (reg_writes [TransferBlock [u8 (Z.lor (u8 a) 0x80); u8 d] false] = [(a, u8 d)])
    as Hw.
  { rewrite (write_address a Ha). unfold reg_writes. cbn [omap list_omap reg_write_of].
    destruct (Z.leb_spec 128 (a + 128)); [| lia].
    replace (a + 128 - 128) with a by lia. reflexivity. }
  eapply wr_bind; [apply wr_assertCs | intros ? |].
  - eapply wr_bind; [apply wr_emit; exact Hw | intros ?; apply wr_deassertCs |].
    reflexivity.
  - reflexivity.
Qed.

Ltac wr_addr := vm_compute; split; [discriminate | reflexivity].
Hint Extern 1 (writes_post _ (rfm22_write _ _)) => apply wr_write; wr_addr : regs.

Lemma wr_next_irq : writes_post [] next_irq.
Proof.
  apply wr_silent. intros [d g e t] a w' H. unfold next_irq in H. cbn in H.
  destruct (irq_script e); [discriminate |]. inversion H; subst. reflexivity.
Qed.
Hint Resolve wr_next_irq : regs.

Lemma wr_EXT_Int : writes_post [] (PIOS_OpenLRS_EXT_Int hdr).
Proof.
  unfold PIOS_OpenLRS_EXT_Int, pios_openlrs_validate. wr_go.
  destruct (negb _); [wr_go |].
  wr_go. destruct (RF_MODE_eqb _ Transmit); [wr_go |].
  destruct (RF_MODE_eqb _ Receive); wr_go.
  all: reflexivity.
Qed.
Hint Resolve wr_EXT_Int : regs.

Lemma wr_Sleep ms : writes_post [] (PIOS_Thread_Sleep hdr ms).
Proof. unfold PIOS_Thread_Sleep. wr_go. Qed.
Hint Resolve wr_Sleep : regs.

Lemma wr_sleeps n ms : writes_post [] (sleeps hdr n ms).
Proof. induction n; cbn [sleeps]; wr_go. Qed.
Hint Resolve wr_sleeps : regs.

Lemma wr_setModemRegs r : writes_post (modem_image r) (setModemRegs r).
Proof. unfold setModemRegs. wr_go. Qed.

Lemma wr_rfmSetCarrierFrequency f :
  writes_post (carrier_image hdr f) (rfmSetCarrierFrequency hdr f).
Proof. unfold rfmSetCarrierFrequency. cbv zeta. wr_go. Qed.

Lemma wr_init_rfm_header magic :
  0 <= magic < 2 ^ 32 -> writes_post (header_image magic) (init_rfm_header 4 0 magic).
Proof.
  intros Hm w a w' H.
  destruct (init_rfm_header_run magic w) as (w1 & evs & E & _ & _ & _ & Ht & Hw).
  rewrite E in H. inversion H; subst. exists evs. split; [exact Ht |].
  cbv zeta in Hw. rewrite Hw. exact (header_tops magic Hm).
Qed.
Hint Resolve wr_setModemRegs wr_rfmSetCarrierFrequency : regs.

Lemma wr_bind_ret {A B} (a : A) (k : A -> M B) l :
  writes_post l (k a) -> writes_post l (bind (ret a) k).
Proof. intros H w b w' E. exact (H w b w' E). Qed.

Lemma wr_init_rfm_packet (isbind : bool) (bd : BindData.t) :
  writes_post
    ([(0x30, 0x8c); (0x32, 0x0f); (0x33, 0x42);
      (0x34, if Z.land (BindData.flags bd) (hdr_DIVERSITY_ENABLED hdr) =? 0
             then 0x0a else 0x14);
      (0x35, 0x2a); (0x36, 0x2d); (0x37, 0xd4); (0x38, 0x00); (0x39, 0x00)]
     ++ header_image (u32 (if isbind then hdr_BIND_MAGIC hdr else BindData.rf_magic bd))
     ++ [(0x43, 0xff); (0x44, 0xff); (0x45, 0xff); (0x46, 0xff);
         (0x6D, u8 (if isbind then hdr_BINDING_POWER hdr else BindData.rf_power bd));
         (0x79, 0x00); (0x7A, u8 (BindData.rf_channel_spacing bd));
         (0x73, 0x00); (0x74, 0x00)])
    (init_rfm_packet hdr isbind bd).
Proof.
  pose proof (wr_init_rfm_header
    (u32 (if isbind then hdr_BIND_MAGIC hdr else BindData.rf_magic bd))
    (u32_range _)) as Hh.
  unfold init_rfm_packet. wr_go.
  destruct (Z.land (BindData.flags bd) (hdr_DIVERSITY_ENABLED hdr) =? 0); reflexivity.
Qed.

Lemma core_gpio_direction W w1 :
  core w1 = core W -> gpio_direction (dev w1) = gpio_direction (dev W).
Proof.
  intros C. rewrite !core_eq in C. pose proof (f_equal fst C) as Cd.
  cbn [fst] in Cd. unfold core_dev in Cd.
  pose proof (f_equal gpio_direction Cd) as H1. cbn in H1. exact H1.
Qed.

Section WritesFrom.

Variable w0 : world.

Lemma wf_of_post {A} (m : M A) l :
  post same_core m -> writes_post l m -> writes_from w0 l m.
Proof.
  intros Hc Hw w a w' H0 H. split; [| exact (Hw _ _ _ H)].
  pose proof (Hc _ _ _ H) as H1. unfold same_core in *. congruence.
Qed.

Lemma wf_bind {A B} l1 l2 l (m : M A) (k : A -> M B) :
  writes_from w0 l1 m -> (forall a, writes_from w0 l2 (k a)) -> l = l1 ++ l2 ->
  writes_from w0 l (bind m k).
Proof.
  intros Hm Hk -> w b w'' H0 H.
  destruct (bind_Done _ _ _ _ _ H) as (a & w' & H1 & H2).
  destruct (Hm _ _ _ H0 H1) as (C1 & R1). destruct (Hk _ _ _ _ C1 H2) as (C2 & R2).
  split; [exact C2 | exact (writes_rel_trans _ _ _ _ _ R1 R2)].
Qed.

Lemma wf_bind_gets {A B} (f : world -> A) (v : A) (k : A -> M B) l :
  (forall w, same_core w0 w -> f w = v) -> writes_from w0 l (k v) ->
  writes_from w0 l (bind (gets f) k).
Proof.
  intros Hf Hk w b w' H0 H.
  destruct (bind_Done _ _ _ _ _ H) as (a & w1 & H1 & H2).
  inversion H1; subst. rewrite (Hf _ H0) in H2. exact (Hk _ _ _ H0 H2).
Qed.

Ltac wf_leaf := apply wf_of_post; [post_core | wr_go].

Lemma wf_init_rfm_gpio :
  writes_from w0 (gpio_image hdr (gpio_direction (dev w0))) (init_rfm_gpio hdr).
Proof.
  unfold init_rfm_gpio.
  apply wf_bind_gets with (v := gpio_direction (dev w0));
    [intros w C; exact (core_gpio_direction _ _ C) |].
  unfold gpio_image.
  destruct (_ =? hdr_GPIO0_TX_GPIO1_RX hdr); [wf_leaf |].
  destruct (_ =? hdr_GPIO0_RX_GPIO1_TX hdr); wf_leaf.
Qed.

Lemma wf_init_rfm_ready :
  writes_from w0
    ([(0x06, 0x00); (0x07, u8 (hdr_RFM22_opfc1_xton hdr)); (0x09, 0x7f); (0x0A, 0x05)]
     ++ gpio_image hdr (gpio_direction (dev w0))
     ++ [(0x0D, 0xfd); (0x0E, u8 (hdr_RFM22_io_port_default hdr))])
    (init_rfm_ready hdr).
Proof.
  unfold init_rfm_ready.
  repeat (eapply wf_bind; [first [apply wf_init_rfm_gpio | wf_leaf] | intros ? |]).
  all: try wf_leaf.
  all: reflexivity.
Qed.

End WritesFrom.

Lemma core_init_rfm_ready : post same_core (init_rfm_ready hdr).
Proof. unfold init_rfm_ready. post_core. Qed.

Lemma core_init_rfm_packet b bd : post same_core (init_rfm_packet hdr b bd).
Proof. unfold init_rfm_packet. post_core. Qed.

(** X21.  The register image of [init_rfm].  A completed [init_rfm]
    writes the registers of [init_image], in that order, and no other
    register: the power state, crystal and clock, the pin routing chosen by
    [gpio_direction], the modem registers of one row (the bind row in bind
    mode, otherwise the row that [modem_params] of the bind data selects,
    which then exists), the packet settings with the header bytes of the
    magic number, the transmit power, hop channel 0 with the channel
    spacing as hop step, and the carrier.  In bind mode the magic number,
    the power and the frequency are the binding constants, while the
    preamble length and the hop step still come from the stored bind
    data. *)
Theorem init_rfm_image (isbind : bool) (w w' : world) :
  init_rfm hdr isbind w = Done tt w' ->
  exists row evs,
    (if isbind then row = bind_params
     else modem_params !! Z.to_nat (BindData.modem_params (bind_data (dev w))) = Some row) /\
    trace w' = trace w ++ evs /\
    reg_writes evs =
      init_image hdr isbind (gpio_direction (dev w)) (bind_data (dev w)) row.
Proof.
  intros H. unfold init_rfm in H.
  apply bind_Done in H as (u1 & w1 & H1 & H).
  apply bind_Done in H as (u2 & w2 & H2 & H).
  apply bind_Done in H as (bd & w3 & H3 & H).
  apply bind_Done in H as (u4 & w4 & H4 & H).
  apply bind_Done in H as (u5 & w5 & H5 & H6).
  inversion H3; subst bd w3; clear H3.
  assert (same_core w w1 /\ writes_rel [] w w1) as (C1 & W1).
  { apply (wf_of_post w (when (negb isbind) (sleeps hdr 8 10)) []) with (a := u1);
      [post_core | wr_go | reflexivity | exact H1]. }
  destruct (wf_init_rfm_ready w _ _ _ C1 H2) as (C2 & W2).
  destruct (core_dev_fields _ _ C2) as (_ & _ & _ & Hbd & _).
  rewrite Hbd in *. set (bd := bind_data (dev w)) in *.
  pose proof (wr_init_rfm_packet isbind bd _ _ _ H5) as W5.
  pose proof (wr_rfmSetCarrierFrequency _ _ _ _ H6) as W6.
  assert (exists row,
    (if isbind then row = bind_params
     else modem_params !! Z.to_nat (BindData.modem_params bd) = Some row) /\
    writes_rel (modem_image row) w2 w4) as (row & Hrow & W4).
  { destruct isbind.
    - exists bind_params. split; [reflexivity |]. exact (wr_setModemRegs _ _ _ _ H4).
    - destruct (modem_params !! Z.to_nat (BindData.modem_params bd)) as [row |] eqn:E.
      + exists row. split; [reflexivity |].
        exact (wr_bind_ret row setModemRegs _ (wr_setModemRegs row) _ _ _ H4).
      + discriminate H4. }
  exists row.
  pose proof (writes_rel_trans _ _ _ _ _ W1
    (writes_rel_trans _ _ _ _ _ W2
      (writes_rel_trans _ _ _ _ _ W4 (writes_rel_trans _ _ _ _ _ W5 W6))))
    as (evs & Ht & Hw).
  exists evs. split; [exact Hrow |]. split; [exact Ht |].
  rewrite Hw. unfold init_image. cbn [app]. rewrite <- !app_assoc. reflexivity.
Qed.

(** ** An iteration that misses a packet *)







(** ** Effects of a run *)

Section Observed.
Context {X : Type} (f : event -> option X).

Lemma observed_refl w : observed f [] w w.
Proof. exists []. rewrite app_nil_r. split; reflexivity. Qed.

Lemma observed_trans l1 l2 w1 w2 w3 :
  observed f l1 w1 w2 -> observed f l2 w2 w3 -> observed f (l1 ++ l2) w1 w3.
Proof.
  intros (e1 & T1 & R1) (e2 & T2 & R2). exists (e1 ++ e2).
  split; [rewrite T2, T1, app_assoc; reflexivity |].
  rewrite omap_app, R1, R2. reflexivity.
Qed.

Lemma ob_ret {A} (a : A) : observes f [] (ret a).
Proof. intros w x w' H. inversion H; subst. apply observed_refl. Qed.

Lemma ob_gets {A} (g : world -> A) : observes f [] (gets g).
Proof. intros w x w' H. inversion H; subst. apply observed_refl. Qed.

Lemma ob_undefined {A} l : observes f l (@undefined A).
Proof. intros w x w' H. discriminate. Qed.

Lemma ob_stalled {A} l : observes f l (@stalled A).
Proof. intros w x w' H. discriminate. Qed.

Lemma ob_lift {A} (o : option A) : observes f [] (lift o).
Proof. destruct o; [apply ob_ret | apply ob_undefined]. Qed.

Lemma ob_bind {A B} l1 l2 l (m : M A) (k : A -> M B) :
  observes f l1 m -> (forall a, observes f l2 (k a)) -> l = l1 ++ l2 ->
  observes f l (bind m k).
Proof.
  intros Hm Hk -> w b w'' H.
  destruct (bind_Done _ _ _ _ _ H) as (a & w' & H1 & H2).
  exact (observed_trans _ _ _ _ _ (Hm _ _ _ H1) (Hk _ _ _ _ H2)).
Qed.

Lemma ob_bind_val {A B} (P : A -> Prop) l1 l2 l (m : M A) (k : A -> M B) :
  (forall w a w', m w = Done a w' -> P a) ->
  observes f l1 m -> (forall a, P a -> observes f l2 (k a)) -> l = l1 ++ l2 ->
  observes f l (bind m k).
Proof.
  intros HP Hm Hk -> w b w'' H.
  destruct (bind_Done _ _ _ _ _ H) as (a & w' & H1 & H2).
  exact (observed_trans _ _ _ _ _ (Hm _ _ _ H1) (Hk _ (HP _ _ _ H1) _ _ _ H2)).
Qed.

Lemma ob_bind_ret {A B} (a : A) (k : A -> M B) l :
  observes f l (k a) -> observes f l (bind (ret a) k).
Proof. intros H w b w' E. exact (H w b w' E). Qed.

Lemma ob_when (b : bool) (m : M unit) : observes f [] m -> observes f [] (when b m).
Proof. intros Hm. destruct b; [exact Hm | apply ob_ret]. Qed.

Lemma ob_silent {A} (m : M A) :
  (forall w a w', m w = Done a w' -> trace w' = trace w) -> observes f [] m.
Proof.
  intros Hm w a w' H. exists []. rewrite app_nil_r. split; [exact (Hm _ _ _ H) | reflexivity].
Qed.

Lemma ob_modify (g : world -> world) :
  (forall w, trace (g w) = trace w) -> observes f [] (modify g).
Proof. intros Hg. apply ob_silent. intros w a w' H. inversion H; subst. apply Hg. Qed.

Lemma ob_emit (e : event) l : omap f [e] = l -> observes f l (emit e).
Proof. intros <- w a w' H. inversion H; subst. exists [e]. split; reflexivity. Qed.

Lemma ob_loop {S A} (cond : S -> M bool) (body : S -> M (S + A)) :
  (forall s, observes f [] (cond s)) -> (forall s, observes f [] (body s)) ->
  forall fuel s, observes f [] (loop fuel s cond body).
Proof.
  intros Hc Hb. induction fuel as [| fuel IH]; intros s; cbn [loop].
  - apply ob_stalled.
  - eapply ob_bind; [apply Hc | | reflexivity].
    intros [|]; [| apply ob_ret].
    eapply ob_bind; [apply Hb | | reflexivity].
    intros [s' | a]; [apply IH | apply ob_ret].
Qed.

Lemma ob_while {S A} (s : S) (cond : S -> M bool) (body : S -> M (S + A)) :
  (forall s, observes f [] (cond s)) -> (forall s, observes f [] (body s)) ->
  observes f [] (while_ s cond body).
Proof.
  intros Hc Hb w r w' H. unfold while_ in H.
  exact (ob_loop cond body Hc Hb _ _ _ _ _ H).
Qed.

Lemma ob_spi_byte : observes f [] spi_byte.
Proof. apply ob_silent. intros [d g e t] a w' H. inversion H; subst. reflexivity. Qed.

Lemma ob_micros : observes f [] micros.
Proof. apply ob_silent. intros [d g e t] a w' H. inversion H; subst. reflexivity. Qed.

Lemma ob_millis : observes f [] millis.
Proof. apply ob_silent. intros [d g e t] a w' H. inversion H; subst. reflexivity. Qed.

Lemma ob_next_irq : observes f [] next_irq.
Proof.
  apply ob_silent. intros [d g e t] a w' H. unfold next_irq in H. cbn in H.
  destruct (irq_script e); [discriminate |]. inversion H; subst. reflexivity.
Qed.

End Observed.

Hint Resolve ob_spi_byte ob_micros ob_millis ob_next_irq : fx.

(** One step of the syntax-directed computation of what a run shows. *)
Ltac ob_step :=
  lazymatch goal with
  | |- observes _ _ (bind (ret _) _) => apply ob_bind_ret
  | |- observes _ _ (bind _ _) => eapply ob_bind; [| intros ? |]
  | |- observes _ _ (ret _) => apply ob_ret
  | |- observes _ _ (gets _) => apply ob_gets
  | |- observes _ _ (lift _) => apply ob_lift
  | |- observes _ _ (when _ _) => apply ob_when
  | |- observes _ _ (while_ _ _ _) => apply ob_while; intros ?
  | |- observes _ _ (modify _) => apply ob_modify; intros [? ? ? ?]; reflexivity
  | |- observes _ _ (set_dev _) => apply ob_modify; intros [? ? ? ?]; reflexivity
  | |- observes _ _ (set_global _) => apply ob_modify; intros [? ? ? ?]; reflexivity
  | |- observes _ _ (emit _) => apply ob_emit; reflexivity
  | |- _ = ?r => tryif has_evar r then fail else reflexivity
  | |- observes _ _ _ => solve [eauto with fx]
  end.

Ltac ob_go := repeat ob_step.

Lemma fx_claimBus : observes effect_of [] rfm22_claimBus.
Proof. unfold rfm22_claimBus. ob_go. Qed.
Lemma fx_releaseBus : observes effect_of [] rfm22_releaseBus.
Proof. unfold rfm22_releaseBus. ob_go. Qed.
Lemma fx_assertCs : observes effect_of [] rfm22_assertCs.
Proof. unfold rfm22_assertCs. ob_go. Qed.
Lemma fx_deassertCs : observes effect_of [] rfm22_deassertCs.
Proof. unfold rfm22_deassertCs. ob_go. Qed.
Hint Resolve fx_claimBus fx_releaseBus fx_assertCs fx_deassertCs : fx.

Lemma fx_spi_bytes n : observes effect_of [] (spi_bytes n).
Proof. induction n as [| n IH]; cbn [spi_bytes]; ob_go. Qed.
Hint Resolve fx_spi_bytes : fx.

Lemma fx_TransferByte b : observes effect_of [] (PIOS_SPI_TransferByte b).
Proof. unfold PIOS_SPI_TransferByte. ob_go. Qed.

Lemma fx_TransferBlock_rx s : observes effect_of [] (PIOS_SPI_TransferBlock_rx s).
Proof.
  unfold PIOS_SPI_TransferBlock_rx.
  apply (ob_bind _ [] []); [apply ob_emit | intros ?; apply fx_spi_bytes | reflexivity].
  destruct s as [| ? [| ? [| ? ?]]]; reflexivity.
Qed.
Hint Resolve fx_TransferBlock_rx : fx.

Lemma fx_transfer_OUT_FF n : observes effect_of [] (transfer_OUT_FF n).
Proof. unfold transfer_OUT_FF. destruct (_ && _); [ob_go | apply ob_undefined]. Qed.

Lemma fx_read a : observes effect_of [] (rfm22_read a).
Proof. unfold rfm22_read. ob_go. Qed.
Hint Resolve fx_TransferByte fx_transfer_OUT_FF fx_read : fx.

Lemma fx_write (a d : Z) :
  0 <= a < 0x80 -> observes effect_of [Write a (u8 d)] (rfm22_write a d).
Proof.
  intros Ha. unfold rfm22_write, PIOS_SPI_TransferBlock_tx.
  assert (omap effect_of [TransferBlock [u8 (Z.lor (u8 a) 0x80); u8 d] false]
          = [Write a (u8 d)]) as Hw.
  { rewrite (write_address a Ha). cbn [omap list_omap effect_of].
    destruct (Z.leb_spec 128 (a + 128)); [| lia].
    replace (a + 128 - 128) with a by lia. reflexivity. }
  eapply ob_bind; [apply fx_assertCs | intros ? |].
  - eapply ob_bind; [apply ob_emit; exact Hw | intros ?; apply fx_deassertCs |].
    reflexivity.
  - reflexivity.
Qed.

Lemma fx_write_claim (a d : Z) :
  0 <= a < 0x80 -> observes effect_of [Write a (u8 d)] (rfm22_write_claim a d).
Proof.
  intros Ha.
  assert (observes effect_of [Write a (u8 d)]
            (rfm22_claimBus;; rfm22_write a d;; rfm22_releaseBus)) as H.
  { pose proof (fx_write a d Ha). ob_go. }
  intros w x w' E. apply (H w x w').
  unfold rfm22_write_claim in E. unfold rfm22_write.
  unfold bind in *. destruct (rfm22_claimBus w); try discriminate.
  destruct (rfm22_assertCs w0); try discriminate.
  destruct (PIOS_SPI_TransferBlock_tx _ w1); try discriminate.
  destruct (rfm22_deassertCs w2); try discriminate. exact E.
Qed.

Ltac fx_addr := vm_compute; split; [discriminate | reflexivity].
Hint Extern 1 (observes effect_of _ (rfm22_write _ _)) => apply fx_write; fx_addr : fx.
Hint Extern 1 (observes effect_of _ (rfm22_write_claim _ _)) =>
  apply fx_write_claim; fx_addr : fx.

Lemma fx_EXT_Int : observes effect_of [] (PIOS_OpenLRS_EXT_Int hdr).
Proof.
  unfold PIOS_OpenLRS_EXT_Int, pios_openlrs_validate. ob_go.
  destruct (negb _); [ob_go |].
  ob_go. destruct (RF_MODE_eqb _ Transmit); [ob_go |].
  destruct (RF_MODE_eqb _ Receive); ob_go.
  all: reflexivity.
Qed.
Hint Resolve fx_EXT_Int : fx.

Lemma fx_Sleep ms : observes effect_of [] (PIOS_Thread_Sleep hdr ms).
Proof. unfold PIOS_Thread_Sleep. ob_go. Qed.
Hint Resolve fx_Sleep : fx.

Lemma fx_sleeps n ms : observes effect_of [] (sleeps hdr n ms).
Proof. induction n; cbn [sleeps]; ob_go. Qed.

Lemma fx_WDG : observes effect_of [] (PIOS_WDG_UpdateFlag hdr).
Proof. unfold PIOS_WDG_UpdateFlag. ob_go. Qed.

Lemma fx_LED : observes effect_of [] (PIOS_LED_Toggle hdr).
Proof. unfold PIOS_LED_Toggle. ob_go. Qed.
Hint Resolve fx_sleeps fx_WDG fx_LED : fx.

Lemma fx_rx_reset :
  0 <= hdr_RFM22_rx_fifo_control hdr < 0x80 ->
  observes effect_of (rearm_image hdr) (rx_reset hdr).
Proof.
  intros Ha. pose proof (fx_write_claim (hdr_RFM22_rx_fifo_control hdr) 36 Ha) as Hf.
  unfold rx_reset, clearFIFO. ob_go.
Qed.

Lemma fx_tx_pending : observes effect_of [] tx_pending.
Proof. unfold tx_pending. ob_go. destruct (RF_MODE_eqb _ _); ob_go. all: reflexivity. Qed.
Hint Resolve fx_tx_pending : fx.

Lemma fx_tx_packet_async_ack :
  observes effect_of (ack_image hdr) (tx_packet_async hdr [66] 1).
Proof.
  unfold tx_packet_async. change (Z.to_nat (u8 1)) with 1%nat. cbn [tx_fifo].
  change (lift ([66] !! 0%nat)) with (ret (A := Z) 66).
  ob_go.
Qed.

Lemma fx_tx_packet_ack : observes effect_of (ack_image hdr) (tx_packet hdr [66] 1).
Proof.
  pose proof fx_tx_packet_async_ack as Ha. unfold tx_packet.
  eapply ob_bind; [exact Ha | intros ? |].
  - ob_go.
  - rewrite app_nil_r. reflexivity.
Qed.

Lemma fx_verdict_accept (bd binding : BindData.t) :
  BindData.version bd = hdr_BINDING_VERSION hdr ->
  binding_of hdr bd = Some binding ->
  observes effect_of (ack_image hdr ++ [Store binding; Save]) (bind_receive_verdict hdr bd).
Proof.
  intros Hv Hb. unfold bind_receive_verdict.
  destruct (Z.eqb_spec (BindData.version bd) (hdr_BINDING_VERSION hdr)); [| contradiction].
  rewrite Hb. change (lift (Some binding)) with (ret binding).
  pose proof fx_tx_packet_ack as Ht.
  apply (ob_bind_val _ (fun acc => acc = true) (ack_image hdr ++ [Store binding; Save]) []).
  - intros w acc w' H. repeat (apply bind_Done in H as (? & ? & _ & H)).
    inversion H. reflexivity.
  - eapply ob_bind; [exact Ht | intros ? |]; [ob_go | reflexivity].
  - intros acc ->. apply ob_ret.
  - rewrite app_nil_r. reflexivity.
Qed.

Lemma fx_verdict_refuse (bd : BindData.t) :
  BindData.version bd <> hdr_BINDING_VERSION hdr ->
  0 <= hdr_RFM22_rx_fifo_control hdr < 0x80 ->
  observes effect_of (rearm_image hdr) (bind_receive_verdict hdr bd).
Proof.
  intros Hv Ha. unfold bind_receive_verdict.
  destruct (Z.eqb_spec (BindData.version bd) (hdr_BINDING_VERSION hdr)); [contradiction |].
  pose proof (fx_rx_reset Ha) as Hr.
  apply ob_bind_ret. ob_go.
Qed.

(** ** Steps that read no clock *)

Instance same_clock_preorder : PreOrder same_clock.
Proof.
  split; [intros w; reflexivity | intros a b c H1 H2; unfold same_clock in *; congruence].
Qed.

Lemma clock_spi_byte : post same_clock spi_byte.
Proof. intros [d g e t] a w' H. inversion H; subst. reflexivity. Qed.
Lemma clock_next_irq : post same_clock next_irq.
Proof.
  intros [d g e t] a w' H. unfold next_irq in H. cbn in H.
  destruct (irq_script e); [discriminate |]. inversion H; subst. reflexivity.
Qed.
Hint Resolve clock_spi_byte clock_next_irq : drv.

Lemma clock_spi_bytes n : post same_clock (spi_bytes n).
Proof. induction n; cbn [spi_bytes]; repeat post_step; try reflexivity. Qed.
Hint Resolve clock_spi_bytes : drv.

Lemma clock_TransferByte b : post same_clock (PIOS_SPI_TransferByte b).
Proof. unfold PIOS_SPI_TransferByte. repeat post_step; reflexivity. Qed.
Lemma clock_transfer_OUT_FF n : post same_clock (transfer_OUT_FF n).
Proof.
  unfold transfer_OUT_FF, PIOS_SPI_TransferBlock_rx. repeat post_step; reflexivity.
Qed.
Lemma clock_deassertCs : post same_clock rfm22_deassertCs.
Proof. unfold rfm22_deassertCs. repeat post_step; reflexivity. Qed.
Lemma clock_releaseBus : post same_clock rfm22_releaseBus.
Proof. unfold rfm22_releaseBus. repeat post_step; reflexivity. Qed.
Lemma clock_Sleep ms : post same_clock (PIOS_Thread_Sleep hdr ms).
Proof.
  unfold PIOS_Thread_Sleep, PIOS_OpenLRS_EXT_Int, pios_openlrs_validate.
  repeat post_step; reflexivity.
Qed.
Hint Resolve clock_Sleep : drv.
Lemma clock_sleeps n ms : post same_clock (sleeps hdr n ms).
Proof. induction n; cbn [sleeps]; repeat post_step; reflexivity. Qed.

(** ** The bind packet *)

(** The head of the packet handler: the byte ['b'] and the block are read
    from the FIFO, the block straight into [bind_data]; what follows are
    the sleeps of the debug prints and the verdict on the version. *)
Lemma bind_receive_packet_head (w : world) (x : Z) (blk rest : list Z) :
  let bd := hdr_bind_data_of_bytes hdr blk in
  spi_in (env w) = x :: 98 :: blk ++ rest ->
  length blk = Z.to_nat (hdr_sizeof_bind_data hdr) ->
  0 <= hdr_sizeof_bind_data hdr <= 64 ->
  exists v,
    bind_receive_packet hdr w =
      (sleeps hdr 8 10;; sleeps hdr (Z.to_nat (hdr_MAXHOPS hdr)) 10;;
       bd' <- gets (fun w => bind_data (dev w));;
       bind_receive_verdict hdr bd') v /\
    bind_data (dev v) = bd /\
    observed effect_of [] w v /\
    irq_script (env v) = irq_script (env w) /\
    us_clock (env v) = us_clock (env w) /\
    valid hdr v = valid hdr w.
Proof.
  intros bd Hs Hl Hsz. unfold bind_receive_packet.
  destruct (claimBus_run w) as (w1 & E1 & Q1 & V1).
  rewrite (bind_step _ _ _ _ _ E1).
  destruct (assertCs_run w1) as (w2 & E2 & Q2 & V2).
  rewrite (bind_step _ _ _ _ _ E2).
  destruct (TransferByte_run 0x7f w2) as (w3 & E3 & Q3 & S3).
  rewrite (bind_step _ _ _ _ _ E3).
  rewrite V2, V1, Hs in S3. cbn [tl] in S3.
  destruct (TransferByte_run 0x00 w3) as (w4 & E4 & Q4 & S4).
  rewrite (bind_step _ _ _ _ _ E4).
  rewrite S3 in S4 |- *. cbn [hd tl] in S4 |- *.
  change (u8 98 =? 98) with true. cbv iota.
  destruct (transfer_OUT_FF_run _ w4 blk rest Hsz Hl S4) as (w5 & E5 & Q5 & S5).
  rewrite (bind_bind_step _ _ _ _ _ _ E5).
  rewrite (bind_bind_step (set_dev (set_bind_data bd)) _ _ w5 tt
             (with_dev (set_bind_data bd) w5) eq_refl).
  set (w6 := with_dev (set_bind_data bd) w5).
  destruct (plumb_deassertCs w6) as ([] & w7 & E7 & Q7).
  rewrite (bind_bind_step _ _ _ _ _ _ E7).
  destruct (plumb_releaseBus w7) as ([] & w8 & E8 & Q8).
  rewrite (bind_bind_step _ _ _ _ _ _ E8).
  exists w8. split; [| split; [| split; [| split; [| split]]]].
  - unfold bind_receive_verdict. unfold bind.
    destruct (sleeps hdr 8 10 w8) as [[] v1 | |]; [| reflexivity ..].
    destruct (sleeps hdr (Z.to_nat (hdr_MAXHOPS hdr)) 10 v1) as [[] v2 | |];
      [| reflexivity ..].
    reflexivity.
  - destruct Q7 as (A & _), Q8 as (B & _).
    pose proof (same_core_hop_state _ _ A) as (_ & _ & A3).
    pose proof (same_core_hop_state _ _ B) as (_ & _ & B3).
    rewrite B3, A3. reflexivity.
  - pose proof (fx_claimBus _ _ _ E1) as O1.
    pose proof (fx_assertCs _ _ _ E2) as O2.
    pose proof (fx_TransferByte _ _ _ _ E3) as O3.
    pose proof (fx_TransferByte _ _ _ _ E4) as O4.
    pose proof (fx_transfer_OUT_FF _ _ _ _ E5) as O5.
    assert (observed effect_of [] w5 w6) as O6
      by (exists []; rewrite app_nil_r; split; reflexivity).
    pose proof (fx_deassertCs _ _ _ E7) as O7.
    pose proof (fx_releaseBus _ _ _ E8) as O8.
    exact (observed_trans _ _ _ _ _ _ O1 (observed_trans _ _ _ _ _ _ O2
      (observed_trans _ _ _ _ _ _ O3 (observed_trans _ _ _ _ _ _ O4
        (observed_trans _ _ _ _ _ _ O5 (observed_trans _ _ _ _ _ _ O6
          (observed_trans _ _ _ _ _ _ O7 O8))))))).
  - destruct Q1 as (_ & _ & A & _), Q2 as (_ & _ & B & _), Q3 as (_ & _ & C & _),
      Q4 as (_ & _ & D & _), Q5 as (_ & _ & F & _), Q7 as (_ & _ & G & _),
      Q8 as (_ & _ & H & _).
    change (irq_script (env w6)) with (irq_script (env w5)) in G. congruence.
  - pose proof (clock_TransferByte _ _ _ _ E3) as C3.
    pose proof (clock_TransferByte _ _ _ _ E4) as C4.
    pose proof (clock_transfer_OUT_FF _ _ _ _ E5) as C5.
    pose proof (clock_deassertCs _ _ _ E7) as C7.
    pose proof (clock_releaseBus _ _ _ E8) as C8.
    unfold same_clock in *.
    change (us_clock (env w6)) with (us_clock (env w5)) in C7. congruence.
  - destruct Q1 as (A & _), Q2 as (B & _), Q3 as (C & _), Q4 as (D & _), Q5 as (F & _),
      Q7 as (G & _), Q8 as (H & _).
    rewrite (same_core_valid _ _ H), (same_core_valid _ _ G).
    change (valid hdr w6) with (valid hdr w5).
    rewrite (same_core_valid _ _ F), (same_core_valid _ _ D), (same_core_valid _ _ C),
      (same_core_valid _ _ B), (same_core_valid _ _ A).
    reflexivity.
Qed.

(** The verdict on a block of the right version ends as soon as the
    acknowledgement has been given up or reported as sent. *)
Lemma bind_receive_verdict_completes (bd binding : BindData.t) (v u : world) :
  BindData.version bd = hdr_BINDING_VERSION hdr ->
  binding_of hdr bd = Some binding ->
  tx_packet hdr [66] 1 v = Done tt u ->
  exists w', bind_receive_verdict hdr bd v = Done (Some 1) w'.
Proof.
  intros Hver Hbinding E1. unfold bind_receive_verdict.
  destruct (Z.eqb_spec (BindData.version bd) (hdr_BINDING_VERSION hdr)); [| contradiction].
  rewrite (bind_bind_step _ _ _ _ _ _ E1).
  rewrite Hbinding. cbn [lift].
  rewrite (bind_bind_step (ret binding) _ _ u binding u eq_refl).
  rewrite (bind_bind_step (emit (UavoSet binding)) _ _ u tt _ eq_refl).
  rewrite (bind_bind_step (emit UavoSave) _ _ _ tt _ eq_refl).
  match goal with
  | |- context [bind (bind (PIOS_LED_Toggle hdr) _) _ ?x] =>
      destruct (plumb_LED x) as ([] & w2 & E2 & _);
      rewrite (bind_bind_step _ _ _ _ _ _ E2)
  end.
  rewrite (bind_step (ret true) _ w2 true w2 eq_refl). unfold ret.
  exists w2. reflexivity.
Qed.

Lemma bind_receive_verdict_refuses (bd : BindData.t) (v : world) :
  BindData.version bd <> hdr_BINDING_VERSION hdr ->
  exists w', bind_receive_verdict hdr bd v = Done None w'.
Proof.
  intros Hver. unfold bind_receive_verdict.
  destruct (Z.eqb_spec (BindData.version bd) (hdr_BINDING_VERSION hdr)); [contradiction |].
  rewrite (bind_step (ret false) _ v false v eq_refl).
  rewrite (bind_step (set_dev (set_rf_mode Receive)) _ v tt
             (with_dev (set_rf_mode Receive) v) eq_refl).
  destruct (plumb_rx_reset (with_dev (set_rf_mode Receive) v)) as ([] & w1 & E1 & _).
  rewrite (bind_step _ _ _ _ _ E1). unfold ret. exists w1. reflexivity.
Qed.

(** What the verdict returns, and in which mode it leaves the receiver. *)
Lemma bind_receive_verdict_result (bd : BindData.t) (v w' : world) (r : option Z) :
  bind_receive_verdict hdr bd v = Done r w' ->
  bind_data (dev w') = bind_data (dev v) /\
  if BindData.version bd =? hdr_BINDING_VERSION hdr
  then r = Some 1 /\ exists binding, binding_of hdr bd = Some binding
  else r = None /\ rf_mode (dev w') = Receive.
Proof.
  intros E. split.
  { pose proof (same_core_hop_state _ _ (core_bind_receive_verdict bd _ _ _ E))
      as (_ & _ & B). exact B. }
  unfold bind_receive_verdict in E.
  apply bind_Done in E as (acc & w1 & E1 & E2).
  destruct (BindData.version bd =? hdr_BINDING_VERSION hdr).
  - apply bind_Done in E1 as ([] & w2 & _ & E1).
    apply bind_Done in E1 as (binding & w3 & E3 & E1).
    assert (acc = true) as ->.
    { repeat (apply bind_Done in E1 as (? & ? & _ & E1)). inversion E1. reflexivity. }
    inversion E2; subst. split; [reflexivity |].
    destruct (binding_of hdr bd) as [b |]; [exists b; reflexivity | discriminate].
  - inversion E1; subst acc w1; clear E1.
    apply bind_Done in E2 as ([] & w2 & E2 & E3). inversion E2; subst w2; clear E2.
    apply bind_Done in E3 as ([] & w3 & E3 & E4). inversion E4; subst.
    split; [reflexivity |].
    destruct (plumb_rx_reset (with_dev (set_rf_mode Receive) v))
      as ([] & w1 & E1 & (_ & M1 & _)).
    rewrite E1 in E3. inversion E3; subst. rewrite M1. reflexivity.
Qed.

(** C4, amended.  A packet that starts with ['b'] has its next
    [sizeof (struct bind_data)] bytes read straight into [bind_data]; there
    is no staging buffer.  Whenever the handler returns, [bind_data] holds
    that block, and of register writes and calls of the object store the
    handler has made exactly these, in this order: if the version of the
    block is [BINDING_VERSION], the transmission of the one byte ['B']
    (length 1, the byte, the packet-sent interrupt, transmitter on), then
    [OpenLRSSet] with the block and [UAVObjSave], and it returns 1, whether
    the transmission is reported as sent or given up after 100 ms;
    otherwise the writes of [rx_reset] that re-arm the receiver and
    nothing else, the mode is [Receive], and the loop goes on.  The handler
    does return when the interrupt script covers the sleeps of its debug
    prints and, for a block of the right version that fits the object, the
    packet-sent interrupt comes to a valid handle or the clock passes
    100 ms. *)
Theorem bind_packet (w : world) (x : Z) (blk rest : list Z) :
  let bd := hdr_bind_data_of_bytes hdr blk in
  let good := BindData.version bd =? hdr_BINDING_VERSION hdr in
  let later := drop (8 + Z.to_nat (hdr_MAXHOPS hdr)) (irq_script (env w)) in
  spi_in (env w) = x :: 98 :: blk ++ rest ->
  length blk = Z.to_nat (hdr_sizeof_bind_data hdr) ->
  0 <= hdr_sizeof_bind_data hdr <= 64 ->
  0 <= hdr_RFM22_rx_fifo_control hdr < 0x80 ->
  (forall r w',
     bind_receive_packet hdr w = Done r w' ->
     bind_data (dev w') = bd /\
     exists evs,
       trace w' = trace w ++ evs /\
       if good
       then r = Some 1 /\
            exists binding,
              binding_of hdr bd = Some binding /\
              effects evs = ack_image hdr ++ [Store binding; Save]
       else r = None /\ rf_mode (dev w') = Receive /\ effects evs = rearm_image hdr) /\
  ((8 + Z.to_nat (hdr_MAXHOPS hdr) <= length (irq_script (env w)))%nat ->
   (good = false -> exists w', bind_receive_packet hdr w = Done None w') /\
   (good = true ->
    binding_of hdr bd <> None ->
    (valid hdr w = true /\ In true later) \/
    (exists t0 ts late more rest',
       us_clock (env w) = t0 :: ts ++ late :: more /\
       later = replicate (length ts) false ++ rest' /\
       Forall (fun t => u32 (t - t0) < 100000) ts /\
       100000 <= u32 (late - t0)) ->
    exists w', bind_receive_packet hdr w = Done (Some 1) w')).
Proof.
  intros bd good later Hs Hl Hsz Ha.
  destruct (bind_receive_packet_head w x blk rest Hs Hl Hsz)
    as (v & Ehead & HB & Ov & Sv & Cv & Vv).
  fold bd in Ehead, HB. rewrite Ehead. split.
  - intros r w' E.
    apply bind_Done in E as ([] & v1 & E1 & E).
    apply bind_Done in E as ([] & v2 & E2 & E).
    apply bind_Done in E as (bd' & v3 & E3 & E). inversion E3; subst bd' v3; clear E3.
    assert (bind_data (dev v2) = bd) as HB2.
    { pose proof (same_core_hop_state _ _ (core_sleeps _ _ _ _ _ E1)) as (_ & _ & B1).
      pose proof (same_core_hop_state _ _ (core_sleeps _ _ _ _ _ E2)) as (_ & _ & B2).
      congruence. }
    rewrite HB2 in E.
    pose proof (observed_trans _ _ _ _ _ _ Ov
                  (observed_trans _ _ _ _ _ _ (fx_sleeps _ _ _ _ _ E1)
                     (fx_sleeps _ _ _ _ _ E2))) as O2.
    destruct (bind_receive_verdict_result bd v2 w' r E) as (HB' & Hres).
    split; [congruence |].
    fold good in Hres. unfold good in *.
    destruct (Z.eqb_spec (BindData.version bd) (hdr_BINDING_VERSION hdr)) as [Hv | Hv].
    + destruct Hres as (-> & binding & Hbinding).
      destruct (observed_trans _ _ _ _ _ _ O2 (fx_verdict_accept bd binding Hv Hbinding _ _ _ E))
        as (evs & Ht & Hfx).
      exists evs. split; [exact Ht |]. split; [reflexivity |].
      exists binding. split; [exact Hbinding | exact Hfx].
    + destruct Hres as (-> & Hmode).
      destruct (observed_trans _ _ _ _ _ _ O2 (fx_verdict_refuse bd Hv Ha _ _ _ E))
        as (evs & Ht & Hfx).
      exists evs. split; [exact Ht |]. split; [reflexivity |]. split; [exact Hmode | exact Hfx].
  - intros Hn.
    destruct (sleeps_run 8 10 v ltac:(rewrite Sv; lia)) as (v1 & E1 & C1 & S1 & _).
    destruct (sleeps_run (Z.to_nat (hdr_MAXHOPS hdr)) 10 v1
                ltac:(rewrite S1, length_drop, Sv; lia)) as (v2 & E2 & C2 & S2 & _).
    rewrite (bind_step _ _ _ _ _ E1), (bind_step _ _ _ _ _ E2).
    rewrite (bind_step (gets (fun w => bind_data (dev w))) _ v2 _ v2 eq_refl).
    assert (bind_data (dev v2) = bd) as HB2.
    { pose proof (same_core_hop_state _ _ C1) as (_ & _ & B1).
      pose proof (same_core_hop_state _ _ C2) as (_ & _ & B2). congruence. }
    rewrite HB2.
    assert (irq_script (env v2) = later) as Hlater.
    { rewrite S2, S1, Sv, drop_drop. reflexivity. }
    unfold good. split.
    + intros Hv. apply bind_receive_verdict_refuses.
      intros Heq. rewrite Heq, Z.eqb_refl in Hv. discriminate.
    + intros Hv Hsome Hway. apply Z.eqb_eq in Hv.
      destruct (binding_of hdr bd) as [binding |] eqn:Hbinding; [| contradiction].
      destruct Hway as [(Hvalid & Hin) | (t0 & ts & late & more & rest' & Hc & Hi & Hts & Hlate)].
      * destruct (tx_packet_ack v2) as (u & Eu & _).
        { rewrite (same_core_valid _ _ C2), (same_core_valid _ _ C1), Vv. exact Hvalid. }
        { rewrite Hlater. exact Hin. }
        exact (bind_receive_verdict_completes bd binding v2 u Hv Hbinding Eu).
      * destruct (tx_packet_timeout v2 t0 late ts more rest') as (u & Eu & _).
        { pose proof (clock_sleeps _ _ _ _ _ E1) as K1.
          pose proof (clock_sleeps _ _ _ _ _ E2) as K2. unfold same_clock in *.
          congruence. }
        { rewrite Hlater. exact Hi. }
        { exact Hts. }
        { exact Hlate. }
        exact (bind_receive_verdict_completes bd binding v2 u Hv Hbinding Eu).
Qed.

End Properties.

(** * The properties on the sample configuration *)

Ltac by_evaluation :=
  vm_compute; repeat split; first [reflexivity | discriminate].

(** The sample bind data: 11 bytes at 19200 bps without diversity or
    telemetry. *)
Lemma getInterval_rounds_up_witness :
  exists v,
    getInterval sample_headers sample_bind_data = Some v /\
    v = (BYTES_AT_BAUD_TO_USEC 11 19200 0 + 2000 + 999) / 1000 * 1000 /\
    (1000 | v).
Proof.
  destruct (getInterval_rounds_up sample_headers sample_bind_data ltac:(by_evaluation))
    as (r & v & Hr & Hv & H).
  cbv zeta in H. destruct H as (_ & Hexact & Hdiv & _).
  destruct (Hexact eq_refl) as (Hexact' & _).
  exists v. split; [exact Hv |]. split; [| exact Hdiv].
  injection Hr as <-. exact Hexact'.
Defined.

(** The high band at 915 MHz. *)
Lemma carrier_433_92_witness :
  carrier_hbsel 915000000 = 1 /\ carrier_fb 915000000 = 21 /\ carrier_fc 915000000 = 48000.
Proof.
  destruct (carrier_433_92 sample_headers) as (_ & _ & _ & _ & H).
  exact (H 915000000 ltac:(by_evaluation)).
Defined.

(** An interrupt in mode [Available] leaves the mode alone and still
    changes the state: [irqs] goes from 0 to 1. *)
Lemma EXT_Int_counterexample :
  exists w',
    PIOS_OpenLRS_EXT_Int sample_headers sample_world = Done false w' /\
    rf_mode (dev sample_world) = Available /\
    irqs (globals sample_world) = 0 /\
    irqs (globals w') = 1 /\
    w' <> sample_world.
Proof.
  eexists. split; [reflexivity |]. repeat split. discriminate.
Qed.

(** The ninth sample: 13000 us after the last packet, with eight samples
    of sum 80 and the radio answering 21, the average 11 enters the
    smoothed value and sum and count restart. *)
Lemma rssi_sampling_witness :
  exists w',
    rx_loop_rssi sample_headers 14000 (rssi_world 8 80) = Done tt w' /\
    RSSI_count (globals w') = 0 /\
    RSSI_sum (globals w') = 0 /\
    lastRSSIvalue (globals w') = 21 /\
    smoothRSSI (globals w') = (40 * 3 + (80 + 21) / 9) / 4.
Proof.
  destruct (rssi_sampling sample_headers 14000 14000 (rssi_world 8 80) eq_refl)
    as (w' & E & _ & H).
  destruct (H eq_refl) as (_ & _ & Hg & _).
  exists w'. split; [exact E |]. rewrite Hg. repeat split.
Defined.

(** With seven samples taken, a sample is read 13000 us after the last
    packet, beyond [interval - 1500 = 12500]; it is the eighth, and neither
    is the average computed nor are sum and count reset.  At 100 us after
    the last packet no sample is taken. *)
Lemma rssi_sampling_counterexample :
  exists w',
    rx_loop_rssi sample_headers 14000 (rssi_world 7 70) = Done tt w' /\
    getInterval sample_headers (bind_data (dev (rssi_world 7 70))) = Some 14000 /\
    14000 - lastPacketTimeUs (globals (rssi_world 7 70)) = 13000 /\
    lastRSSIvalue (globals w') = 21 /\
    RSSI_count (globals w') = 8 /\
    RSSI_sum (globals w') = 91 /\
    smoothRSSI (globals w') = 40 /\
    rx_loop_rssi sample_headers 1100 (rssi_world 7 70) = Done tt (rssi_world 7 70).
Proof.
  eexists. split; [vm_compute; reflexivity |]. by_evaluation.
Qed.

(** One group and a trailing byte, [config = 1]. *)
Lemma unpackChannels_decodes_witness :
  exists r,
    unpackChannels 1 (replicate 16 0) [1; 2; 3; 4; 0xE4; 0x1B] = Some r /\
    r !! 1%nat = Some (fine_channel 0xE4 2 1) /\
    r !! 5%nat = Some (coarse_channel 0x1B 2) /\
    r !! 8%nat = Some 0.
Proof.
  destruct (unpackChannels_decodes 1 (replicate 16 0) [1; 2; 3; 4; 0xE4; 0x1B])
    as (r & E & _ & Hfine & Hcoarse & Hrest & _).
  - lia.
  - repeat (constructor; [unfold is_byte; lia |]). constructor.
  - vm_compute. lia.
  - vm_compute. lia.
  - exists r. split; [exact E |]. split; [| split].
    + exact (Hfine 0%nat 1%nat ltac:(vm_compute; lia) ltac:(lia)).
    + exact (Hcoarse 1%nat eq_refl ltac:(lia)).
    + rewrite (Hrest 8%nat ltac:(vm_compute; lia)). reflexivity.
Defined.

(** For [config = 1] the code decodes one group from the first five bytes
    and the coarse channels from the sixth, most significant bits first;
    the wording of the specification decodes no group and reads the coarse
    channels from the first byte, least significant bits first. *)
Lemma unpackChannels_counterexample :
  exists r,
    unpackChannels 1 (replicate 16 0) [1; 2; 3; 4; 0xE4; 0x1B] = Some r /\
    take 8 r = [1; 258; 515; 772; 12; 345; 678; 1011] /\
    spec_channels 1 [1; 2; 3; 4; 0xE4; 0x1B] = [345; 12; 12; 12] /\
    map (coarse_channel 0x1B) (seq 0 4) = [1011; 678; 345; 12] /\
    take 4 r <> spec_channels 1 [1; 2; 3; 4; 0xE4; 0x1B].
Proof.
  eexists. split; [vm_compute; reflexivity |]. by_evaluation.
Qed.

(** Two iterations around an interrupt on a linked receiver. *)
Lemma link_acquired_sticky_witness :
  exists w',
    session sample_headers [Iteration; Interrupt; Iteration] linked_world = Done tt w' /\
    link_acquired (dev w') = true.
Proof.
  assert (exists w', session sample_headers [Iteration; Interrupt; Iteration] linked_world
                     = Done tt w') as [w' E]
    by (vm_compute; eexists; reflexivity).
  exists w'. split; [exact E |].
  destruct (link_acquired_sticky sample_headers linked_world w' eq_refl) as (_ & _ & _ & _ & H).
  exact (H _ E).
Defined.

(** Setup and a short session on the sample receiver with three hop
    channels. *)
Lemma hop_channel_in_range_witness :
  exists w',
    (pios_openlrs_setup sample_headers false;;
     session sample_headers [Iteration; Interrupt; Iteration]) sample_world = Done tt w' /\
    0 <= rf_channel (dev w') < hopcount (globals w') /\
    hopcount (globals w') = 3.
Proof.
  destruct ((pios_openlrs_setup sample_headers false;;
             session sample_headers [Iteration; Interrupt; Iteration]) sample_world)
    as [[] w' | |] eqn:E; [| vm_compute in E; discriminate E ..].
  pose proof E as E0. vm_compute in E0. injection E0 as E0.
  exists w'. split; [reflexivity |].
  destruct (hop_channel_in_range sample_headers false [Iteration; Interrupt; Iteration]
              sample_world w' ltac:(by_evaluation) E
              ltac:(rewrite <- E0; vm_compute; discriminate))
    as (Hch & Hhc & _).
  split; [exact Hch |]. rewrite Hhc, <- E0. reflexivity.
Defined.

(** With an empty hop list setup ends with channel 0 and hop count 0, so
    the channel is not below the hop count. *)
Lemma hop_channel_counterexample :
  exists w',
    pios_openlrs_setup sample_headers false hopless_world = Done tt w' /\
    BindData.hopchannel (bind_data (dev w')) = replicate 24 0 /\
    hop_count 24 (BindData.hopchannel (bind_data (dev w'))) = 0 /\
    hopcount (globals w') = 0 /\
    rf_channel (dev w') = 0 /\
    ~ rf_channel (dev w') < hopcount (globals w').
Proof.
  eexists. split; [vm_compute; reflexivity |]. by_evaluation.
Qed.

(** A bind packet of version 9 with index 7 is accepted; afterwards
    [getInterval] and [init_rfm] read outside the table. *)
Lemma modem_params_unchecked_witness :
  exists w',
    bind_receive_packet sample_headers (bind_world 9 7) = Done (Some 1) w' /\
    BindData.modem_params (bind_data (dev w')) = 7 /\
    getInterval sample_headers (bind_data (dev w')) = None /\
    init_rfm sample_headers false w' = Undefined.
Proof.
  destruct (modem_params_unchecked sample_headers) as (_ & _ & H).
  destruct (H (bind_world 9 7) 0 (sample_block 9 7) (replicate 100 0x15)
              (sample_bind_data_of_bytes (sample_block 9 7))
              eq_refl eq_refl ltac:(by_evaluation) ltac:(vm_compute; lia) eq_refl
              ltac:(vm_compute; tauto) eq_refl eq_refl ltac:(by_evaluation))
    as (w' & E & HB & _ & HI & HU).
  exists w'. split; [exact E |]. split; [rewrite HB; reflexivity |]. split; [exact HI |].
  apply HU.
  pose proof E as E0. vm_compute in E0. injection E0 as <-. vm_compute. lia.
Defined.

(** At 100 MHz, below the range of the radio, the band number wraps in
    [uint16_t]: it is 65522, where the formula gives -14. *)
Lemma carrier_counterexample :
  carrier_hbsel 100000000 = 0 /\
  100000000 / (10000000 * (1 + 0)) - 24 = -14 /\
  carrier_fb 100000000 = 65522 /\
  carrier_fb 100000000 <> 100000000 / (10000000 * (1 + 0)) - 24.
Proof. by_evaluation. Qed.



(** A bind packet of version 9 is acknowledged, stored and answered
    with 1. *)
Lemma bind_packet_witness :
  exists w' evs,
    bind_receive_packet sample_headers (bind_world 9 2) = Done (Some 1) w' /\
    bind_data (dev w') = sample_bind_data /\
    trace w' = trace (bind_world 9 2) ++ evs /\
    effects evs =
      [Write 0x3E 1; Write 0x7F 66; Write 0x05 0x04; Write 0x07 0x09;
       Store sample_bind_data; Save].
Proof.
  destruct (bind_packet sample_headers (bind_world 9 2) 0 (sample_block 9 2) (replicate 100 0x15)
              eq_refl eq_refl ltac:(by_evaluation) ltac:(by_evaluation))
    as (Hall & Hdone).
  destruct (Hdone ltac:(vm_compute; lia)) as (_ & Hgood).
  destruct Hgood as (w' & E);
    [reflexivity | discriminate | left; split; [reflexivity | vm_compute; tauto] |].
  destruct (Hall _ _ E) as (HB & evs & Ht & _ & binding & Hb & Hfx).
  exists w', evs. split; [exact E |]. split; [exact HB |]. split; [exact Ht |].
  rewrite Hfx. injection Hb as <-. reflexivity.
Defined.

(** A bind packet of version 8 is refused, and [bind_data], which had
    version 9, now holds the refused block. *)
Lemma bind_packet_counterexample :
  exists w',
    bind_receive_packet sample_headers (bind_world 8 2) = Done None w' /\
    BindData.version (bind_data (dev (bind_world 8 2))) = 9 /\
    BindData.version (bind_data (dev w')) = 8 /\
    bind_data (dev w') <> bind_data (dev (bind_world 8 2)).
Proof.
  eexists. split; [vm_compute; reflexivity |]. by_evaluation.
Qed.

(** ** Instances of the further properties *)

(** The carrier of the sample, 433.92 MHz: band 19, carrier word 25088. *)
Lemma carrier_registers_decode_witness :
  let f := 433920000 in
  0 <= carrier_fb f < 24 /\
  Z.land (carrier_fb f) RFM22.fb_mask = carrier_fb f /\
  0 <= carrier_fc f < 64000 /\
  u8 (Z.shiftr (carrier_fc f) 8) * 2 ^ 8 + u8 (Z.land (carrier_fc f) 0xff) = carrier_fc f /\
  0 <= 4 * f - (1 + carrier_hbsel f) * (40000000 * (carrier_fb f + 24) + 625 * carrier_fc f)
    < 625 * (1 + carrier_hbsel f).
Proof. exact (carrier_registers_decode 433920000 ltac:(lia)). Defined.

Lemma getInterval_range_witness :
  2000 <= 14000 < 2 ^ 21 /\ (1000 | 14000) /\
  u32 (14000 - 1500) = 14000 - 1500 /\ u32 (14000 + 1000) = 14000 + 1000.
Proof. exact (getInterval_range sample_headers sample_bind_data 14000 eq_refl). Defined.

Lemma rssi_accumulator_bounded_witness :
  exists w',
    rx_loop_rssi sample_headers 14000 (rssi_world 8 80) = Done tt w' /\
    rssi_inv (globals w') /\ smoothRSSI (globals w') = 32.
Proof.
  destruct (rx_loop_rssi sample_headers 14000 (rssi_world 8 80))
    as [[] w' | |] eqn:E; [| vm_compute in E; discriminate E ..].
  pose proof E as E0. vm_compute in E0. injection E0 as E0.
  exists w'. split; [reflexivity |].
  destruct (rssi_accumulator_bounded sample_headers 14000 (rssi_world 8 80) w'
              ltac:(by_evaluation) E) as (Hi & _).
  split; [exact Hi |]. rewrite <- E0. reflexivity.
Defined.

Lemma search_mode_witness :
  exists w',
    rx_loop_link sample_headers 50000 50 searching_world = Done tt w' /\
    willhop (globals w') = true /\
    lastPacketTimeUs (globals w') = 50000 /\
    numberOfLostPackets (globals w') = hopcount (globals w').
Proof.
  destruct (search_mode sample_headers 50000 50 14000 searching_world
              eq_refl eq_refl eq_refl ltac:(by_evaluation))
    as (w' & E & _ & _ & _ & Hg & Hl).
  exists w'. split; [exact E |]. split; [rewrite Hg; reflexivity |].
  split; [rewrite Hg; reflexivity | exact Hl].
Defined.

Lemma acquisition_slow_hop_witness :
  rx_loop_link sample_headers 50000 50 hopless_world =
  Done tt
    (mk_world (dev hopless_world)
       (set_willhop true (set_lastPacketTimeUs 50000 (globals hopless_world)))
       (env hopless_world) (trace hopless_world)).
Proof.
  exact (acquisition_slow_hop sample_headers 50000 50 14000 hopless_world eq_refl eq_refl).
Defined.

Lemma link_block_frame_witness :
  exists w',
    rx_loop_link sample_headers 15001 16 linked_world = Done tt w' /\
    dev w' = dev linked_world /\
    hopcount (globals w') = 3 /\
    numberOfLostPackets (globals w') = 1.
Proof.
  destruct (rx_loop_link sample_headers 15001 16 linked_world)
    as [[] w' | |] eqn:E; [| vm_compute in E; discriminate E ..].
  pose proof E as E0. vm_compute in E0. injection E0 as E0.
  exists w'. split; [reflexivity |].
  destruct (link_block_frame sample_headers 15001 16 linked_world w' E)
    as (Hd & _ & _ & _ & _ & Hh & _).
  split; [exact Hd |]. split; [rewrite Hh; reflexivity |]. rewrite <- E0. reflexivity.
Defined.

Lemma lost_packets_bounded_witness :
  exists w',
    (pios_openlrs_setup sample_headers false;;
     session sample_headers [Iteration; Interrupt; Iteration]) sample_world = Done tt w' /\
    0 <= numberOfLostPackets (globals w') <= hopcount (globals w') /\
    hopcount (globals w') <= 24.
Proof.
  destruct ((pios_openlrs_setup sample_headers false;;
             session sample_headers [Iteration; Interrupt; Iteration]) sample_world)
    as [[] w' | |] eqn:E; [| vm_compute in E; discriminate E ..].
  exists w'. split; [reflexivity |].
  exact (lost_packets_bounded sample_headers false [Iteration; Interrupt; Iteration]
           sample_world w' ltac:(by_evaluation) eq_refl E).
Defined.

Lemma setup_bus_discipline_witness :
  exists w' evs,
    pios_openlrs_setup sample_headers false sample_world = Done tt w' /\
    trace w' = trace sample_world ++ evs /\ bus_run true idle evs = Some idle.
Proof.
  destruct (pios_openlrs_setup sample_headers false sample_world)
    as [[] w' | |] eqn:E; [| vm_compute in E; discriminate E ..].
  destruct (setup_bus_discipline sample_headers false sample_world w'
              ltac:(vm_compute; discriminate) E) as (evs & Ht & Hb).
  exists w', evs. split; [reflexivity |]. split; assumption.
Defined.

Lemma session_bus_discipline_witness :
  exists w' evs,
    session sample_headers [Iteration; Interrupt; Iteration] linked_world = Done tt w' /\
    trace w' = trace linked_world ++ evs /\ bus_run false idle evs = Some idle.
Proof.
  destruct (session sample_headers [Iteration; Interrupt; Iteration] linked_world)
    as [[] w' | |] eqn:E; [| vm_compute in E; discriminate E ..].
  destruct (session_bus_discipline sample_headers [Iteration; Interrupt; Iteration]
              linked_world w' ltac:(vm_compute; discriminate) E) as (evs & Ht & Hb).
  exists w', evs. split; [reflexivity |]. split; assumption.
Defined.

Lemma lockup_probe_unclaimed_witness :
  exists w' pre rest,
    pios_openlrs_rx_loop sample_headers linked_world = Done tt w' /\
    trace w' =
      trace linked_world ++ pre
      ++ [WaituS 1; PinSet 0; TransferBlock [0x0C; 0xFF] true; PinSet 1] ++ rest /\
    bus_run true idle
      (pre ++ [WaituS 1; PinSet 0; TransferBlock [0x0C; 0xFF] true; PinSet 1] ++ rest)
    = None.
Proof.
  destruct (pios_openlrs_rx_loop sample_headers linked_world)
    as [[] w' | |] eqn:E; [| vm_compute in E; discriminate E ..].
  destruct (lockup_probe_unclaimed sample_headers linked_world w'
              ltac:(vm_compute; discriminate) E) as (pre & rest & Ht & _ & Hb).
  exists w', pre, rest. split; [reflexivity |]. split; assumption.
Defined.

(** Channel 1 of the sample is hop channel 9; the low byte of the magic
    number is 0xD4. *)
Lemma channel_registers_witness :
  exists w' evs,
    rfmSetChannel 1 sample_world = Done tt w' /\
    dev w' = dev sample_world /\ globals w' = globals sample_world /\
    env w' = env sample_world /\
    trace w' = trace sample_world ++ evs /\
    reg_writes evs = [(0x79, 9); (0x3D, 0xD5); (0x42, 0xD5)].
Proof. exact (channel_registers 1 sample_world ltac:(lia)). Defined.

Lemma hop_cycles_witness :
  exists w' evs,
    rx_loop_hop sample_headers hopping_world = Done tt w' /\
    rf_channel (dev w') = 1 /\
    willhop (globals w') = false /\
    trace w' = trace hopping_world ++ evs /\
    reg_writes evs = [(0x79, 9); (0x3D, 0xD5); (0x42, 0xD5)].
Proof.
  assert (hop_ok sample_headers hopping_world) as Hok.
  { unfold hop_ok, hop_inv. cbn. repeat split; try lia.
    - intros i Hi. assert (i = 0 \/ i = 1 \/ i = 2) as [-> | [-> | ->]] by lia;
        eexists; (split; [reflexivity | discriminate]).
    - right. reflexivity. }
  destruct (hop_cycles sample_headers hopping_world ltac:(by_evaluation) Hok) as (_ & H).
  destruct (H eq_refl) as (w' & evs & hop & E & Hd & Hg & _ & Hl & _ & Ht & Hw).
  exists w', evs. split; [exact E |]. rewrite Hd, Hg.
  split; [reflexivity |]. split; [reflexivity |]. split; [exact Ht |].
  rewrite Hw. vm_compute in Hl. injection Hl as <-. reflexivity.
Defined.

Lemma header_is_magic_witness :
  exists w' evs,
    init_rfm_header 4 0 0xA1B2C3D4 sample_world = Done tt w' /\
    trace w' = trace sample_world ++ evs /\
    reg_writes evs =
      [(0x3A, 0xA1); (0x3F, 0xA1); (0x3B, 0xB2); (0x40, 0xB2);
       (0x3C, 0xC3); (0x41, 0xC3); (0x3D, 0xD4); (0x42, 0xD4)].
Proof.
  destruct (header_is_magic 0xA1B2C3D4 sample_world ltac:(lia))
    as (w' & evs & E & _ & _ & _ & Ht & Hw & _).
  exists w', evs. split; [exact E |]. split; [exact Ht | exact Hw].
Defined.

Lemma packet_received_witness :
  exists w',
    rx_loop_received sample_headers packet_world = Done tt w' /\
    link_acquired (dev w') = true /\
    ppm (dev w') = [10; 276; 542; 808; 818; 572; 326; 80; 0; 0; 0; 0; 0; 0; 0; 0] /\
    lastPacketTimeUs (globals w') = 25000 /\
    numberOfLostPackets (globals w') = 0 /\
    updates (trace w') =
      [(7, [10; 276; 542; 808; 818; 572; 326; 80; 0; 0; 0; 0; 0; 0; 0; 0])].
Proof.
  destruct (packet_received sample_headers packet_world 0x15 0 sample_packet
              (replicate 100 0x15)
              [10; 276; 542; 808; 818; 572; 326; 80; 0; 0; 0; 0; 0; 0; 0; 0]
              eq_refl eq_refl ltac:(vm_compute; lia) eq_refl eq_refl)
    as (w' & E & _ & _ & Hp & Hl & _ & _ & Ht & Hn & _ & _ & _ & _ & _ & _ & Hu).
  exists w'. split; [exact E |]. split; [exact Hl |]. split; [exact Hp |].
  split; [exact Ht |]. split; [exact Hn | exact Hu].
Defined.

Lemma bind_receive_untimed_witness :
  exists w',
    pios_openlrs_bind_receive sample_headers 0 binding_world = Done 1 w' /\
    BindData.version (bind_data (dev w')) = 9.
Proof.
  destruct (pios_openlrs_bind_receive sample_headers 0 binding_world)
    as [r w' | |] eqn:E; [| vm_compute in E; discriminate E ..].
  destruct (bind_receive_untimed sample_headers binding_world w' r E) as (-> & Hv).
  exists w'. split; [reflexivity | exact Hv].
Defined.

Lemma task_start_bound_witness :
  exists w',
    task_start sample_headers true binding_world = Done true w' /\
    BindData.version (bind_data (dev w')) = 9.
Proof.
  destruct (task_start sample_headers true binding_world)
    as [[] w' | |] eqn:E; [| vm_compute in E; discriminate E ..].
  exists w'. split; [reflexivity |].
  exact (proj1 (task_start_bound sample_headers true binding_world w' E)).
Defined.

Lemma ack_times_out_witness :
  exists w',
    tx_packet sample_headers [66] 1 waiting_world = Done tt w' /\
    rf_mode (dev w') = Transmit /\
    us_clock (env w') = [5] /\
    irq_script (env w') = [true].
Proof.
  destruct (ack_times_out sample_headers waiting_world 1000 200000 [2000; 3000] [5] [true]
              eq_refl eq_refl
              ltac:(repeat constructor; by_evaluation) ltac:(by_evaluation))
    as (w' & E & Hm & _ & Hc & Hi & _).
  exists w'. split; [exact E |]. split; [exact Hm |]. split; [exact Hc | exact Hi].
Defined.

(** Two packets of format 1 that differ in the seventh byte only. *)
Lemma unpack_reads_packet_witness :
  unpackChannels 1 (replicate 16 0) [1; 2; 3; 4; 5; 6; 99]
  = unpackChannels 1 (replicate 16 0) [1; 2; 3; 4; 5; 6; 77].
Proof.
  exact (proj2 (unpack_reads_packet 1 (replicate 16 0) [1; 2; 3; 4; 5; 6; 99]
                  [1; 2; 3; 4; 5; 6; 77] ltac:(lia)) eq_refl).
Defined.

(** With a null handle the task returns at once. *)
Lemma task_never_returns_witness :
  exists w',
    pios_openlrs_task sample_headers false sample_world = Done tt w' /\ w' = sample_world.
Proof.
  destruct (pios_openlrs_task sample_headers false sample_world)
    as [[] w' | |] eqn:E; [| vm_compute in E; discriminate E ..].
  exists w'. split; [reflexivity |].
  exact (proj2 (task_never_returns sample_headers false sample_world w' E)).
Defined.

Lemma init_rfm_image_witness :
  exists w' row evs,
    init_rfm sample_headers false sample_world = Done tt w' /\
    modem_params !! 2%nat = Some row /\
    trace w' = trace sample_world ++ evs /\
    reg_writes evs = init_image sample_headers false 0 sample_bind_data row.
Proof.
  destruct (init_rfm sample_headers false sample_world)
    as [[] w' | |] eqn:E; [| vm_compute in E; discriminate E ..].
  destruct (init_rfm_image sample_headers false sample_world w' E)
    as (row & evs & Hr & Ht & Hw).
  exists w', row, evs. split; [reflexivity |]. split; [exact Hr |]. split; assumption.
Defined.
